(** * Operator patterns: reconcilers, conditions, finalizers, retry backoff

    A shallow embedding of the Go sources of the operator pattern library
    (patterns/reconciler.go, patterns/advanced-reconciler.go,
    patterns/crd.go, patterns/webhook.go) and of the two example operators
    (database-operator, simple-operator), with the properties their
    specification states about them.

    Go values are modelled as follows.
    - [string] is Rocq's [string]; a Go [map[string]string] is an
      [option (gmap string string)], where [None] is the nil map.
    - [int], [int64] and [time.Duration] are [Z], with the 64-bit
      wrap-around written out where the code does arithmetic.
    - A pointer receiver that is mutated is a value that is passed in and
      returned.
    - A [(ctrl.Result, error)] pair is a [Result * option error].
    - Calls through [client.Client] act on an explicit store, in the manner
      of controller-runtime's fake client, see [World]. *)

From stdpp Require Import base option list gmap strings.
From Stdlib Require Import ZArith Lia Ascii DecimalString DecimalZ DecimalPos.

Open Scope Z_scope.

(** ** apimachinery: metav1 *)

Module metav1.

(** [metav1.Time], as a number of seconds. *)
Definition Time := Z.

(** [metav1.ConditionStatus] is a string type; the three usual values. *)
Definition ConditionStatus := string.
Definition ConditionTrue : ConditionStatus := "True"%string.
Definition ConditionFalse : ConditionStatus := "False"%string.
Definition ConditionUnknown : ConditionStatus := "Unknown"%string.

Record Condition := mkCondition {
  Type_ : string;
  Status : ConditionStatus;
  Reason : string;
  Message : string;
  LastTransitionTime : Time;
}.

#[global] Instance Condition_eq_dec : EqDecision Condition.
Proof. solve_decision. Defined.

Definition setLastTransitionTime (t : Time) (c : Condition) : Condition :=
  {| Type_ := Type_ c; Status := Status c; Reason := Reason c;
     Message := Message c; LastTransitionTime := t |}.

End metav1.

Export metav1.

(** ** Condition helpers (api types)

    [SetCondition] and [GetCondition] are declared three times in the
    sources, on [MyResource] (patterns/crd.go), on [Database] and on
    [Cocktail], with the same body acting on [Status.Conditions]. The body is
    embedded once, on the conditions slice; [now] is the value that
    [metav1.Now()] returns during the call. *)

Module Conditions.

(** The body of [for i, condition := range Conditions]. [rest] is what is
    left to visit, [i] the index of its head, [Conditions] the whole slice.
    The result is [found] and the slice after the loop. The loop variable
    [condition] is a copy of the element: the assignment to its
    [LastTransitionTime] changes the copy, and the element is then
    overwritten with [newCondition]. *)
Fixpoint rangeConditions (rest : list Condition) (i : nat)
    (newCondition : Condition) (Conditions : list Condition)
  : bool * list Condition :=
  match rest with
  | [] => (false, Conditions)
  | condition :: rest' =>
      if decide (Type_ condition = Type_ newCondition) then
        let condition :=
          if decide (Status condition ≠ Status newCondition)
          then setLastTransitionTime (LastTransitionTime newCondition) condition
          else condition in
        (true, <[i := newCondition]> Conditions)
      else rangeConditions rest' (S i) newCondition Conditions
  end.

Definition SetCondition (now : Time) (Conditions : list Condition)
    (conditionType : string) (status : ConditionStatus)
    (reason message : string) : list Condition :=
  let newCondition :=
    {| Type_ := conditionType; Status := status; Reason := reason;
       Message := message; LastTransitionTime := now |} in
  let '(found, Conditions') :=
    rangeConditions Conditions 0 newCondition Conditions in
  if negb found then Conditions' ++ [newCondition] else Conditions'.

Fixpoint GetCondition (Conditions : list Condition) (conditionType : string)
  : option Condition :=
  match Conditions with
  | [] => None
  | condition :: rest =>
      if decide (Type_ condition = conditionType) then Some condition
      else GetCondition rest conditionType
  end.

Definition IsReady (Conditions : list Condition) : bool :=
  match GetCondition Conditions "Ready" with
  | Some condition => bool_decide (Status condition = ConditionTrue)
  | None => false
  end.

(** The condition types of a slice, in order. *)
Definition types (Conditions : list Condition) : list string :=
  Type_ <$> Conditions.

(** What the loop computes, by recursion on the slice alone: the slice with
    its first condition of the new type replaced, if there is one. Used to
    reason about [rangeConditions]. *)
Fixpoint replaceFirst (newCondition : Condition) (Conditions : list Condition)
  : option (list Condition) :=
  match Conditions with
  | [] => None
  | condition :: rest =>
      if decide (Type_ condition = Type_ newCondition)
      then Some (newCondition :: rest)
      else (condition ::.) <$> replaceFirst newCondition rest
  end.

End Conditions.

(** ** apimachinery and controller-runtime types *)

(** [time.Duration], in nanoseconds (an [int64]). *)
Definition Duration := Z.
Definition Second : Duration := 1000000000.
Definition Minute : Duration := 60 * Second.

(** [metav1.ObjectMeta], the fields the controllers read or write. *)
Record ObjectMeta := mkObjectMeta {
  Name : string;
  Namespace : string;
  Generation : Z;
  DeletionTimestamp : option Time;
  Finalizers : list string;
  Labels : option (gmap string string);
  Annotations : option (gmap string string);
}.

Definition setFinalizers (f : list string) (m : ObjectMeta) : ObjectMeta :=
  {| Name := Name m; Namespace := Namespace m; Generation := Generation m;
     DeletionTimestamp := DeletionTimestamp m; Finalizers := f;
     Labels := Labels m; Annotations := Annotations m |}.

Definition setLabels (l : option (gmap string string)) (m : ObjectMeta)
  : ObjectMeta :=
  {| Name := Name m; Namespace := Namespace m; Generation := Generation m;
     DeletionTimestamp := DeletionTimestamp m; Finalizers := Finalizers m;
     Labels := l; Annotations := Annotations m |}.

Definition setAnnotations (a : option (gmap string string)) (m : ObjectMeta)
  : ObjectMeta :=
  {| Name := Name m; Namespace := Namespace m; Generation := Generation m;
     DeletionTimestamp := DeletionTimestamp m; Finalizers := Finalizers m;
     Labels := Labels m; Annotations := a |}.

(** [IsZero] on a pointer to [metav1.Time]: true for a nil pointer and for
    the zero instant. [Time] counts seconds from that instant. *)
Definition IsZero (t : option Time) : bool :=
  match t with
  | None => true
  | Some t => bool_decide (t = 0)
  end.

(** [types.NamespacedName], as the pair (namespace, name). *)
Definition NamespacedName := (string * string)%type.

(** [ctrl.Request] carries only a [NamespacedName]. *)
Definition Request := NamespacedName.

(** Errors: API status errors by reason, any other error by its text, and
    [fmt.Errorf("...: %w", err)] wrapping. *)
Inductive error :=
  | ErrNotFound
  | ErrConflict
  | ErrOther (msg : string)
  | ErrWrap (msg : string) (err : error).

#[global] Instance error_eq_dec : EqDecision error.
Proof. solve_decision. Defined.

(** [errors.IsNotFound]; it looks through wrapping. *)
Fixpoint IsNotFound (err : error) : bool :=
  match err with
  | ErrNotFound => true
  | ErrWrap _ err' => IsNotFound err'
  | _ => false
  end.

(** [client.IgnoreNotFound]. *)
Definition IgnoreNotFound (err : option error) : option error :=
  match err with
  | Some e => if IsNotFound e then None else Some e
  | None => None
  end.

(** [ctrl.Result]. *)
Record Result := mkResult {
  Requeue : bool;
  RequeueAfter : Duration;
}.

#[global] Instance Result_eq_dec : EqDecision Result.
Proof. solve_decision. Defined.

(** [ctrl.Result{}] *)
Definition Result0 : Result := {| Requeue := false; RequeueAfter := 0 |}.

(** [client.Object], as far as the controllers use it: access to the
    embedded [ObjectMeta], and the split between the main resource and its
    status subresource. [withStatusOf src dst] is [dst] with the status of
    [src]. *)
Class Object (T : Type) := {
  GetObjectMeta : T → ObjectMeta;
  SetObjectMeta : ObjectMeta → T → T;
  withStatusOf : T → T → T;
}.

Definition keyOf `{Object T} (obj : T) : NamespacedName :=
  (Namespace (GetObjectMeta obj), Name (GetObjectMeta obj)).

(** The accessors of the three kinds are record projections and updates;
    these are the equations they satisfy. *)
Class ObjectLaws (T : Type) `{Object T} := {
  Get_SetObjectMeta m (o : T) : GetObjectMeta (SetObjectMeta m o) = m;
  Get_withStatusOf (src dst : T) :
    GetObjectMeta (withStatusOf src dst) = GetObjectMeta dst;
}.

(** *** controllerutil: finalizers *)

Module controllerutil.
Section Finalizers.
Context `{Object T}.

Definition ContainsFinalizer (o : T) (finalizer : string) : bool :=
  bool_decide (finalizer ∈ Finalizers (GetObjectMeta o)).

(** Appends the finalizer unless it is already there. *)
Definition AddFinalizer (o : T) (finalizer : string) : T :=
  let f := Finalizers (GetObjectMeta o) in
  if bool_decide (finalizer ∈ f) then o
  else SetObjectMeta (setFinalizers (f ++ [finalizer]) (GetObjectMeta o)) o.

(** Drops every occurrence of the finalizer. *)
Definition RemoveFinalizer (o : T) (finalizer : string) : T :=
  let f := Finalizers (GetObjectMeta o) in
  SetObjectMeta
    (setFinalizers (filter (λ e, e ≠ finalizer) f) (GetObjectMeta o)) o.
End Finalizers.
End controllerutil.

(** ** The API server behind [client.Client]

    The controllers talk to the API server only through [client.Client].
    The server is modelled as controller-runtime's fake client is built: a
    store of objects of the primary kind, keyed by namespace and name, and a
    store of Deployments. Each call first consults [faults], a script of
    injected outcomes, one entry per call: [Some err] makes the call fail
    with [err] and leave the store alone, [None] (or an exhausted script)
    lets it go through. Every call and every invocation of a controller hook
    is appended to [trace].

    The kinds have a status subresource: an update of the object leaves the
    stored status alone, and a status update writes nothing but the
    status. An object that is terminating and has lost its last finalizer
    is erased. What a write leaves in the object passed by the caller (the
    answer of the server) is modelled where the caller reads the object
    again, see [StatusUpdateInPlace]. *)

(** [appsv1.Deployment], as far as the controllers read it. *)
Record Deployment := mkDeployment {
  deploymentName : string;
  deploymentReadyReplicas : Z;
}.

Module client.
Section Client.
Context {T : Type} `{Object T}.

Inductive Event :=
  | EvGet (key : NamespacedName)
  | EvUpdate (obj : T) (err : option error)
  | EvStatusUpdate (obj : T) (err : option error)
  | EvList (namespace : string)
  | EvGetDeployment (key : NamespacedName)
  | EvCreateOrPatch (kind : string) (key : NamespacedName)
  | EvCall (function : string)
  | EvRecorder (eventtype reason message : string).

Record World := mkWorld {
  objects : gmap NamespacedName T;
  deployments : gmap NamespacedName Deployment;
  faults : list (option error);
  clock : Time;
  trace : list Event;
}.

(** State passing: a computation reads and updates the [World]. *)
Definition M (A : Type) : Type := World → A * World.

#[global] Instance M_ret : MRet M := λ A a w, (a, w).
#[global] Instance M_bind : MBind M :=
  λ A B f m w, let '(a, w') := m w in f a w'.

Definition setObjects (o : gmap NamespacedName T) (w : World) : World :=
  {| objects := o; deployments := deployments w; faults := faults w;
     clock := clock w; trace := trace w |}.
Definition setDeployments (d : gmap NamespacedName Deployment) (w : World)
  : World :=
  {| objects := objects w; deployments := d; faults := faults w;
     clock := clock w; trace := trace w |}.
Definition setFaults (f : list (option error)) (w : World) : World :=
  {| objects := objects w; deployments := deployments w; faults := f;
     clock := clock w; trace := trace w |}.
Definition setTrace (t : list Event) (w : World) : World :=
  {| objects := objects w; deployments := deployments w;
     faults := faults w; clock := clock w; trace := t |}.

(** The next injected outcome. *)
Definition fault : M (option error) := λ w,
  match faults w with
  | [] => (None, w)
  | f :: fs => (f, setFaults fs w)
  end.

Definition emit (e : Event) : M unit := λ w,
  (tt, setTrace (trace w ++ [e]) w).

(** [metav1.Now()] *)
Definition Now : M Time := λ w, (clock w, w).

(** [r.Get(ctx, key, obj)]: the stored object, or the error. *)
Definition Get (key : NamespacedName) : M (T + error) :=
  f ← fault;
  _ ← emit (EvGet key);
  match f with
  | Some err => mret (inr err)
  | None => λ w,
      match objects w !! key with
      | Some obj => (inl obj, w)
      | None => (inr ErrNotFound, w)
      end
  end.

(** An object that is terminating and has no finalizer left: the server
    does not keep it. *)
Definition released (obj : T) : bool :=
  negb (IsZero (DeletionTimestamp (GetObjectMeta obj)))
  && bool_decide (Finalizers (GetObjectMeta obj) = []).

(** The error of an update that would change the deletion timestamp. *)
Definition ErrImmutable : error :=
  ErrOther "metadata.deletionTimestamp field is immutable".

(** [r.Update(ctx, obj)]: replaces the stored object, except for its
    status, which only the status subresource writes. The deletion
    timestamp is set by the server alone: an update that carries another
    one than the stored object is refused. When the update leaves a
    terminating object without finalizers, the object is erased from the
    store. No caller reads [obj] again after the call, other than to name
    it in an event, so what the client leaves in [obj] is not modelled. *)
Definition Update (obj : T) : M (option error) :=
  f ← fault;
  match f with
  | Some err => _ ← emit (EvUpdate obj (Some err)); mret (Some err)
  | None => λ w,
      match objects w !! keyOf obj with
      | Some old =>
          if bool_decide (DeletionTimestamp (GetObjectMeta obj)
                          = DeletionTimestamp (GetObjectMeta old))
          then
            (None,
             setTrace (trace w ++ [EvUpdate obj None])
               (setObjects
                  (if released obj then delete (keyOf obj) (objects w)
                   else <[keyOf obj := withStatusOf old obj]> (objects w))
                  w))
          else
            (Some ErrImmutable,
             setTrace (trace w ++ [EvUpdate obj (Some ErrImmutable)]) w)
      | None =>
          (Some ErrNotFound,
           setTrace (trace w ++ [EvUpdate obj (Some ErrNotFound)]) w)
      end
  end.

(** [r.Status().Update(ctx, obj)], as the server sees it: replaces the
    status of the stored object and nothing else. *)
Definition StatusUpdate (obj : T) : M (option error) :=
  f ← fault;
  match f with
  | Some err => _ ← emit (EvStatusUpdate obj (Some err)); mret (Some err)
  | None => λ w,
      match objects w !! keyOf obj with
      | Some old =>
          (None,
           setTrace (trace w ++ [EvStatusUpdate obj None])
             (setObjects
                (<[keyOf obj := withStatusOf obj old]> (objects w)) w))
      | None =>
          (Some ErrNotFound,
           setTrace (trace w ++ [EvStatusUpdate obj (Some ErrNotFound)]) w)
      end
  end.

(** [r.Status().Update(ctx, obj)] together with what it leaves in [obj].
    The server answers an accepted write with the object as it is stored
    after the write, and the client decodes that answer into [obj]: [obj]
    keeps the status that was sent and takes the metadata and the spec of
    the stored object. After a rejected write [obj] is as it was. *)
Definition StatusUpdateInPlace (obj : T) : M (T * option error) :=
  err ← StatusUpdate obj;
  match err with
  | Some err => mret (obj, Some err)
  | None => λ w, ((default obj (objects w !! keyOf obj), None), w)
  end.

(** [r.List(ctx, &list, client.InNamespace(namespace))]: the stored
    objects of that namespace. *)
Definition List (namespace : string) : M (list T * option error) :=
  f ← fault;
  _ ← emit (EvList namespace);
  match f with
  | Some err => mret ([], Some err)
  | None => λ w,
      (filter (λ obj, Namespace (GetObjectMeta obj) = namespace)
         (snd <$> map_to_list (objects w)), None, w)
  end.

(** [r.Get] of a Deployment into a zero-valued one. *)
Definition GetDeployment (key : NamespacedName)
  : M (Deployment * option error) :=
  let zero := {| deploymentName := ""; deploymentReadyReplicas := 0 |} in
  f ← fault;
  _ ← emit (EvGetDeployment key);
  match f with
  | Some err => mret (zero, Some err)
  | None => λ w,
      match deployments w !! key with
      | Some d => ((d, None), w)
      | None => ((zero, Some ErrNotFound), w)
      end
  end.

(** [controllerutil.CreateOrPatch] of the Deployment named [key]: the
    object as the server holds it afterwards. A Deployment that is created
    has no ready replicas yet. The spec written by the mutate function is
    not modelled. *)
Definition CreateOrPatchDeployment (key : NamespacedName)
  : M (Deployment * option error) :=
  let fresh := {| deploymentName := key.2; deploymentReadyReplicas := 0 |} in
  f ← fault;
  _ ← emit (EvCreateOrPatch "Deployment" key);
  match f with
  | Some err => mret (fresh, Some err)
  | None => λ w,
      match deployments w !! key with
      | Some d => ((d, None), w)
      | None => ((fresh, None), setDeployments (<[key := fresh]> (deployments w)) w)
      end
  end.

(** [controllerutil.CreateOrPatch] of any other child object; only the
    outcome of the call is modelled. *)
Definition CreateOrPatchChild (kind : string) (key : NamespacedName)
  : M (option error) :=
  f ← fault;
  _ ← emit (EvCreateOrPatch kind key);
  mret f.

(** [r.Recorder.Event] *)
Definition RecorderEvent (eventtype reason message : string) : M unit :=
  emit (EvRecorder eventtype reason message).


(** The events of normal reconciliation: everything but the fetch of the
    primary object and the update of its metadata. *)
Definition normalLogicEvent (e : Event) : bool :=
  match e with
  | EvGet _ | EvUpdate _ _ => false
  | _ => true
  end.

(** The store holds every object under its own namespace and name. *)
Definition wellKeyed (w : World) : Prop :=
  ∀ key obj, objects w !! key = Some obj → keyOf obj = key.
End Client.
Arguments Event : clear implicits.
Arguments World : clear implicits.
Arguments M : clear implicits.
End client.

(** ** Go integers and [fmt] *)

Module golang.

(** Two's complement wrap-around of a mathematical integer into [int64]. *)
Definition int64 (z : Z) : Z := (z + 2 ^ 63) `mod` 2 ^ 64 - 2 ^ 63.

(** The conversion [uint(x)] of an [int] on a 64-bit platform. *)
Definition uint (z : Z) : Z := z `mod` 2 ^ 64.

Definition minInt64 : Z := - 2 ^ 63.
Definition maxInt64 : Z := 2 ^ 63 - 1.

(** [x << s] on [int64] with an unsigned count: counts of 64 and more give
    0, smaller ones wrap. *)
Definition shl64 (x s : Z) : Z :=
  if bool_decide (s < 64) then int64 (Z.shiftl x s) else 0.

(** [x * y] on [int64]. *)
Definition mul64 (x y : Z) : Z := int64 (x * y).

(** [x + y] on [int64]. *)
Definition add64 (x y : Z) : Z := int64 (x + y).

End golang.

Module fmt.
Import golang.

(** [fmt.Sprintf("%d", n)] *)
Definition Sprintf_d (n : Z) : string :=
  DecimalString.NilZero.string_of_int (Z.to_int n).

(** The white space that the scanner skips before a number, as the table
    of space runes of [fmt] has it. The string is UTF-8, so a rune takes
    one, two or three bytes here. A line feed is not among them: [Sscanf]
    stops on it with an error.

    One byte: tab, vertical tab, form feed, carriage return and space. *)
Definition isSpace (c : Ascii.ascii) : bool :=
  bool_decide (c ∈ ["009"; "011"; "012"; "013"; " "]%char).

(** Two bytes: U+0085 and U+00A0. *)
Definition isSpace2 (c1 c2 : Ascii.ascii) : bool :=
  bool_decide (c1 = "194"%char) && bool_decide (c2 ∈ ["133"; "160"]%char).

(** Three bytes: U+1680; U+2000 to U+200A, U+2028, U+2029 and U+202F;
    U+205F; U+3000. *)
Definition isSpace3 (c1 c2 c3 : Ascii.ascii) : bool :=
  (bool_decide (c1 = "225"%char)
   && bool_decide (c2 = "154"%char) && bool_decide (c3 = "128"%char))
  || (bool_decide (c1 = "226"%char)
      && ((bool_decide (c2 = "128"%char)
           && bool_decide
                (c3 ∈ ["128"; "129"; "130"; "131"; "132"; "133"; "134"; "135";
                       "136"; "137"; "138"; "168"; "169"; "175"]%char))
          || (bool_decide (c2 = "129"%char)
              && bool_decide (c3 = "159"%char))))
  || (bool_decide (c1 = "227"%char)
      && bool_decide (c2 = "128"%char) && bool_decide (c3 = "128"%char)).

Fixpoint SkipSpace (s : string) : string :=
  match s with
  | EmptyString => s
  | String c1 s1 =>
      if isSpace c1 then SkipSpace s1
      else
        match s1 with
        | EmptyString => s
        | String c2 s2 =>
            if isSpace2 c1 c2 then SkipSpace s2
            else
              match s2 with
              | EmptyString => s
              | String c3 s3 =>
                  if isSpace3 c1 c2 c3 then SkipSpace s3 else s
              end
        end
  end.

Definition isDigit (c : Ascii.ascii) : bool :=
  bool_decide (c ∈ ["0"; "1"; "2"; "3"; "4"; "5"; "6"; "7"; "8"; "9"]%char).

(** [scanNumber] with the digit set of the verb [%d], the decimal digits:
    the longest prefix made of them. *)
Fixpoint scanNumber (s : string) : string :=
  match s with
  | String c s' =>
      if isDigit c then String c (scanNumber s') else EmptyString
  | EmptyString => EmptyString
  end.

(** [strconv.ParseInt(tok, 10, 64)] on the digits of the token and its
    sign: no value for an empty token or out of the [int64] range. *)
Definition ParseInt (negative : bool) (tok : string) : option Z :=
  match tok with
  | EmptyString => None
  | _ =>
      u ← DecimalString.NilEmpty.uint_of_string tok;
      let v := if negative then - Z.of_uint u else Z.of_uint u in
      if bool_decide (minInt64 ≤ v ≤ maxInt64) then Some v else None
  end.

(** What [fmt.Sscanf(str, "%d", &v)] leaves in [v]: the number scanned from
    the front of [str], or the old value when the scan fails. The result of
    [Sscanf] itself is ignored by the caller. *)
Definition Sscanf_d (str : string) (v : Z) : Z :=
  let s := SkipSpace str in
  let '(negative, s) :=
    match s with
    | String "-"%char s' => (true, s')
    | String "+"%char s' => (false, s')
    | _ => (false, s)
    end in
  default v (ParseInt negative (scanNumber s)).

(** A string of decimal digits. *)
Fixpoint allDigits (s : string) : Prop :=
  match s with
  | EmptyString => True
  | String c s' => isDigit c = true ∧ allDigits s'
  end.

End fmt.

(** [err.Error()] *)
Fixpoint errorString (err : error) : string :=
  match err with
  | ErrNotFound => "not found"
  | ErrConflict => "the object has been modified"
  | ErrOther msg => msg
  | ErrWrap msg err' => msg +:+ ": " +:+ errorString err'
  end.

(** ** patterns/crd.go: the [MyResource] kind *)

Module patterns.
Import client controllerutil.

Record MyResourceSpec := mkMyResourceSpec {
  Replicas : Z;
  Image : string;
  ConfigMapName : string;
  Parameters : option (gmap string string);
}.

Record MyResourceStatus := mkMyResourceStatus {
  Conditions : list Condition;
  ObservedGeneration : Z;
  ReadyReplicas : Z;
  LastUpdated : option Time;
}.

Record MyResource := mkMyResource {
  Meta : ObjectMeta;
  Spec : MyResourceSpec;
  Status : MyResourceStatus;
}.

Definition setMeta (m : ObjectMeta) (r : MyResource) : MyResource :=
  {| Meta := m; Spec := Spec r; Status := Status r |}.
Definition setSpec (s : MyResourceSpec) (r : MyResource) : MyResource :=
  {| Meta := Meta r; Spec := s; Status := Status r |}.
Definition setStatus (s : MyResourceStatus) (r : MyResource) : MyResource :=
  {| Meta := Meta r; Spec := Spec r; Status := s |}.

Definition setConditions (c : list Condition) (s : MyResourceStatus) :=
  {| Conditions := c; ObservedGeneration := ObservedGeneration s;
     ReadyReplicas := ReadyReplicas s; LastUpdated := LastUpdated s |}.
Definition setObservedGeneration (g : Z) (s : MyResourceStatus) :=
  {| Conditions := Conditions s; ObservedGeneration := g;
     ReadyReplicas := ReadyReplicas s; LastUpdated := LastUpdated s |}.
Definition setReadyReplicas (n : Z) (s : MyResourceStatus) :=
  {| Conditions := Conditions s; ObservedGeneration := ObservedGeneration s;
     ReadyReplicas := n; LastUpdated := LastUpdated s |}.
Definition setLastUpdated (t : option Time) (s : MyResourceStatus) :=
  {| Conditions := Conditions s; ObservedGeneration := ObservedGeneration s;
     ReadyReplicas := ReadyReplicas s; LastUpdated := t |}.

#[global] Instance MyResource_Object : Object MyResource := {|
  GetObjectMeta := Meta;
  SetObjectMeta := setMeta;
  withStatusOf src dst := setStatus (Status src) dst;
|}.

#[global] Instance MyResource_ObjectLaws : ObjectLaws MyResource.
Proof. split; reflexivity. Qed.

Abbreviation M := (client.M MyResource).

(** [(r *MyResource) SetCondition]; the receiver is returned. *)
Definition SetCondition (r : MyResource) (conditionType : string)
    (status : ConditionStatus) (reason message : string) : M MyResource :=
  now ← Now;
  mret (setStatus
          (setConditions
             (Conditions.SetCondition now (Conditions (Status r))
                conditionType status reason message)
             (Status r)) r).

Definition GetCondition (r : MyResource) (conditionType : string)
  : option Condition :=
  Conditions.GetCondition (Conditions (Status r)) conditionType.

Definition IsReady (r : MyResource) : bool :=
  match GetCondition r "Ready" with
  | Some condition => bool_decide (metav1.Status condition = ConditionTrue)
  | None => false
  end.

(** ** patterns/reconciler.go *)

Definition finalizerName : string := "myresource.my.domain/finalizer".

(** [cleanupExternalResources]: in the source a placeholder that logs and
    returns nil, standing for calls to external systems. Its outcome is
    taken from the fault script like that of any other external call, so
    that the callers' error paths can be exercised; with no fault it
    returns nil as written. *)
Definition cleanupExternalResources (instance : MyResource)
  : M (option error) :=
  _ ← emit (EvCall "cleanupExternalResources");
  fault.

Definition reconcileDelete (instance : MyResource)
  : M (Result * option error) :=
  if ContainsFinalizer instance finalizerName then
    err ← cleanupExternalResources instance;
    match err with
    | Some err => mret (Result0, Some err)
    | None =>
        let instance := RemoveFinalizer instance finalizerName in
        err ← Update instance;
        match err with
        | Some err => mret (Result0, Some err)
        | None => mret (Result0, None)
        end
    end
  else mret (Result0, None).

(** [reconcileLogic]: creates or patches the Deployment named after the
    instance and copies its ready replicas into the status. *)
Definition reconcileLogic (instance : MyResource)
  : M (MyResource * option error) :=
  _ ← emit (EvCall "reconcileLogic");
  '(deployment, err) ← CreateOrPatchDeployment (keyOf instance);
  match err with
  | Some err =>
      mret (instance, Some (ErrWrap "failed to create/update deployment" err))
  | None =>
      mret (setStatus
              (setReadyReplicas (deploymentReadyReplicas deployment)
                 (Status instance)) instance, None)
  end.

(** [updateStatus]: the instance as left in memory. A failed status update
    is only logged. *)
Definition updateStatus (instance : MyResource) (status : ConditionStatus)
    (reason message : string) : M MyResource :=
  instance ← SetCondition instance "Ready" status reason message;
  now ← Now;
  let instance :=
    setStatus (setLastUpdated (Some now) (Status instance)) instance in
  '(instance, _) ← StatusUpdateInPlace instance;
  mret instance.

Definition getRequeueInterval (instance : MyResource) : Duration :=
  if IsReady instance then 5 * Minute else 30 * Second.

Definition Reconcile (req : Request) : M (Result * option error) :=
  (* STEP 1: fetch the instance *)
  got ← Get req;
  match got with
  | inr err =>
      if IsNotFound err then mret (Result0, None)
      else mret (Result0, Some err)
  | inl instance =>
      (* STEP 2: is the object being deleted? *)
      if negb (IsZero (DeletionTimestamp (Meta instance))) then
        reconcileDelete instance
      (* STEP 3: add the finalizer if not present *)
      else if negb (ContainsFinalizer instance finalizerName) then
        let instance := AddFinalizer instance finalizerName in
        err ← Update instance;
        match err with
        | Some err => mret (Result0, Some err)
        | None => mret ({| Requeue := true; RequeueAfter := 0 |}, None)
        end
      else
        (* STEP 4: reconcile *)
        let instance :=
          setStatus
            (setObservedGeneration (Generation (Meta instance))
               (Status instance)) instance in
        '(instance, err) ← reconcileLogic instance;
        match err with
        | Some err =>
            _ ← updateStatus instance ConditionFalse "ReconcileError"
                  (errorString err);
            mret (Result0, Some err)
        | None =>
            (* STEP 5: report success; STEP 6: requeue interval *)
            instance ← updateStatus instance ConditionTrue "Ready"
                         "MyResource is ready";
            mret ({| Requeue := false;
                     RequeueAfter := getRequeueInterval instance |}, None)
        end
  end.

End patterns.

(** ** patterns/advanced-reconciler.go *)

Module advanced.
Import client controllerutil patterns golang fmt.


(** [reconcileLogic]: in this file a placeholder that returns nil. As with
    [cleanupExternalResources], its outcome is taken from the fault script;
    it does not change the instance. *)
Definition reconcileLogic (instance : MyResource) : M (option error) :=
  _ ← emit (EvCall "reconcileLogic");
  fault.

Definition retryCountKey : string := "my.domain/retryCount".

(** The value of [retryCount] after the annotation has been scanned. *)
Definition readRetryCount (instance : MyResource) : Z :=
  let retryCount := 0 in
  match Annotations (Meta instance) ≫= (.!! retryCountKey) with
  | Some rc => Sscanf_d rc retryCount
  | None => retryCount
  end.

(** [time.Duration(1<<uint(retryCount)) * time.Second], capped at five
    minutes. The constant 1 takes the type [time.Duration], so the shift
    and the product are [int64] operations. *)
Definition backoffOf (retryCount : Z) : Duration :=
  let backoff := mul64 (shl64 1 (uint retryCount)) Second in
  if bool_decide (backoff > 5 * Minute) then 5 * Minute else backoff.

(** [instance.Annotations[key] = value]; the map is not nil here. *)
Definition annotate (key value : string) (instance : MyResource)
  : MyResource :=
  setMeta
    (setAnnotations
       (Some (<[key := value]> (default ∅ (Annotations (Meta instance)))))
       (Meta instance)) instance.

Definition ReconcileWithRetry (req : Request) : M (Result * option error) :=
  got ← Get req;
  match got with
  | inr err => mret (Result0, IgnoreNotFound (Some err))
  | inl instance =>
      (* Track retry count in annotation *)
      let retryCount := readRetryCount instance in
      (* Attempt reconciliation *)
      err ← reconcileLogic instance;
      match err with
      | Some err =>
          (* Calculate backoff: 2^retryCount seconds, max 5 minutes *)
          let backoff := backoffOf retryCount in
          (* Increment retry count *)
          let retryCount := add64 retryCount 1 in
          let instance :=
            if Annotations (Meta instance) is None
            then setMeta (setAnnotations (Some ∅) (Meta instance)) instance
            else instance in
          let instance :=
            annotate retryCountKey (Sprintf_d retryCount) instance in
          _ ← Update instance;
          (* Check if we should give up *)
          if bool_decide (retryCount > 10) then
            _ ← RecorderEvent "Warning" "ReconciliationFailed"
                  "Max retries exceeded";
            mret (Result0, Some err)
          else
            mret ({| Requeue := false; RequeueAfter := backoff |}, None)
      | None =>
          (* Success - reset retry count *)
          _ ← (if bool_decide (retryCount > 0) then
                 _ ← Update (annotate retryCountKey "0" instance); mret tt
               else mret tt);
          mret ({| Requeue := false; RequeueAfter := 5 * Minute |}, None)
      end
  end.

(** The retry count that the stored object carries, if there is one. *)
Definition storedRetryCount (w : World MyResource) (key : NamespacedName)
  : option Z :=
  readRetryCount <$> objects w !! key.

(** *** Selective reconciliation and event recording *)

Definition pausedKey : string := "my.domain/paused".

(** [cleanupExternalResources] and [reconcileNormal]: placeholders that
    return nil. The outcome of the cleanup is taken from the fault script,
    as in patterns/reconciler.go. *)
Definition cleanupExternalResources (instance : MyResource)
  : M (option error) :=
  _ ← emit (EvCall "cleanupExternalResources");
  fault.

Definition reconcileDelete (instance : MyResource)
  : M (Result * option error) :=
  let finalizerName := "myresource.my.domain/finalizer" in
  if ContainsFinalizer instance finalizerName then
    err ← cleanupExternalResources instance;
    match err with
    | Some err => mret (Result0, Some err)
    | None =>
        let instance := RemoveFinalizer instance finalizerName in
        err ← Update instance;
        match err with
        | Some err => mret (Result0, Some err)
        | None => mret (Result0, None)
        end
    end
  else mret (Result0, None).

Definition reconcileNormal (instance : MyResource)
  : M (Result * option error) :=
  mret (Result0, None).

(** [instance.Annotations[key]]: the empty string when the key or the map
    is missing. *)
Definition annotation (key : string) (instance : MyResource) : string :=
  default "" (Annotations (Meta instance) ≫= (.!! key)).

Definition ReconcileWithSkip (req : Request) : M (Result * option error) :=
  got ← Get req;
  match got with
  | inr err => mret (Result0, IgnoreNotFound (Some err))
  | inl instance =>
      (* SKIP 1: paused annotation *)
      if bool_decide (annotation pausedKey instance = "true") then
        _ ← RecorderEvent "Normal" "Paused" "Reconciliation is paused";
        mret (Result0, None)
      (* SKIP 2: already in the desired state *)
      else if bool_decide (ObservedGeneration (Status instance)
                           = Generation (Meta instance))
              && IsReady instance then
        mret ({| Requeue := false; RequeueAfter := 5 * Minute |}, None)
      (* SKIP 3: deletion timestamp is set *)
      else if negb (IsZero (DeletionTimestamp (Meta instance))) then
        reconcileDelete instance
      else reconcileNormal instance
  end.

Definition ReconcileWithEvents (req : Request) : M (Result * option error) :=
  got ← Get req;
  match got with
  | inr err => mret (Result0, IgnoreNotFound (Some err))
  | inl instance =>
      _ ← RecorderEvent "Normal" "Reconciling" "Starting reconciliation";
      err ← reconcileLogic instance;
      match err with
      | Some err =>
          _ ← RecorderEvent "Warning" "ReconciliationFailed"
                (errorString err);
          mret (Result0, Some err)
      | None =>
          _ ← RecorderEvent "Normal" "ReconciliationSucceeded"
                "Resource reconciled successfully";
          mret (Result0, None)
      end
  end.

End advanced.

(** ** patterns/webhook.go: the defaulting webhook *)

Module webhook.
Import patterns.

Definition setReplicas (n : Z) (s : MyResourceSpec) : MyResourceSpec :=
  {| Replicas := n; Image := Image s; ConfigMapName := ConfigMapName s;
     Parameters := Parameters s |}.
Definition setImage (i : string) (s : MyResourceSpec) : MyResourceSpec :=
  {| Replicas := Replicas s; Image := i; ConfigMapName := ConfigMapName s;
     Parameters := Parameters s |}.
Definition setParameters (p : option (gmap string string))
    (s : MyResourceSpec) : MyResourceSpec :=
  {| Replicas := Replicas s; Image := Image s;
     ConfigMapName := ConfigMapName s; Parameters := p |}.

(** [(d *MyResourceDefaulter) setDefaults]; the instance is returned. *)
Definition setDefaults (instance : MyResource) : MyResource :=
  (* default replicas *)
  let instance :=
    if bool_decide (Replicas (Spec instance) = 0)
    then setSpec (setReplicas 1 (Spec instance)) instance else instance in
  (* default image *)
  let instance :=
    if bool_decide (Image (Spec instance) = "")
    then setSpec (setImage "nginx:latest" (Spec instance)) instance
    else instance in
  (* default parameters *)
  let instance :=
    if Parameters (Spec instance) is None
    then setSpec (setParameters (Some ∅) (Spec instance)) instance
    else instance in
  (* default label *)
  let instance :=
    if Labels (Meta instance) is None
    then setMeta (setLabels (Some ∅) (Meta instance)) instance
    else instance in
  let labels := default ∅ (Labels (Meta instance)) in
  if labels !! "app" is None
  then setMeta
         (setLabels (Some (<["app" := Name (Meta instance)]> labels))
            (Meta instance)) instance
  else instance.

(** An instance is defaulted when no default applies to it any more. *)
Definition defaulted (instance : MyResource) : Prop :=
  Replicas (Spec instance) ≠ 0
  ∧ Image (Spec instance) ≠ ""
  ∧ is_Some (Parameters (Spec instance))
  ∧ ∃ labels, Labels (Meta instance) = Some labels
              ∧ is_Some (labels !! "app").

(** *** The validating webhook *)

(** [isValidImageReference] *)
Definition isValidImageReference (image : string) : bool :=
  bool_decide (0 < String.length image)%nat
  && bool_decide (String.length image < 512)%nat.

(** The loop over [instance.Spec.Parameters]: the first entry with an empty
    key or an empty value ends it with an error. *)
Fixpoint validateParameters (parameters : list (string * string))
  : option error :=
  match parameters with
  | [] => None
  | (key, value) :: parameters =>
      if bool_decide (key = "") then
        Some (ErrOther "parameter key cannot be empty")
      else if bool_decide (value = "") then
        Some (ErrOther
                ("parameter value for key " +:+ key +:+ " cannot be empty"))
      else validateParameters parameters
  end.

(** [(v *MyResourceValidator) validateMyResource]. [getConfigMap] stands
    for [v.Client.Get] of a ConfigMap: the error it returns for a namespace
    and name. Go leaves the order in which a map is ranged over open; here
    the parameters are visited in the order of [map_to_list], and only what
    does not depend on the order is proved. *)
Definition validateMyResource (getConfigMap : NamespacedName → option error)
    (instance : MyResource) : option error :=
  if bool_decide (Replicas (Spec instance) < 0)
     || bool_decide (Replicas (Spec instance) > 100) then
    Some (ErrOther ("replicas must be between 0 and 100, got "
                      +:+ fmt.Sprintf_d (Replicas (Spec instance))))
  else if bool_decide (Image (Spec instance) = "") then
    Some (ErrOther "image must be specified")
  else if negb (isValidImageReference (Image (Spec instance))) then
    Some (ErrOther ("invalid image reference: " +:+ Image (Spec instance)))
  else
    let err :=
      if bool_decide (ConfigMapName (Spec instance) ≠ "") then
        getConfigMap (Namespace (Meta instance),
                      ConfigMapName (Spec instance))
      else None in
    match err with
    | Some err =>
        Some (ErrWrap ("configmap " +:+ ConfigMapName (Spec instance)
                         +:+ " not found") err)
    | None =>
        validateParameters
          (map_to_list (default ∅ (Parameters (Spec instance))))
    end.

(** What [validateMyResource] asks of an instance. *)
Definition valid (getConfigMap : NamespacedName → option error)
    (instance : MyResource) : Prop :=
  0 ≤ Replicas (Spec instance) ≤ 100
  ∧ Image (Spec instance) ≠ ""
  ∧ (String.length (Image (Spec instance)) < 512)%nat
  ∧ (ConfigMapName (Spec instance) ≠ "" →
     getConfigMap (Namespace (Meta instance), ConfigMapName (Spec instance))
     = None)
  ∧ ∀ key value,
      default ∅ (Parameters (Spec instance)) !! key = Some value →
      key ≠ "" ∧ value ≠ "".

End webhook.

(** ** examples/database-operator: the [Database] kind and its controller *)

Module database.
Import client controllerutil fmt.

Record DatabaseSpec := mkDatabaseSpec {
  Replicas : Z;
  Image : string;
  Storage : Z;
  DatabaseName : string;
  UserName : string;
  PasswordSecretName : string;
  ConfigMapName : string;
  ServiceType : string;
  StorageClass : string;
}.

Record DatabaseStatus := mkDatabaseStatus {
  Phase : string;
  ReadyReplicas : Z;
  ObservedGeneration : Z;
  Conditions : list Condition;
  ServiceName : string;
  DeploymentName : string;
}.

Record Database := mkDatabase {
  Meta : ObjectMeta;
  Spec : DatabaseSpec;
  Status : DatabaseStatus;
}.

Definition setMeta (m : ObjectMeta) (d : Database) : Database :=
  {| Meta := m; Spec := Spec d; Status := Status d |}.
Definition setStatus (s : DatabaseStatus) (d : Database) : Database :=
  {| Meta := Meta d; Spec := Spec d; Status := s |}.

Definition setPhase (p : string) (s : DatabaseStatus) : DatabaseStatus :=
  {| Phase := p; ReadyReplicas := ReadyReplicas s;
     ObservedGeneration := ObservedGeneration s; Conditions := Conditions s;
     ServiceName := ServiceName s; DeploymentName := DeploymentName s |}.
Definition setConditions (c : list Condition) (s : DatabaseStatus)
  : DatabaseStatus :=
  {| Phase := Phase s; ReadyReplicas := ReadyReplicas s;
     ObservedGeneration := ObservedGeneration s; Conditions := c;
     ServiceName := ServiceName s; DeploymentName := DeploymentName s |}.

#[global] Instance Database_Object : Object Database := {|
  GetObjectMeta := Meta;
  SetObjectMeta := setMeta;
  withStatusOf src dst := setStatus (Status src) dst;
|}.

#[global] Instance Database_ObjectLaws : ObjectLaws Database.
Proof. split; reflexivity. Qed.

Abbreviation M := (client.M Database).

(** [(d *Database) SetCondition]; the receiver is returned. *)
Definition SetCondition (d : Database) (conditionType : string)
    (status : ConditionStatus) (reason message : string) : M Database :=
  now ← Now;
  mret (setStatus
          (setConditions
             (Conditions.SetCondition now (Conditions (Status d))
                conditionType status reason message)
             (Status d)) d).

Definition GetCondition (d : Database) (conditionType : string)
  : option Condition :=
  Conditions.GetCondition (Conditions (Status d)) conditionType.

Definition IsReady (d : Database) : bool :=
  match GetCondition d "Ready" with
  | Some condition => bool_decide (metav1.Status condition = ConditionTrue)
  | None => false
  end.

Definition databaseFinalizer : string := "database.my.domain/finalizer".

Definition reconcileDelete (database : Database)
  : M (Result * option error) :=
  if ContainsFinalizer database databaseFinalizer then
    (* cleanup is left to garbage collection through owner references *)
    let database := RemoveFinalizer database databaseFinalizer in
    err ← Update database;
    match err with
    | Some err => mret (Result0, Some err)
    | None => mret (Result0, None)
    end
  else mret (Result0, None).

(** The child reconcilers read the Database and create or patch one child
    object each; none of them writes to the Database. *)
Definition reconcilePVC (database : Database) : M (option error) :=
  CreateOrPatchChild "PersistentVolumeClaim" (keyOf database).

Definition reconcileSecret (database : Database) : M (option error) :=
  let secretName := PasswordSecretName (Spec database) in
  let secretName :=
    if bool_decide (secretName = "")
    then Name (Meta database) +:+ "-password" else secretName in
  CreateOrPatchChild "Secret" (Namespace (Meta database), secretName).

Definition reconcileConfigMap (database : Database) : M (option error) :=
  if bool_decide (ConfigMapName (Spec database) = "") then mret None
  else CreateOrPatchChild "ConfigMap"
         (Namespace (Meta database), ConfigMapName (Spec database)).

Definition reconcileDeployment (database : Database) : M (option error) :=
  '(_, err) ← CreateOrPatchDeployment (keyOf database);
  mret err.

Definition reconcileService (database : Database) : M (option error) :=
  CreateOrPatchChild "Service" (keyOf database).

(** [updateStatus]: the Database as left in memory, and the error. *)
Definition updateStatus (database : Database) : M (Database * option error) :=
  '(deployment, err) ← GetDeployment (keyOf database);
  if (if err is Some err then negb (IsNotFound err) else false) then
    mret (database, err)
  else
    let status := Status database in
    let status :=
      {| Phase := Phase status;
         ReadyReplicas := deploymentReadyReplicas deployment;
         ObservedGeneration := Generation (Meta database);
         Conditions := Conditions status;
         ServiceName := Name (Meta database);
         DeploymentName := deploymentName deployment |} in
    let database := setStatus status database in
    database ←
      (if bool_decide (deploymentReadyReplicas deployment
                       = Replicas (Spec database)) then
         SetCondition (setStatus (setPhase "Ready" (Status database)) database)
           "Ready" ConditionTrue "Ready" "Database is ready"
       else
         SetCondition
           (setStatus (setPhase "Progressing" (Status database)) database)
           "Ready" ConditionFalse "Progressing"
           ("Waiting for replicas: "
              +:+ Sprintf_d (deploymentReadyReplicas deployment) +:+ "/"
              +:+ Sprintf_d (Replicas (Spec database))));
    '(database, err) ← StatusUpdateInPlace database;
    mret (database, err).

(** [setErrorStatus]; the outcome of the status update is dropped, and the
    Database is not read again after it. *)
Definition setErrorStatus (database : Database) (reason : string)
    (err : error) : M (Result * option error) :=
  let database := setStatus (setPhase "Failed" (Status database)) database in
  database ← SetCondition database "Ready" ConditionFalse reason
               (errorString err);
  _ ← StatusUpdate database;
  mret (Result0, Some err).

Definition Reconcile (req : Request) : M (Result * option error) :=
  got ← Get req;
  match got with
  | inr err =>
      if IsNotFound err then mret (Result0, None)
      else mret (Result0, Some err)
  | inl database =>
      (* Handle deletion *)
      if negb (IsZero (DeletionTimestamp (Meta database))) then
        reconcileDelete database
      (* Add finalizer if not present *)
      else if negb (ContainsFinalizer database databaseFinalizer) then
        let database := AddFinalizer database databaseFinalizer in
        err ← Update database;
        match err with
        | Some err => mret (Result0, Some err)
        | None => mret ({| Requeue := true; RequeueAfter := 0 |}, None)
        end
      else
        (* Update status phase; a failure is only logged. The object was
           fetched above and only its status has changed since, so the
           answer of the server leaves it as it is. *)
        let database :=
          setStatus (setPhase "Reconciling" (Status database)) database in
        _ ← StatusUpdate database;
        (* Reconcile child resources *)
        err ← reconcilePVC database;
        if err is Some err then setErrorStatus database "PVCCreateFailed" err
        else
        err ← reconcileSecret database;
        if err is Some err then setErrorStatus database "SecretCreateFailed" err
        else
        err ← reconcileConfigMap database;
        if err is Some err
        then setErrorStatus database "ConfigMapCreateFailed" err
        else
        err ← reconcileDeployment database;
        if err is Some err
        then setErrorStatus database "DeploymentCreateFailed" err
        else
        err ← reconcileService database;
        if err is Some err
        then setErrorStatus database "ServiceCreateFailed" err
        else
        (* Update status *)
        '(database, err) ← updateStatus database;
        if err is Some err then mret (Result0, Some err)
        else
        (* Requeue for status check *)
        let requeueAfter := 1 * Minute in
        let requeueAfter :=
          if negb (IsReady database) then 10 * Second else requeueAfter in
        mret ({| Requeue := false; RequeueAfter := requeueAfter |}, None)
  end.


(** The child objects in the order in which [Reconcile] creates or patches
    them: kind, namespace and name, and the reason reported when the call
    fails. *)
Definition children (database : Database)
  : list (string * NamespacedName * string) :=
  [("PersistentVolumeClaim", keyOf database, "PVCCreateFailed");
   ("Secret",
    (Namespace (Meta database),
     if bool_decide (PasswordSecretName (Spec database) = "")
     then Name (Meta database) +:+ "-password"
     else PasswordSecretName (Spec database)),
    "SecretCreateFailed")]
  ++ (if bool_decide (ConfigMapName (Spec database) = "") then []
      else [("ConfigMap",
             (Namespace (Meta database), ConfigMapName (Spec database)),
             "ConfigMapCreateFailed")])
  ++ [("Deployment", keyOf database, "DeploymentCreateFailed");
      ("Service", keyOf database, "ServiceCreateFailed")].

End database.

(** ** examples/simple-operator: the [Cocktail] kind and its deletion path *)

Module cocktail.
Import client controllerutil.

Record CocktailSpec := mkCocktailSpec {
  Size : Z;
  Recipe : string;
  Garnish : bool;
  Instructions : string;
}.

Record CocktailStatus := mkCocktailStatus {
  Phase : string;
  ServingsReady : Z;
  LastPrepared : option Time;
  Conditions : list Condition;
}.

Record Cocktail := mkCocktail {
  Meta : ObjectMeta;
  Spec : CocktailSpec;
  Status : CocktailStatus;
}.

Definition setMeta (m : ObjectMeta) (c : Cocktail) : Cocktail :=
  {| Meta := m; Spec := Spec c; Status := Status c |}.
Definition setStatus (s : CocktailStatus) (c : Cocktail) : Cocktail :=
  {| Meta := Meta c; Spec := Spec c; Status := s |}.
Definition setConditions (l : list Condition) (s : CocktailStatus)
  : CocktailStatus :=
  {| Phase := Phase s; ServingsReady := ServingsReady s;
     LastPrepared := LastPrepared s; Conditions := l |}.

#[global] Instance Cocktail_Object : Object Cocktail := {|
  GetObjectMeta := Meta;
  SetObjectMeta := setMeta;
  withStatusOf src dst := setStatus (Status src) dst;
|}.

#[global] Instance Cocktail_ObjectLaws : ObjectLaws Cocktail.
Proof. split; reflexivity. Qed.

Abbreviation M := (client.M Cocktail).

(** [(c *Cocktail) SetCondition]; the receiver is returned. *)
Definition SetCondition (c : Cocktail) (conditionType : string)
    (status : ConditionStatus) (reason message : string) : M Cocktail :=
  now ← Now;
  mret (setStatus
          (setConditions
             (Conditions.SetCondition now (Conditions (Status c))
                conditionType status reason message)
             (Status c)) c).

Definition GetCondition (c : Cocktail) (conditionType : string)
  : option Condition :=
  Conditions.GetCondition (Conditions (Status c)) conditionType.

Definition cocktailFinalizer : string := "cocktails.bar.my.domain/finalizer".

(** [cleanupCocktail]: a placeholder that logs and returns nil; its outcome
    is taken from the fault script, as for [cleanupExternalResources]. *)
Definition cleanupCocktail (cocktail : Cocktail) : M (option error) :=
  _ ← emit (EvCall "cleanupCocktail");
  fault.

Definition reconcileDelete (cocktail : Cocktail)
  : M (Result * option error) :=
  if ContainsFinalizer cocktail cocktailFinalizer then
    err ← cleanupCocktail cocktail;
    match err with
    | Some err => mret (Result0, Some err)
    | None =>
        let cocktail := RemoveFinalizer cocktail cocktailFinalizer in
        err ← Update cocktail;
        match err with
        | Some err => mret (Result0, Some err)
        | None => mret (Result0, None)
        end
    end
  else mret (Result0, None).

(** *** Preparation *)

Definition IsReady (c : Cocktail) : bool :=
  match GetCondition c "Ready" with
  | Some condition => bool_decide (metav1.Status condition = ConditionTrue)
  | None => false
  end.

Definition setPhase (p : string) (s : CocktailStatus) : CocktailStatus :=
  {| Phase := p; ServingsReady := ServingsReady s;
     LastPrepared := LastPrepared s; Conditions := Conditions s |}.
Definition setServingsReady (n : Z) (s : CocktailStatus) : CocktailStatus :=
  {| Phase := Phase s; ServingsReady := n;
     LastPrepared := LastPrepared s; Conditions := Conditions s |}.
Definition setLastPrepared (t : option Time) (s : CocktailStatus)
  : CocktailStatus :=
  {| Phase := Phase s; ServingsReady := ServingsReady s;
     LastPrepared := t; Conditions := Conditions s |}.

(** [getPreparationTime] *)
Definition getPreparationTime (recipe : string) : Duration :=
  if bool_decide (recipe = "Mojito") then Minute * 2
  else if bool_decide (recipe = "Margarita") then Minute * 3
  else if bool_decide (recipe = "OldFashioned") then Minute * 4
  else if bool_decide (recipe = "Cosmopolitan") then Minute * 2
  else Minute * 1.

(** [prepareCocktail]: the Cocktail as left in memory, and the error. The
    outcome of the status update is dropped, and the preparation time is
    only logged. *)
Definition prepareCocktail (cocktail : Cocktail)
  : M (Cocktail * option error) :=
  (* Update phase to "Preparing" *)
  let cocktail := setStatus (setPhase "Preparing" (Status cocktail)) cocktail in
  '(cocktail, _) ← StatusUpdateInPlace cocktail;
  let recipe := Recipe (Spec cocktail) in
  let preparationTime := getPreparationTime recipe in
  (* Update status *)
  let cocktail := setStatus (setPhase "Ready" (Status cocktail)) cocktail in
  let cocktail :=
    setStatus (setServingsReady (Size (Spec cocktail)) (Status cocktail))
      cocktail in
  now ← Now;
  let cocktail :=
    setStatus (setLastPrepared (Some now) (Status cocktail)) cocktail in
  mret (cocktail, None).

End cocktail.

(** ** The finalizer protocol, as statements about a run

    These describe one run of a reconciler on a world; the theorems below
    prove them of the reconcilers. *)

Module protocol.
Import client controllerutil.
Section Steps.
Context `{Object T}.

(** What a [Reconcile] does on a live object: without the finalizer, one
    fetch and one update of the object with the finalizer added; an
    accepted update stores the finalizer and the result asks for a requeue,
    a rejected update stores nothing; and whenever the call does anything
    else, the finalizer was there. What the call returns after a rejected
    update is not part of the statement. *)
Definition addFinalizerStep
    (Reconcile : Request → M T (Result * option error)) (finalizer : string)
    (req : Request) (w : World T) (instance : T) : Prop :=
  let out := Reconcile req w in
  (ContainsFinalizer instance finalizer = false →
   let instance' := AddFinalizer instance finalizer in
   finalizer ∈ Finalizers (GetObjectMeta instance')
   ∧ ∃ r, trace out.2 = trace w ++ [EvGet req; EvUpdate instance' r]
     ∧ match r with
       | None =>
           out.1 = ({| Requeue := true; RequeueAfter := 0 |}, None)
           ∧ ∃ stored, objects out.2 !! keyOf instance = Some stored
               ∧ finalizer ∈ Finalizers (GetObjectMeta stored)
       | Some err => objects out.2 = objects w
       end)
  ∧ (∀ evs e, trace out.2 = trace w ++ evs → e ∈ evs →
       normalLogicEvent e = true →
       ContainsFinalizer instance finalizer = true).

End Steps.
End protocol.

(** ** The generation invariant, as statements about a world *)

Module generation.
Import client.
Section Invariant.
Context `{Object T}.

(** [observed] reads [Status.ObservedGeneration] of the kind. *)
Variable observed : T → Z.

(** An object whose observed generation does not exceed its generation. *)
Definition upToDate (obj : T) : Prop :=
  observed obj ≤ Generation (GetObjectMeta obj).

(** Every stored object is keyed by its name and is [upToDate], and so is
    every object that a status write recorded in the trace carried. *)
Definition Invariant (w : World T) : Prop :=
  wellKeyed w
  ∧ (∀ key obj, objects w !! key = Some obj → upToDate obj)
  ∧ (∀ obj r, EvStatusUpdate obj r ∈ trace w → upToDate obj).

(** During one reconcile of the object named [key], whose generation is
    [g]: the invariant, and the stored object still has that generation. *)
Definition During (key : NamespacedName) (g : Z) (w : World T) : Prop :=
  Invariant w
  ∧ ∀ old, objects w !! key = Some old → Generation (GetObjectMeta old) = g.

(** An in-memory version of the object being reconciled. *)
Definition versionOf (key : NamespacedName) (g : Z) (obj : T) : Prop :=
  keyOf obj = key ∧ Generation (GetObjectMeta obj) = g.

(** [m] keeps [During key g] and returns a value that satisfies [Q]. *)
Definition keeps (key : NamespacedName) (g : Z) {A} (m : M T A)
    (Q : A → Prop) : Prop :=
  ∀ w, During key g w → During key g (m w).2 ∧ Q (m w).1.
End Invariant.

(** [Status.ObservedGeneration] of the two kinds whose reconcilers set it. *)
Definition observedP (r : patterns.MyResource) : Z :=
  patterns.ObservedGeneration (patterns.Status r).

Definition observedD (d : database.Database) : Z :=
  database.ObservedGeneration (database.Status d).

(** A change of the instance in memory that touches neither its metadata
    nor its observed generation. *)
Definition sameVersionP (r r' : patterns.MyResource) : Prop :=
  patterns.Meta r' = patterns.Meta r ∧ observedP r' = observedP r.

Definition sameVersionD (d d' : database.Database) : Prop :=
  database.Meta d' = database.Meta d ∧ observedD d' = observedD d.
End generation.

(** ** Sample objects

    Concrete objects and worlds on which the properties below are
    exercised. *)

Module samples.
Import client.

Definition meta0 : ObjectMeta :=
  {| Name := "test-resource"; Namespace := "default"; Generation := 1;
     DeletionTimestamp := None; Finalizers := []; Labels := None;
     Annotations := None |}.

(** A [Ready] condition that became true at time 100. *)
Definition ready100 : Condition :=
  {| Type_ := "Ready"; Status := ConditionTrue; Reason := "Ready";
     Message := "Database is ready"; LastTransitionTime := 100 |}.

Definition db0 : database.Database :=
  {| database.Meta := meta0;
     database.Spec :=
       {| database.Replicas := 1; database.Image := "postgres:15";
          database.Storage := 1024; database.DatabaseName := "appdb";
          database.UserName := "appuser";
          database.PasswordSecretName := "test-db-password";
          database.ConfigMapName := ""; database.ServiceType := "ClusterIP";
          database.StorageClass := "standard" |};
     database.Status :=
       {| database.Phase := "Ready"; database.ReadyReplicas := 1;
          database.ObservedGeneration := 1;
          database.Conditions := [ready100];
          database.ServiceName := "test-resource";
          database.DeploymentName := "test-resource" |} |}.

Definition cocktail0 : cocktail.Cocktail :=
  {| cocktail.Meta := meta0;
     cocktail.Spec :=
       {| cocktail.Size := 2; cocktail.Recipe := "Mojito";
          cocktail.Garnish := true; cocktail.Instructions := "" |};
     cocktail.Status :=
       {| cocktail.Phase := "Ready"; cocktail.ServingsReady := 2;
          cocktail.LastPrepared := None;
          cocktail.Conditions := [ready100] |} |}.

(** [cocktail0] with a size that was changed in memory only. *)
Definition cocktailResized : cocktail.Cocktail :=
  {| cocktail.Meta := meta0;
     cocktail.Spec :=
       {| cocktail.Size := 5; cocktail.Recipe := "Mojito";
          cocktail.Garnish := true; cocktail.Instructions := "" |};
     cocktail.Status := cocktail.Status cocktail0 |}.

Definition res0 : patterns.MyResource :=
  {| patterns.Meta := meta0;
     patterns.Spec :=
       {| patterns.Replicas := 3; patterns.Image := "nginx:latest";
          patterns.ConfigMapName := ""; patterns.Parameters := None |};
     patterns.Status :=
       {| patterns.Conditions := []; patterns.ObservedGeneration := 0;
          patterns.ReadyReplicas := 0; patterns.LastUpdated := None |} |}.

(** A world that holds the given objects under their own keys, at time
    [now], with the given fault script. *)
Definition worldOf `{Object T} (objs : list T) (script : list (option error))
    (now : Time) : World T :=
  {| objects := list_to_map ((λ o, (keyOf o, o)) <$> objs);
     deployments := ∅; faults := script; clock := now; trace := [] |}.

(** The same objects once deletion has been requested (at time 50) while
    they carry their controller's finalizer. *)
Definition deleting (finalizer : string) (m : ObjectMeta) : ObjectMeta :=
  {| Name := Name m; Namespace := Namespace m; Generation := Generation m;
     DeletionTimestamp := Some 50; Finalizers := [finalizer];
     Labels := Labels m; Annotations := Annotations m |}.

Definition resDeleting : patterns.MyResource :=
  patterns.setMeta (deleting patterns.finalizerName meta0) res0.

Definition dbDeleting : database.Database :=
  database.setMeta (deleting database.databaseFinalizer meta0) db0.





(** [res0] after [count] failed attempts were recorded on it. *)
Definition resRetried (count : string) : patterns.MyResource :=
  advanced.annotate advanced.retryCountKey count res0.

Definition failure : error := ErrOther "connection refused".

(** The sample objects once their controller's finalizer has been added. *)
Definition finalized (finalizer : string) (m : ObjectMeta) : ObjectMeta :=
  setFinalizers [finalizer] m.

Definition resFinalized : patterns.MyResource :=
  patterns.setMeta (finalized patterns.finalizerName meta0) res0.

Definition dbFinalized : database.Database :=
  database.setMeta (finalized database.databaseFinalizer meta0) db0.

(** The sample objects with a deletion timestamp and no finalizer. *)
Definition terminatingBare (m : ObjectMeta) : ObjectMeta :=
  {| Name := Name m; Namespace := Namespace m; Generation := Generation m;
     DeletionTimestamp := Some 50; Finalizers := [];
     Labels := Labels m; Annotations := Annotations m |}.


Definition key0 : NamespacedName := ("default", "test-resource").

(** A conflict injected into the second call, after a fetch that goes
    through. *)
Definition conflictOnSecondCall : list (option error) :=
  [None; Some ErrConflict].

End samples.

(** * Properties *)

(** ** Conditions *)

Section ConditionFacts.
Import Conditions.
Implicit Types (cs : list Condition) (c n : Condition) (t : string).

Lemma GetCondition_None cs t :
  GetCondition cs t = None ↔ t ∉ types cs.
Proof.
  unfold types. induction cs as [|c cs IH]; simpl.
  - split; [intros _; apply not_elem_of_nil | done].
  - rewrite not_elem_of_cons. case_decide as Hc.
    + split; [done | intros [Hne _]; by destruct Hne].
    + rewrite IH. split; [|tauto].
      intros Hcs. split; [|done]. intros Heq. by destruct Hc.
Qed.

Lemma GetCondition_Some cs t c :
  GetCondition cs t = Some c → Type_ c = t ∧ c ∈ cs.
Proof.
  induction cs as [|c' cs IH]; simpl; [done|].
  case_decide.
  - intros [= <-]. split; [done | left].
  - intros [??]%IH. split; [done | by right].
Qed.

(** The loop, started at index [length pre] on the slice [pre ++ rest],
    replaces the first condition of the new type in [rest]. *)
Lemma rangeConditions_replaceFirst pre rest n :
  rangeConditions rest (length pre) n (pre ++ rest)
  = match replaceFirst n rest with
    | Some rest' => (true, pre ++ rest')
    | None => (false, pre ++ rest)
    end.
Proof.
  revert pre. induction rest as [|c rest IH]; intros pre; simpl; [done|].
  case_decide as Hc.
  - f_equal. by rewrite insert_app_r_alt, Nat.sub_diag by lia.
  - specialize (IH (pre ++ [c])).
    rewrite length_app, Nat.add_1_r, <-(assoc_L (++)) in IH. simpl in IH.
    rewrite IH. destruct (replaceFirst n rest); simpl; [|done].
    by rewrite <-(assoc_L (++)).
Qed.

Lemma SetCondition_replaceFirst now cs t st r m :
  SetCondition now cs t st r m
  = default (cs ++ [mkCondition t st r m now])
      (replaceFirst (mkCondition t st r m now) cs).
Proof.
  unfold SetCondition.
  pose proof (rangeConditions_replaceFirst [] cs (mkCondition t st r m now))
    as Hloop.
  simpl in Hloop. rewrite Hloop.
  by destruct (replaceFirst _ cs).
Qed.
End ConditionFacts.

Section SetConditionFacts.
Import Conditions.
Implicit Types (cs : list Condition) (c n : Condition) (t : string).

Lemma filter_type_absent cs t :
  t ∉ types cs → filter (λ c, Type_ c = t) cs = [].
Proof.
  unfold types. induction cs as [|c cs IH]; [done|].
  rewrite fmap_cons, not_elem_of_cons. intros [Hc Hcs].
  rewrite filter_cons_False by congruence. auto.
Qed.

Lemma GetCondition_app_absent cs n :
  Type_ n ∉ types cs → GetCondition (cs ++ [n]) (Type_ n) = Some n.
Proof.
  unfold types. induction cs as [|c cs IH]; simpl.
  - intros _. by rewrite decide_True.
  - rewrite not_elem_of_cons. intros [Hc Hcs].
    rewrite decide_False by congruence. auto.
Qed.

Lemma replaceFirst_None n cs :
  replaceFirst n cs = None ↔ Type_ n ∉ types cs.
Proof.
  unfold types. induction cs as [|c cs IH]; simpl.
  - split; [intros _; apply not_elem_of_nil | done].
  - rewrite not_elem_of_cons. case_decide as Hc.
    + split; [done | intros [Hne _]; by destruct Hne].
    + rewrite fmap_None, IH. split; [|tauto].
      intros Hcs. split; [|done]. intros Heq. by destruct Hc.
Qed.

Lemma replaceFirst_Some n cs cs' :
  replaceFirst n cs = Some cs' →
  types cs' = types cs
  ∧ filter (λ c, Type_ c ≠ Type_ n) cs' = filter (λ c, Type_ c ≠ Type_ n) cs
  ∧ (NoDup (types cs) → filter (λ c, Type_ c = Type_ n) cs' = [n])
  ∧ GetCondition cs' (Type_ n) = Some n.
Proof.
  unfold types. revert cs'. induction cs as [|c cs IH]; intros cs'; simpl.
  { done. }
  case_decide as Hc.
  - intros [= <-]. simpl. rewrite decide_True by done.
    split_and!; [by rewrite Hc | | | done].
    + rewrite !filter_cons_False by (intros Hne; by apply Hne). done.
    + intros [Hnotin _]%NoDup_cons. rewrite filter_cons_True by done.
      f_equal. apply filter_type_absent. by rewrite <-Hc.
  - destruct (replaceFirst n cs) as [r|] eqn:Hr; simpl; [|done].
    intros [= <-]. destruct (IH r eq_refl) as (Hty & Hne & Heq & Hget).
    simpl. rewrite decide_False by done.
    split_and!; [idtac | | | done].
    + f_equal. exact Hty.
    + by rewrite !filter_cons_True, Hne by done.
    + intros [_ Hnd]%NoDup_cons. rewrite filter_cons_False by done. auto.
Qed.

(** What [SetCondition] does to a slice: the condition found for the type
    afterwards is the new one, stamped with the time of the call; the
    conditions of other types are the same, in the same order; and a
    slice with one condition per type keeps that form. *)
Lemma SetCondition_spec now cs t st r m :
  let n := mkCondition t st r m now in
  let cs' := SetCondition now cs t st r m in
  GetCondition cs' t = Some n
  ∧ filter (λ c, Type_ c ≠ t) cs' = filter (λ c, Type_ c ≠ t) cs
  ∧ (NoDup (types cs) →
     NoDup (types cs') ∧ filter (λ c, Type_ c = t) cs' = [n]).
Proof.
  intros n cs'. subst cs'. rewrite SetCondition_replaceFirst. fold n.
  change t with (Type_ n) at 1 2 3 4.
  destruct (replaceFirst n cs) as [r'|] eqn:Hr; simpl.
  - apply replaceFirst_Some in Hr as (Hty & Hne & Heq & Hget).
    split_and!; [done | done |]. intros Hnd. rewrite Hty. auto.
  - apply replaceFirst_None in Hr. simpl in Hr.
    split_and!.
    + by apply (GetCondition_app_absent cs n).
    + rewrite filter_app, filter_cons_False, filter_nil, app_nil_r; [done|].
      intros Hne. by apply Hne.
    + intros Hnd. unfold types. rewrite fmap_app. split.
      * apply NoDup_app. split_and!; [done | | apply NoDup_singleton].
        intros x Hx ->%list_elem_of_singleton. done.
      * rewrite filter_app, filter_type_absent by done.
        by rewrite filter_cons_True.
Qed.
End SetConditionFacts.

(** ** C1 and C9: [SetCondition] on the example kinds *)

Section SetConditionClaims.
Import Conditions client.

Lemma database_SetCondition_run d t st r m (w : World database.Database) :
  database.SetCondition d t st r m w
  = (database.setStatus
       (database.setConditions
          (SetCondition (clock w) (database.Conditions (database.Status d))
             t st r m) (database.Status d)) d, w).
Proof. reflexivity. Qed.

Lemma cocktail_SetCondition_run c t st r m (w : World cocktail.Cocktail) :
  cocktail.SetCondition c t st r m w
  = (cocktail.setStatus
       (cocktail.setConditions
          (SetCondition (clock w) (cocktail.Conditions (cocktail.Status c))
             t st r m) (cocktail.Status c)) c, w).
Proof. reflexivity. Qed.

(** Whatever was stored, the condition found for the type after the call
    carries the time of the call. *)
Lemma SetCondition_stamps_now now cs t st r m :
  LastTransitionTime <$> GetCondition (SetCondition now cs t st r m) t
  = Some now.
Proof.
  destruct (SetCondition_spec now cs t st r m) as [Hget _].
  simpl in Hget. by rewrite Hget.
Qed.
End SetConditionClaims.

(** C1 (the code departs from it). The claim: a call to [SetCondition] on a
    condition type that is already present changes [LastTransitionTime] only
    if the status differs. Evaluated on a [Database] and on a [Cocktail]
    whose [Ready] condition has been [True] since time 100: a call at time
    200 with the same status, reason and message stores 200 as the
    transition time. *)
Theorem C1_SetCondition_same_status_restamps :
  let w_db := samples.worldOf [samples.db0] [] 200 in
  let w_ck := samples.worldOf [samples.cocktail0] [] 200 in
  let db' :=
    (database.SetCondition samples.db0 "Ready" ConditionTrue "Ready"
       "Database is ready" w_db).1 in
  let ck' :=
    (cocktail.SetCondition samples.cocktail0 "Ready" ConditionTrue "Ready"
       "Database is ready" w_ck).1 in
  LastTransitionTime <$> database.GetCondition samples.db0 "Ready" = Some 100
  ∧ LastTransitionTime <$> database.GetCondition db' "Ready" = Some 200
  ∧ LastTransitionTime <$> cocktail.GetCondition samples.cocktail0 "Ready"
    = Some 100
  ∧ LastTransitionTime <$> cocktail.GetCondition ck' "Ready" = Some 200.
Proof. repeat split; reflexivity. Qed.

(** C9. On a conditions list with at most one condition per type, after
    [SetCondition t status reason message] the list still has at most one
    condition per type, holds exactly one condition of type [t], which
    carries the given status, reason and message, and holds the conditions
    of the other types unchanged. Stated for [Database] and for
    [Cocktail]. *)
Theorem C9_SetCondition_one_per_type
    (d : database.Database) (c : cocktail.Cocktail)
    (wd : client.World database.Database)
    (wc : client.World cocktail.Cocktail)
    (t : string) (st : ConditionStatus) (r m : string) :
  NoDup (Conditions.types (database.Conditions (database.Status d))) →
  NoDup (Conditions.types (cocktail.Conditions (cocktail.Status c))) →
  let d' := (database.SetCondition d t st r m wd).1 in
  let c' := (cocktail.SetCondition c t st r m wc).1 in
  let dcs := database.Conditions (database.Status d) in
  let dcs' := database.Conditions (database.Status d') in
  let ccs := cocktail.Conditions (cocktail.Status c) in
  let ccs' := cocktail.Conditions (cocktail.Status c') in
  (NoDup (Conditions.types dcs')
   ∧ filter (λ x, Type_ x = t) dcs'
     = [mkCondition t st r m (client.clock wd)]
   ∧ filter (λ x, Type_ x ≠ t) dcs' = filter (λ x, Type_ x ≠ t) dcs)
  ∧ (NoDup (Conditions.types ccs')
     ∧ filter (λ x, Type_ x = t) ccs'
       = [mkCondition t st r m (client.clock wc)]
     ∧ filter (λ x, Type_ x ≠ t) ccs' = filter (λ x, Type_ x ≠ t) ccs).
Proof.
  intros Hd Hc. simpl.
  destruct (SetCondition_spec (client.clock wd)
              (database.Conditions (database.Status d)) t st r m)
    as (_ & Hdne & Hdnd).
  destruct (SetCondition_spec (client.clock wc)
              (cocktail.Conditions (cocktail.Status c)) t st r m)
    as (_ & Hcne & Hcnd).
  destruct (Hdnd Hd) as [? ?]. destruct (Hcnd Hc) as [? ?].
  split; (split_and!; done).
Qed.

Lemma C9_SetCondition_one_per_type_witness :
  let d' :=
    (database.SetCondition samples.db0 "Ready" ConditionFalse "Progressing"
       "Waiting" (samples.worldOf [samples.db0] [] 200)).1 in
  let c' :=
    (cocktail.SetCondition samples.cocktail0 "Served" ConditionTrue "Served"
       "Cheers" (samples.worldOf [samples.cocktail0] [] 200)).1 in
  filter (λ x, Type_ x = "Ready") (database.Conditions (database.Status d'))
  = [mkCondition "Ready" ConditionFalse "Progressing" "Waiting" 200]
  ∧ filter (λ x, Type_ x ≠ "Served") (cocktail.Conditions (cocktail.Status c'))
    = [samples.ready100].
Proof.
  pose proof (C9_SetCondition_one_per_type samples.db0 samples.cocktail0
                (samples.worldOf [samples.db0] [] 200)
                (samples.worldOf [samples.cocktail0] [] 200)) as H.
  split.
  - apply (H "Ready" ConditionFalse "Progressing" "Waiting");
      repeat constructor; by intros ?%not_elem_of_nil.
  - refine (proj2 (proj2 (proj2
      (H "Served" ConditionTrue "Served" "Cheers" _ _))));
      repeat constructor; by intros ?%not_elem_of_nil.
Defined.

(** ** C10: the defaulting webhook *)

Section DefaultingFacts.
Import patterns webhook.

Local Ltac step :=
  cbn [Replicas Image Parameters ConfigMapName Spec Meta Status
       setSpec setMeta setReplicas setImage setParameters
       Labels setLabels Name Namespace default from_option id].

Lemma setDefaults_defaulted instance : defaulted (setDefaults instance).
Proof.
  destruct instance as [[name ns gen del fin labels ann]
                          [replicas image cm params] status].
  unfold defaulted, setDefaults. step.
  destruct (bool_decide_reflect (replicas = 0)) as [Hr|Hr]; step.
  all: destruct (bool_decide_reflect (image = "")) as [Hi|Hi]; step.
  all: destruct params as [params|]; step.
  all: destruct labels as [labels|]; step.
  all: rewrite ?lookup_empty; step.
  all: try (destruct (labels !! "app") as [app|] eqn:Happ; step).
  all: split_and!.
  all: try assumption.
  all: try (by intros [=]).
  all: try (eexists; reflexivity).
  all: eexists; (split; [reflexivity|]).
  all: rewrite ?lookup_insert_eq, ?Happ; eexists; reflexivity.
Qed.

Lemma setDefaults_fixed instance :
  defaulted instance → setDefaults instance = instance.
Proof.
  destruct instance as [[name ns gen del fin labels ann]
                          [replicas image cm params] status].
  unfold defaulted, setDefaults. step.
  intros (Hr & Hi & [p ->] & l & [= ->] & [app Happ]).
  destruct (bool_decide_reflect (replicas = 0)); [done|]; step.
  destruct (bool_decide_reflect (image = "")); [done|]; step.
  by rewrite Happ.
Qed.
End DefaultingFacts.

(** C10. [setDefaults] is idempotent: applying it twice gives the same
    instance as applying it once. *)
Theorem C10_setDefaults_idempotent (instance : patterns.MyResource) :
  webhook.setDefaults (webhook.setDefaults instance)
  = webhook.setDefaults instance.
Proof. apply setDefaults_fixed, setDefaults_defaulted. Qed.

(** ** The client: what each call does to the world *)

Ltac client_unfold :=
  unfold client.Get, client.Update, client.StatusUpdate, client.List,
    client.GetDeployment, client.CreateOrPatchDeployment,
    client.CreateOrPatchChild, client.RecorderEvent, client.fault,
    client.emit, client.Now, mbind, client.M_bind, mret, client.M_ret in *.

Section ClientFacts.
Import client.
Context `{ObjectLaws T}.
Implicit Types (w : World T) (obj : T) (key : NamespacedName).

Lemma Get_effect key w :
  trace (Get key w).2 = trace w ++ [EvGet key]
  ∧ objects (Get key w).2 = objects w
  ∧ deployments (Get key w).2 = deployments w
  ∧ clock (Get key w).2 = clock w.
Proof.
  client_unfold. destruct (faults w) as [|[e|] fs]; simpl;
    try destruct (objects w !! key); done.
Qed.

Lemma Get_inl key w obj :
  (Get key w).1 = inl obj → objects w !! key = Some obj.
Proof.
  client_unfold. destruct (faults w) as [|[e|] fs]; simpl;
    try destruct (objects w !! key); naive_solver.
Qed.

Lemma Update_effect obj w :
  trace (Update obj w).2 = trace w ++ [EvUpdate obj (Update obj w).1]
  ∧ deployments (Update obj w).2 = deployments w
  ∧ clock (Update obj w).2 = clock w.
Proof.
  client_unfold. destruct (faults w) as [|[e|] fs]; simpl;
    try destruct (objects w !! keyOf obj); try case_bool_decide; done.
Qed.

Lemma Update_accepted obj w :
  (Update obj w).1 = None →
  ∃ old, objects w !! keyOf obj = Some old
         ∧ DeletionTimestamp (GetObjectMeta obj)
           = DeletionTimestamp (GetObjectMeta old)
         ∧ objects (Update obj w).2
           = if released obj then delete (keyOf obj) (objects w)
             else <[keyOf obj := withStatusOf old obj]> (objects w).
Proof.
  client_unfold. destruct (faults w) as [|[e|] fs]; simpl;
    try destruct (objects w !! keyOf obj); try case_bool_decide;
    naive_solver.
Qed.

Lemma released_true obj :
  released obj = true
  ↔ IsZero (DeletionTimestamp (GetObjectMeta obj)) = false
    ∧ Finalizers (GetObjectMeta obj) = [].
Proof.
  unfold released. rewrite andb_true_iff, negb_true_iff, bool_decide_eq_true.
  done.
Qed.

Lemma released_false obj :
  released obj = false
  ↔ IsZero (DeletionTimestamp (GetObjectMeta obj)) = true
    ∨ Finalizers (GetObjectMeta obj) ≠ [].
Proof.
  unfold released. rewrite andb_false_iff, negb_false_iff, bool_decide_eq_false.
  done.
Qed.

Lemma Update_accepted_kept obj w :
  (Update obj w).1 = None → released obj = false →
  ∃ old, objects w !! keyOf obj = Some old
         ∧ objects (Update obj w).2
           = <[keyOf obj := withStatusOf old obj]> (objects w).
Proof.
  intros (old & Hold & _ & Hobjs)%Update_accepted Hrel.
  rewrite Hrel in Hobjs. by exists old.
Qed.

Lemma Update_accepted_erased obj w :
  (Update obj w).1 = None → released obj = true →
  objects (Update obj w).2 = delete (keyOf obj) (objects w).
Proof.
  intros (old & Hold & _ & Hobjs)%Update_accepted Hrel.
  by rewrite Hrel in Hobjs.
Qed.

Lemma Update_rejected obj w err :
  (Update obj w).1 = Some err → objects (Update obj w).2 = objects w.
Proof.
  client_unfold. destruct (faults w) as [|[e|] fs]; simpl;
    try destruct (objects w !! keyOf obj); try case_bool_decide;
    naive_solver.
Qed.

Lemma StatusUpdate_effect obj w :
  trace (StatusUpdate obj w).2
  = trace w ++ [EvStatusUpdate obj (StatusUpdate obj w).1]
  ∧ deployments (StatusUpdate obj w).2 = deployments w
  ∧ clock (StatusUpdate obj w).2 = clock w.
Proof.
  client_unfold. destruct (faults w) as [|[e|] fs]; simpl;
    try destruct (objects w !! keyOf obj); done.
Qed.

Lemma StatusUpdate_accepted obj w :
  (StatusUpdate obj w).1 = None →
  ∃ old, objects w !! keyOf obj = Some old
         ∧ objects (StatusUpdate obj w).2
           = <[keyOf obj := withStatusOf obj old]> (objects w).
Proof.
  client_unfold. destruct (faults w) as [|[e|] fs]; simpl;
    try destruct (objects w !! keyOf obj); naive_solver.
Qed.

Lemma StatusUpdate_rejected obj w err :
  (StatusUpdate obj w).1 = Some err →
  objects (StatusUpdate obj w).2 = objects w.
Proof.
  client_unfold. destruct (faults w) as [|[e|] fs]; simpl;
    try destruct (objects w !! keyOf obj); naive_solver.
Qed.

(** The object in memory after a status write: the object passed, or the
    stored object with the status that was sent. *)
Lemma StatusUpdateInPlace_run obj w :
  StatusUpdateInPlace obj w
  = ((match (StatusUpdate obj w).1 with
      | Some _ => obj
      | None => from_option (withStatusOf obj) obj (objects w !! keyOf obj)
      end, (StatusUpdate obj w).1), (StatusUpdate obj w).2).
Proof.
  unfold StatusUpdateInPlace, mbind, M_bind.
  pose proof (StatusUpdate_accepted obj w) as Hacc.
  destruct (StatusUpdate obj w) as [[err|] w1]; cbn [fst snd] in *; [done|].
  destruct (Hacc eq_refl) as (old & -> & ->).
  by rewrite lookup_insert_eq.
Qed.

Lemma StatusUpdateInPlace_err obj w :
  (StatusUpdateInPlace obj w).1.2 = (StatusUpdate obj w).1.
Proof. by rewrite StatusUpdateInPlace_run. Qed.

Lemma StatusUpdateInPlace_world obj w :
  (StatusUpdateInPlace obj w).2 = (StatusUpdate obj w).2.
Proof. by rewrite StatusUpdateInPlace_run. Qed.

(** After an accepted write the object in memory is the stored one. *)
Lemma StatusUpdateInPlace_stored obj w :
  (StatusUpdate obj w).1 = None →
  objects (StatusUpdate obj w).2 !! keyOf obj
  = Some (StatusUpdateInPlace obj w).1.1.
Proof.
  intros Hacc. rewrite StatusUpdateInPlace_run, Hacc. cbn [fst].
  destruct (StatusUpdate_accepted obj w Hacc) as (old & -> & ->).
  by rewrite lookup_insert_eq.
Qed.

Lemma StatusUpdateInPlace_rejected obj w err :
  (StatusUpdate obj w).1 = Some err → (StatusUpdateInPlace obj w).1.1 = obj.
Proof. intros Hrej. by rewrite StatusUpdateInPlace_run, Hrej. Qed.

(** When the object passed has the metadata and the spec of the stored
    one, the status write leaves it as it is. *)
Lemma StatusUpdateInPlace_same obj w :
  (∀ old, objects w !! keyOf obj = Some old → withStatusOf obj old = obj) →
  StatusUpdateInPlace obj w
  = ((obj, (StatusUpdate obj w).1), (StatusUpdate obj w).2).
Proof.
  intros Hsame. rewrite StatusUpdateInPlace_run.
  destruct (StatusUpdate obj w).1; [done|].
  destruct (objects w !! keyOf obj) as [old|] eqn:Hold; [|done].
  cbn [from_option]. by rewrite (Hsame old eq_refl).
Qed.

(** *** Finalizers *)

Import controllerutil.

Lemma ContainsFinalizer_true obj f :
  ContainsFinalizer obj f = true ↔ f ∈ Finalizers (GetObjectMeta obj).
Proof. apply bool_decide_eq_true. Qed.

Lemma ContainsFinalizer_false obj f :
  ContainsFinalizer obj f = false ↔ f ∉ Finalizers (GetObjectMeta obj).
Proof. apply bool_decide_eq_false. Qed.

Lemma AddFinalizer_meta obj f :
  f ∉ Finalizers (GetObjectMeta obj) →
  GetObjectMeta (AddFinalizer obj f)
  = setFinalizers (Finalizers (GetObjectMeta obj) ++ [f]) (GetObjectMeta obj).
Proof.
  intros Hf. unfold AddFinalizer.
  rewrite bool_decide_eq_false_2 by done. apply Get_SetObjectMeta.
Qed.

Lemma AddFinalizer_contains obj f :
  f ∈ Finalizers (GetObjectMeta (AddFinalizer obj f)).
Proof.
  unfold AddFinalizer. case_bool_decide; [done|].
  rewrite Get_SetObjectMeta. simpl. apply elem_of_app. right. by left.
Qed.

Lemma AddFinalizer_key obj f : keyOf (AddFinalizer obj f) = keyOf obj.
Proof.
  unfold AddFinalizer, keyOf. case_bool_decide; [done|].
  by rewrite Get_SetObjectMeta.
Qed.

Lemma RemoveFinalizer_meta obj f :
  GetObjectMeta (RemoveFinalizer obj f)
  = setFinalizers (filter (λ e, e ≠ f) (Finalizers (GetObjectMeta obj)))
      (GetObjectMeta obj).
Proof. apply Get_SetObjectMeta. Qed.


Lemma RemoveFinalizer_key obj f : keyOf (RemoveFinalizer obj f) = keyOf obj.
Proof. unfold keyOf. by rewrite RemoveFinalizer_meta. Qed.

Lemma keyOf_withStatusOf (src dst : T) : keyOf (withStatusOf src dst) = keyOf dst.
Proof. unfold keyOf. by rewrite Get_withStatusOf. Qed.
End ClientFacts.

(** ** C5: an object that is gone *)

(** C5. When the fetch of the target object reports NotFound, [Reconcile]
    returns an empty result and a nil error, and has done nothing but the
    fetch. Stated for the pattern reconciler and the Database reconciler. *)
Theorem C5_NotFound_is_success (req : Request)
    (wp : client.World patterns.MyResource)
    (wd : client.World database.Database) (ep ed : error) :
  (client.Get req wp).1 = inr ep → IsNotFound ep = true →
  (client.Get req wd).1 = inr ed → IsNotFound ed = true →
  patterns.Reconcile req wp = ((Result0, None), (client.Get req wp).2)
  ∧ database.Reconcile req wd = ((Result0, None), (client.Get req wd).2).
Proof.
  intros Hp Hep Hd Hed.
  unfold patterns.Reconcile, database.Reconcile, mbind, client.M_bind.
  destruct (client.Get req wp) as [gp wp'], (client.Get req wd) as [gd wd'].
  simpl in *. subst. by rewrite Hep, Hed.
Qed.

Lemma C5_NotFound_is_success_witness :
  (patterns.Reconcile samples.key0 (samples.worldOf [] [] 0)).1
  = (Result0, None)
  ∧ (database.Reconcile samples.key0 (samples.worldOf [] [] 0)).1
    = (Result0, None).
Proof.
  pose proof (C5_NotFound_is_success samples.key0
                (samples.worldOf [] [] 0) (samples.worldOf [] [] 0)
                ErrNotFound ErrNotFound eq_refl eq_refl eq_refl eq_refl)
    as [Hp Hd].
  split; [exact (f_equal fst Hp) | exact (f_equal fst Hd)].
Defined.

(** ** C3: the finalizer is added before anything else *)

Section AddFinalizerStep.
Import client controllerutil protocol.

Lemma addFinalizerStep_intro `{ObjectLaws T} Reconcile finalizer req
    (w : World T) instance :
  (ContainsFinalizer instance finalizer = false →
   Reconcile req w
   = let upd := Update (AddFinalizer instance finalizer) (Get req w).2 in
     (match upd.1 with
      | None => ({| Requeue := true; RequeueAfter := 0 |}, None)
      | Some err => (Result0, Some err)
      end, upd.2)) →
  addFinalizerStep Reconcile finalizer req w instance.
Proof.
  intros Hrun.
  assert (ContainsFinalizer instance finalizer = false →
          let instance' := AddFinalizer instance finalizer in
          finalizer ∈ Finalizers (GetObjectMeta instance')
          ∧ ∃ r, trace (Reconcile req w).2
                 = trace w ++ [EvGet req; EvUpdate instance' r]
            ∧ match r with
              | None =>
                  (Reconcile req w).1
                  = ({| Requeue := true; RequeueAfter := 0 |}, None)
                  ∧ ∃ stored,
                      objects (Reconcile req w).2 !! keyOf instance
                      = Some stored
                      ∧ finalizer ∈ Finalizers (GetObjectMeta stored)
              | Some err => objects (Reconcile req w).2 = objects w
              end) as Hstep.
  { intros Hfin. rewrite (Hrun Hfin). cbv zeta.
    split; [apply AddFinalizer_contains|].
    destruct (Get_effect req w) as (Htr & Hobj & _).
    set (w1 := (Get req w).2) in *.
    set (instance' := AddFinalizer instance finalizer).
    destruct (Update_effect instance' w1) as (Htr' & _).
    exists (Update instance' w1).1. simpl.
    split; [by rewrite Htr', Htr, <-(assoc_L (++))|].
    destruct (Update instance' w1).1 as [err|] eqn:Hupd.
    - by rewrite (Update_rejected _ _ _ Hupd).
    - split; [done|].
      destruct (Update_accepted_kept _ _ Hupd) as (old & Hold & ->).
      { apply released_false. right. intros Hnil.
        pose proof (AddFinalizer_contains instance finalizer) as Hin.
        fold instance' in Hin. rewrite Hnil in Hin.
        by apply not_elem_of_nil in Hin. }
      exists (withStatusOf old instance').
      subst instance'. rewrite AddFinalizer_key, lookup_insert_eq.
      split; [done|]. rewrite Get_withStatusOf.
      apply AddFinalizer_contains. }
  split; [exact Hstep|].
  intros evs e Hevs He Hlogic.
  destruct (ContainsFinalizer instance finalizer) eqn:Hfin; [done|].
  destruct (Hstep eq_refl) as (_ & r & Htr & _).
  rewrite Htr in Hevs. apply app_inv_head in Hevs. subst evs.
  apply elem_of_cons in He as [->|He]; [done|].
  by apply list_elem_of_singleton in He as ->.
Qed.
End AddFinalizerStep.

Section LiveObject.
Import client controllerutil protocol.

Lemma patterns_Reconcile_live req (w : World patterns.MyResource) instance :
  (Get req w).1 = inl instance →
  IsZero (DeletionTimestamp (patterns.Meta instance)) = true →
  addFinalizerStep patterns.Reconcile patterns.finalizerName req w instance.
Proof.
  intros Hget Hlive. apply addFinalizerStep_intro. intros Hfin.
  unfold patterns.Reconcile, mbind, M_bind.
  destruct (Get req w) as [got w1]. simpl in Hget. subst got.
  cbn [fst snd]. change (GetObjectMeta instance) with (patterns.Meta instance).
  rewrite Hlive, Hfin. cbn [negb].
  by destruct (Update _ w1) as [[e|] w2].
Qed.

Lemma database_Reconcile_live req (w : World database.Database) instance :
  (Get req w).1 = inl instance →
  IsZero (DeletionTimestamp (database.Meta instance)) = true →
  addFinalizerStep database.Reconcile database.databaseFinalizer req w
    instance.
Proof.
  intros Hget Hlive. apply addFinalizerStep_intro. intros Hfin.
  unfold database.Reconcile, mbind, M_bind.
  destruct (Get req w) as [got w1]. simpl in Hget. subst got.
  cbn [fst snd]. rewrite Hlive, Hfin. cbn [negb].
  by destruct (Update _ w1) as [[e|] w2].
Qed.
End LiveObject.

(** C3 (as amended). On a live object that lacks the finalizer, [Reconcile]
    adds the finalizer and submits one update, and runs no normal reconcile
    logic; when the update is accepted the stored object carries the
    finalizer and the result asks for a requeue, when it is rejected
    nothing is stored. Normal reconcile logic runs on a live object only
    when the finalizer is already present. What the call returns after a
    rejected update is left open. Stated for the pattern reconciler and the
    Database reconciler. *)
Theorem C3_finalizer_before_reconcile (req : Request)
    (wp : client.World patterns.MyResource)
    (wd : client.World database.Database)
    (ip : patterns.MyResource) (id : database.Database) :
  (client.Get req wp).1 = inl ip →
  IsZero (DeletionTimestamp (patterns.Meta ip)) = true →
  (client.Get req wd).1 = inl id →
  IsZero (DeletionTimestamp (database.Meta id)) = true →
  protocol.addFinalizerStep patterns.Reconcile patterns.finalizerName
    req wp ip
  ∧ protocol.addFinalizerStep database.Reconcile database.databaseFinalizer
      req wd id.
Proof.
  intros. split;
    [by apply patterns_Reconcile_live | by apply database_Reconcile_live].
Qed.

Lemma C3_finalizer_before_reconcile_witness :
  protocol.addFinalizerStep patterns.Reconcile patterns.finalizerName
    samples.key0 (samples.worldOf [samples.res0] [] 0) samples.res0
  ∧ protocol.addFinalizerStep database.Reconcile database.databaseFinalizer
      samples.key0 (samples.worldOf [samples.db0] [] 0) samples.db0.
Proof.
  apply (C3_finalizer_before_reconcile samples.key0
           (samples.worldOf [samples.res0] [] 0)
           (samples.worldOf [samples.db0] [] 0) samples.res0 samples.db0);
    vm_compute; reflexivity.
Defined.

(** C3, the claim as stated fails: on a live object without the finalizer,
    when the update is rejected (here with a conflict) the finalizer is not
    persisted: the stored object is as before, without the finalizer. The
    call returns the conflict as an error, with an empty result and no
    requeue request. *)
Lemma C3_counterexample_update_rejected :
  let wp := samples.worldOf [samples.res0] samples.conflictOnSecondCall 0 in
  let wd := samples.worldOf [samples.db0] samples.conflictOnSecondCall 0 in
  let outp := patterns.Reconcile samples.key0 wp in
  let outd := database.Reconcile samples.key0 wd in
  IsZero (DeletionTimestamp (patterns.Meta samples.res0)) = true
  ∧ Finalizers (patterns.Meta samples.res0) = []
  ∧ outp.1 = (Result0, Some ErrConflict)
  ∧ client.objects outp.2 !! samples.key0 = Some samples.res0
  ∧ outd.1 = (Result0, Some ErrConflict)
  ∧ client.objects outd.2 !! samples.key0 = Some samples.db0.
Proof. vm_compute. repeat split; reflexivity. Qed.

(** ** C4: deletion *)

Section DeleteStep.
Import client controllerutil protocol.






End DeleteStep.




(** ** C8: observed generation never ahead of generation *)

Section GenerationFacts.
Import client generation.
Context `{ObjectLaws T} (observed : T → Z).
Hypothesis observed_withStatusOf :
  ∀ src dst : T, observed (withStatusOf src dst) = observed src.
Variables (key : NamespacedName) (g : Z).
Implicit Types (w : World T) (obj : T).

Abbreviation keeps := (generation.keeps observed key g).
Abbreviation During := (generation.During observed key g).
Abbreviation upToDate := (generation.upToDate observed).

Lemma keeps_ret {A} (a : A) (Q : A → Prop) : Q a → keeps (mret a) Q.
Proof. intros Ha w Hw. by split. Qed.

Lemma keeps_bind {A B} (m : M T A) (f : A → M T B) Q R :
  keeps m Q → (∀ a, Q a → keeps (f a) R) → keeps (m ≫= f) R.
Proof.
  intros Hm Hf w Hw. unfold mbind, M_bind.
  destruct (Hm w Hw) as [Hw1 Ha]. destruct (m w) as [a w1].
  by apply Hf.
Qed.

Lemma keeps_weaken {A} (m : M T A) (Q R : A → Prop) :
  keeps m Q → (∀ a, Q a → R a) → keeps m R.
Proof. intros Hm HQR w Hw. destruct (Hm w Hw). auto. Qed.

(** A step that leaves the objects alone and records no status write. *)
Lemma keeps_quiet {A} (m : M T A) :
  (∀ w, objects (m w).2 = objects w
        ∧ ∃ evs, trace (m w).2 = trace w ++ evs
                 ∧ ∀ obj r, EvStatusUpdate obj r ∉ evs) →
  keeps m (λ _, True).
Proof.
  intros Hm w ((Hkey & Hobj & Htr) & Hgen).
  destruct (Hm w) as (Ho & evs & He & Hevs).
  split; [|done]. unfold generation.During, Invariant, wellKeyed.
  rewrite Ho, He. split_and!; try done.
  intros obj r [?|?]%elem_of_app; [eauto | by destruct (Hevs obj r)].
Qed.

Lemma keeps_fault : keeps fault (λ _, True).
Proof.
  apply keeps_quiet. intros w. unfold fault.
  destruct (faults w); (split; [done|]); exists [];
    (split; [by rewrite app_nil_r | by intros ?? ?%elem_of_nil]).
Qed.

Lemma keeps_emit e :
  (∀ obj r, e ≠ EvStatusUpdate obj r) → keeps (emit e) (λ _, True).
Proof.
  intros He. apply keeps_quiet. intros w. split; [done|].
  exists [e]. split; [done|]. intros obj r Heq%list_elem_of_singleton.
  by destruct (He obj r).
Qed.

Lemma keeps_Now : keeps Now (λ _, True).
Proof.
  apply keeps_quiet. intros w. split; [done|]. exists [].
  split; [by rewrite app_nil_r | by intros ?? ?%elem_of_nil].
Qed.

Lemma keeps_scripted_call {A} e (f : option error → M T A) :
  (∀ obj r, e ≠ EvStatusUpdate obj r) →
  (∀ o w, objects (f o w).2 = objects w ∧ trace (f o w).2 = trace w) →
  keeps (o ← fault; _ ← emit e; f o) (λ _, True).
Proof.
  intros He Hf.
  eapply keeps_bind; [apply keeps_fault|]. intros o _.
  eapply keeps_bind; [by apply keeps_emit|]. intros _ _.
  apply keeps_quiet. intros w. destruct (Hf o w) as [-> ->].
  split; [done|]. exists [].
  split; [by rewrite app_nil_r | by intros ?? ?%elem_of_nil].
Qed.

Lemma keeps_CreateOrPatchChild kind k :
  keeps (CreateOrPatchChild kind k) (λ _, True).
Proof. by apply keeps_scripted_call. Qed.

Lemma keeps_GetDeployment k : keeps (GetDeployment k) (λ _, True).
Proof.
  apply keeps_scripted_call; [done|].
  intros [e|] w; [done|]. by destruct (deployments w !! k).
Qed.

Lemma keeps_CreateOrPatchDeployment k :
  keeps (CreateOrPatchDeployment k) (λ _, True).
Proof.
  apply keeps_scripted_call; [done|].
  intros [e|] w; [done|]. by destruct (deployments w !! k).
Qed.

Lemma keeps_RecorderEvent a b c : keeps (RecorderEvent a b c) (λ _, True).
Proof. by apply keeps_emit. Qed.

Lemma keeps_Update obj :
  versionOf key g obj → keeps (Update obj) (λ _, True).
Proof.
  intros [Hk Hg] w ((Hkey & Hobj & Htr) & Hgen). split; [|done].
  destruct (Update_effect obj w) as (Htr' & _).
  assert (∀ o r, EvStatusUpdate o r ∈ trace (Update obj w).2 → upToDate o)
    as Htrace.
  { intros o r. rewrite Htr'.
    intros [?|[=]%list_elem_of_singleton]%elem_of_app. eauto. }
  destruct (Update obj w).1 as [err|] eqn:Hupd.
  - pose proof (Update_rejected _ _ _ Hupd) as Ho.
    unfold generation.During, Invariant, wellKeyed. rewrite Ho. auto.
  - destruct (Update_accepted _ _ Hupd) as (old & Hold & _ & Ho).
    rewrite Hk in Hold, Ho.
    unfold generation.During, Invariant, wellKeyed. rewrite Ho.
    destruct (released obj).
    { split_and!; [| |done|].
      - intros k o [_ ?]%lookup_delete_Some. eauto.
      - intros k o [_ ?]%lookup_delete_Some. eauto.
      - by rewrite lookup_delete_eq. }
    split_and!; [| |done|].
    + intros k o [[<- <-]|[? ?]]%lookup_insert_Some; [|eauto].
      by rewrite keyOf_withStatusOf.
    + intros k o [[<- <-]|[? ?]]%lookup_insert_Some; [|eauto].
      unfold generation.upToDate.
      rewrite observed_withStatusOf, Get_withStatusOf, Hg, <-(Hgen old Hold).
      by apply (Hobj key).
    + rewrite lookup_insert_eq. intros ? [= <-].
      by rewrite Get_withStatusOf.
Qed.

Lemma keeps_StatusUpdate obj :
  versionOf key g obj → upToDate obj → keeps (StatusUpdate obj) (λ _, True).
Proof.
  intros [Hk Hg] Hup w ((Hkey & Hobj & Htr) & Hgen). split; [|done].
  destruct (StatusUpdate_effect obj w) as (Htr' & _).
  assert (∀ o r, EvStatusUpdate o r ∈ trace (StatusUpdate obj w).2 →
                 upToDate o) as Htrace.
  { intros o r. rewrite Htr'.
    intros [?|[= <- _]%list_elem_of_singleton]%elem_of_app; eauto. }
  destruct (StatusUpdate obj w).1 as [err|] eqn:Hupd.
  - pose proof (StatusUpdate_rejected _ _ _ Hupd) as Ho.
    unfold generation.During, Invariant, wellKeyed. rewrite Ho. auto.
  - destruct (StatusUpdate_accepted _ _ Hupd) as (old & Hold & Ho).
    rewrite Hk in Hold, Ho.
    unfold generation.During, Invariant, wellKeyed. rewrite Ho.
    split_and!; [| |done|].
    + intros k o [[<- <-]|[? ?]]%lookup_insert_Some; [|eauto].
      rewrite keyOf_withStatusOf. by apply Hkey.
    + intros k o [[<- <-]|[? ?]]%lookup_insert_Some; [|eauto].
      unfold generation.upToDate in *.
      by rewrite observed_withStatusOf, Get_withStatusOf, (Hgen old Hold), <-Hg.
    + rewrite lookup_insert_eq. intros ? [= <-].
      rewrite Get_withStatusOf. auto.
Qed.

Lemma keeps_StatusUpdateInPlace obj :
  versionOf key g obj → upToDate obj →
  keeps (StatusUpdateInPlace obj) (λ _, True).
Proof.
  intros Hv Hu. unfold StatusUpdateInPlace.
  eapply keeps_bind; [by apply keeps_StatusUpdate|].
  intros [err|] _; [by apply keeps_ret|].
  apply keeps_quiet. intros w. split; [done|]. exists [].
  split; [by rewrite app_nil_r | by intros ?? ?%elem_of_nil].
Qed.

End GenerationFacts.

Section ReconcileKeepsInvariant.
Import client generation controllerutil.
Context `{ObjectLaws T} (observed : T → Z).
Hypothesis observed_withStatusOf :
  ∀ src dst : T, observed (withStatusOf src dst) = observed src.

(** A reconcile starts with a fetch; what follows runs either on an error
    or on an up-to-date version of the stored object. *)
Lemma Invariant_after_Get {A} req (k : T + error → M T A) (w : World T) :
  Invariant observed w →
  (∀ err g, keeps observed req g (k (inr err)) (λ _, True)) →
  (∀ instance,
     versionOf req (Generation (GetObjectMeta instance)) instance →
     upToDate observed instance →
     keeps observed req (Generation (GetObjectMeta instance))
       (k (inl instance)) (λ _, True)) →
  Invariant observed ((Get req ≫= k) w).2.
Proof.
  intros (Hkey & Hobj & Htr) Herr Hok. unfold mbind, M_bind.
  destruct (Get_effect req w) as (Htr1 & Hobj1 & _).
  pose proof (Get_inl req w) as Hinl.
  destruct (Get req w) as [[instance|err] w1]; cbn [fst snd] in *.
  - specialize (Hinl instance eq_refl).
    apply (Hok instance); [split; [by apply Hkey|done] | by apply (Hobj req) |].
    unfold During, Invariant, wellKeyed. rewrite Hobj1, Htr1.
    split_and!; [done | done | | intros old; rewrite Hinl; by intros [= <-]].
    intros o r [?|[=]%list_elem_of_singleton]%elem_of_app. eauto.
  - apply (Herr err (from_option (Generation ∘ GetObjectMeta) 0
                       (objects w !! req))).
    unfold During, Invariant, wellKeyed. rewrite Hobj1, Htr1.
    split_and!; [done | done | | intros old Hold; by rewrite Hold].
    intros o r [?|[=]%list_elem_of_singleton]%elem_of_app. eauto.
Qed.

Lemma versionOf_AddFinalizer key g (obj : T) f :
  versionOf key g obj → versionOf key g (AddFinalizer obj f).
Proof.
  intros [Hk Hg]. split; [by rewrite AddFinalizer_key|].
  unfold AddFinalizer. case_bool_decide; [done|].
  by rewrite Get_SetObjectMeta.
Qed.

Lemma versionOf_RemoveFinalizer key g (obj : T) f :
  versionOf key g obj → versionOf key g (RemoveFinalizer obj f).
Proof.
  intros [Hk Hg]. split; [by rewrite RemoveFinalizer_key|].
  by rewrite RemoveFinalizer_meta.
Qed.
End ReconcileKeepsInvariant.

Tactic Notation "keeps_step" uconstr(rule) :=
  eapply keeps_bind; [eapply rule |].

Section PatternsGeneration.
Import client generation controllerutil.

Lemma observedP_withStatusOf (src dst : patterns.MyResource) :
  observedP (withStatusOf src dst) = observedP src.
Proof. reflexivity. Qed.

Variables (key : NamespacedName) (g : Z).
Abbreviation keepsP := (keeps observedP key g).

Lemma sameVersionP_versionOf r r' :
  sameVersionP r r' → versionOf key g r → versionOf key g r'.
Proof.
  intros [Hm _] [Hk Hg]. unfold versionOf, keyOf in *. simpl in *.
  by rewrite Hm.
Qed.

Lemma sameVersionP_upToDate r r' :
  sameVersionP r r' → upToDate observedP r → upToDate observedP r'.
Proof.
  intros [Hm Ho]. unfold upToDate. simpl. by rewrite Hm, Ho.
Qed.

Lemma keeps_SetCondition_P r t st rs m :
  keepsP (patterns.SetCondition r t st rs m) (sameVersionP r).
Proof.
  unfold patterns.SetCondition.
  keeps_step keeps_Now. intros now _. by apply keeps_ret.
Qed.

Lemma keeps_updateStatus_P instance st rs m :
  versionOf key g instance → upToDate observedP instance →
  keepsP (patterns.updateStatus instance st rs m) (λ _, True).
Proof.
  intros Hv Hu. unfold patterns.updateStatus.
  keeps_step keeps_SetCondition_P. intros i1 Hi1.
  keeps_step keeps_Now. intros now _.
  eapply keeps_bind.
  - apply keeps_StatusUpdateInPlace; [apply observedP_withStatusOf | |].
    + by apply (sameVersionP_versionOf instance); [destruct Hi1|].
    + by apply (sameVersionP_upToDate instance); [destruct Hi1|].
  - intros [i2 e] _. by apply keeps_ret.
Qed.

Lemma keeps_reconcileLogic_P instance :
  keepsP (patterns.reconcileLogic instance)
    (λ out, sameVersionP instance out.1).
Proof.
  unfold patterns.reconcileLogic.
  eapply keeps_bind; [by apply keeps_emit|]. intros _ _.
  keeps_step keeps_CreateOrPatchDeployment. intros [d [err|]] _;
    by apply keeps_ret.
Qed.

Lemma keeps_reconcileDelete_P instance :
  versionOf key g instance →
  keepsP (patterns.reconcileDelete instance) (λ _, True).
Proof.
  intros Hv. unfold patterns.reconcileDelete.
  destruct (ContainsFinalizer _ _); [|by apply keeps_ret].
  eapply keeps_bind.
  { unfold patterns.cleanupExternalResources.
    eapply keeps_bind; [by apply keeps_emit|]. intros _ _. apply keeps_fault. }
  intros [err|] _; [by apply keeps_ret|].
  eapply keeps_bind.
  { apply keeps_Update; [apply observedP_withStatusOf|].
    by apply versionOf_RemoveFinalizer. }
  intros [err|] _; by apply keeps_ret.
Qed.
End PatternsGeneration.

Section PatternsReconcileInvariant.
Import client generation.

Lemma patterns_Reconcile_Invariant req (w : client.World patterns.MyResource) :
  generation.Invariant generation.observedP w →
  generation.Invariant generation.observedP (patterns.Reconcile req w).2.
Proof.
  intros Hw. unfold patterns.Reconcile.
  apply Invariant_after_Get; [done | |].
  - intros err g. destruct (IsNotFound err); by apply keeps_ret.
  - intros instance Hv Hu.
    destruct (negb (IsZero _)); [by apply keeps_reconcileDelete_P|].
    destruct (negb (controllerutil.ContainsFinalizer _ _)).
    + eapply keeps_bind.
      { apply keeps_Update; [apply observedP_withStatusOf|].
        by apply versionOf_AddFinalizer. }
      intros [err|] _; by apply keeps_ret.
    + set (instance1 := patterns.setStatus _ instance).
      assert (generation.versionOf req
                (Generation (patterns.Meta instance)) instance1) as Hv1
        by exact Hv.
      assert (generation.upToDate observedP instance1) as Hu1
        by exact (Z.le_refl _).
      keeps_step keeps_reconcileLogic_P. intros [instance2 err] Hs.
      simpl in Hs.
      pose proof (sameVersionP_versionOf _ _ _ _ Hs Hv1).
      pose proof (sameVersionP_upToDate _ _ Hs Hu1).
      destruct err as [err|].
      * eapply keeps_bind; [by apply keeps_updateStatus_P|].
        intros _ _. by apply keeps_ret.
      * eapply keeps_bind; [by apply keeps_updateStatus_P|].
        intros instance3 _. by apply keeps_ret.
Qed.
End PatternsReconcileInvariant.

Section DatabaseGeneration.
Import client generation controllerutil.

Lemma observedD_withStatusOf (src dst : database.Database) :
  observedD (withStatusOf src dst) = observedD src.
Proof. reflexivity. Qed.

Variables (key : NamespacedName) (g : Z).
Abbreviation keepsD := (keeps observedD key g).

Lemma sameVersionD_versionOf d d' :
  sameVersionD d d' → versionOf key g d → versionOf key g d'.
Proof.
  intros [Hm _] [Hk Hg]. unfold versionOf, keyOf in *. simpl in *.
  by rewrite Hm.
Qed.

Lemma sameVersionD_upToDate d d' :
  sameVersionD d d' → upToDate observedD d → upToDate observedD d'.
Proof.
  intros [Hm Ho]. unfold upToDate. simpl. by rewrite Hm, Ho.
Qed.

Lemma keeps_SetCondition_D d t st rs m :
  keepsD (database.SetCondition d t st rs m) (sameVersionD d).
Proof.
  unfold database.SetCondition.
  keeps_step keeps_Now. intros now _. by apply keeps_ret.
Qed.

Lemma keeps_setErrorStatus_D d reason err :
  versionOf key g d → upToDate observedD d →
  keepsD (database.setErrorStatus d reason err) (λ _, True).
Proof.
  intros Hv Hu. unfold database.setErrorStatus.
  keeps_step keeps_SetCondition_D. intros d1 Hd1.
  eapply keeps_bind.
  - apply keeps_StatusUpdate; [apply observedD_withStatusOf | |].
    + by apply (sameVersionD_versionOf _ _ Hd1).
    + by apply (sameVersionD_upToDate _ _ Hd1).
  - intros _ _. by apply keeps_ret.
Qed.

Lemma keeps_updateStatus_D d :
  versionOf key g d → keepsD (database.updateStatus d) (λ _, True).
Proof.
  intros Hv. unfold database.updateStatus.
  keeps_step keeps_GetDeployment. intros [dep err] _.
  destruct (if err is Some e then negb (IsNotFound e) else false);
    [by apply keeps_ret|].
  eapply keeps_bind.
  { instantiate (1 := λ d', versionOf key g d' ∧ upToDate observedD d').
    case_bool_decide.
    - eapply keeps_weaken; [apply keeps_SetCondition_D|].
      intros d' Hd'. split.
      + by apply (sameVersionD_versionOf _ _ Hd').
      + apply (sameVersionD_upToDate _ _ Hd'). exact (Z.le_refl _).
    - eapply keeps_weaken; [apply keeps_SetCondition_D|].
      intros d' Hd'. split.
      + by apply (sameVersionD_versionOf _ _ Hd').
      + apply (sameVersionD_upToDate _ _ Hd'). exact (Z.le_refl _). }
  intros d' [Hv' Hu'].
  eapply keeps_bind;
    [by apply keeps_StatusUpdateInPlace; [apply observedD_withStatusOf | |]|].
  intros [d2 e] _. by apply keeps_ret.
Qed.

Lemma keeps_reconcileDelete_D d :
  versionOf key g d → keepsD (database.reconcileDelete d) (λ _, True).
Proof.
  intros Hv. unfold database.reconcileDelete.
  destruct (ContainsFinalizer _ _); [|by apply keeps_ret].
  eapply keeps_bind.
  { apply keeps_Update; [apply observedD_withStatusOf|].
    by apply versionOf_RemoveFinalizer. }
  intros [err|] _; by apply keeps_ret.
Qed.

Lemma keeps_children_D d :
  keepsD (database.reconcilePVC d) (λ _, True)
  ∧ keepsD (database.reconcileSecret d) (λ _, True)
  ∧ keepsD (database.reconcileConfigMap d) (λ _, True)
  ∧ keepsD (database.reconcileDeployment d) (λ _, True)
  ∧ keepsD (database.reconcileService d) (λ _, True).
Proof.
  split_and!.
  - apply keeps_CreateOrPatchChild.
  - apply keeps_CreateOrPatchChild.
  - unfold database.reconcileConfigMap.
    case_bool_decide; [by apply keeps_ret | apply keeps_CreateOrPatchChild].
  - unfold database.reconcileDeployment.
    keeps_step keeps_CreateOrPatchDeployment. intros [? ?] _.
    by apply keeps_ret.
  - apply keeps_CreateOrPatchChild.
Qed.
End DatabaseGeneration.

Section DatabaseReconcileInvariant.
Import client generation.

Lemma database_Reconcile_Invariant req (w : client.World database.Database) :
  generation.Invariant generation.observedD w →
  generation.Invariant generation.observedD (database.Reconcile req w).2.
Proof.
  intros Hw. unfold database.Reconcile.
  apply Invariant_after_Get; [done | |].
  - intros err g. destruct (IsNotFound err); by apply keeps_ret.
  - intros d Hv Hu.
    destruct (negb (IsZero _)); [by apply keeps_reconcileDelete_D|].
    destruct (negb (controllerutil.ContainsFinalizer _ _)).
    + eapply keeps_bind.
      { apply keeps_Update; [apply observedD_withStatusOf|].
        by apply versionOf_AddFinalizer. }
      intros [err|] _; by apply keeps_ret.
    + set (d1 := database.setStatus _ d).
      assert (generation.versionOf req (Generation (database.Meta d)) d1)
        as Hv1 by exact Hv.
      assert (generation.upToDate observedD d1) as Hu1 by exact Hu.
      destruct (keeps_children_D req (Generation (database.Meta d)) d1)
        as (Hpvc & Hsecret & Hcm & Hdep & Hsvc).
      eapply keeps_bind;
        [by apply keeps_StatusUpdate; [apply observedD_withStatusOf | |]|].
      intros _ _.
      keeps_step Hpvc. intros [err|] _;
        [by apply keeps_setErrorStatus_D|].
      keeps_step Hsecret. intros [err|] _;
        [by apply keeps_setErrorStatus_D|].
      keeps_step Hcm. intros [err|] _;
        [by apply keeps_setErrorStatus_D|].
      keeps_step Hdep. intros [err|] _;
        [by apply keeps_setErrorStatus_D|].
      keeps_step Hsvc. intros [err|] _;
        [by apply keeps_setErrorStatus_D|].
      eapply keeps_bind; [by apply keeps_updateStatus_D|].
      intros [d2 [err|]] _; by apply keeps_ret.
Qed.
End DatabaseReconcileInvariant.

Section SampleWorlds.
Import client generation.
Context `{ObjectLaws T} (observed : T → Z).

(** A world that holds one up-to-date object and has an empty trace
    satisfies the invariant. *)
Lemma Invariant_worldOf_one (obj : T) script now :
  upToDate observed obj →
  Invariant observed (samples.worldOf [obj] script now).
Proof.
  intros Hobj. unfold Invariant, wellKeyed, samples.worldOf. cbn.
  split_and!.
  - intros key o [[<- <-]|[_ Hempty]]%lookup_insert_Some; [done|].
    by rewrite lookup_empty in Hempty.
  - intros key o [[<- <-]|[_ Hempty]]%lookup_insert_Some; [done|].
    by rewrite lookup_empty in Hempty.
  - by intros o r ?%elem_of_nil.
Qed.
End SampleWorlds.

(** C8. If every stored object is up to date (its observed generation is
    at most its generation) and every status write recorded so far carried
    an up-to-date object, then the same holds after a [Reconcile]: no status
    write of the reconciler, and no other write, puts the observed
    generation ahead of the generation. Stated for the pattern reconciler
    and the Database reconciler. *)
Theorem C8_observedGeneration_le_generation (req : Request)
    (wp : client.World patterns.MyResource)
    (wd : client.World database.Database) :
  generation.Invariant generation.observedP wp →
  generation.Invariant generation.observedD wd →
  generation.Invariant generation.observedP (patterns.Reconcile req wp).2
  ∧ generation.Invariant generation.observedD (database.Reconcile req wd).2.
Proof.
  intros Hp Hd. split;
    [by apply patterns_Reconcile_Invariant
    | by apply database_Reconcile_Invariant].
Qed.

Lemma C8_observedGeneration_le_generation_witness :
  let outp :=
    patterns.Reconcile samples.key0
      (samples.worldOf [samples.resFinalized] [] 70) in
  let outd :=
    database.Reconcile samples.key0
      (samples.worldOf [samples.dbFinalized] [] 90) in
  (∃ written r,
     last (client.trace outp.2) = Some (client.EvStatusUpdate written r)
     ∧ generation.observedP written ≤ Generation (patterns.Meta written))
  ∧ (∃ stored,
       client.objects outp.2 !! samples.key0 = Some stored
       ∧ generation.observedP stored ≤ Generation (patterns.Meta stored))
  ∧ (∃ written r,
       last (client.trace outd.2) = Some (client.EvStatusUpdate written r)
       ∧ generation.observedD written ≤ Generation (database.Meta written))
  ∧ (∃ stored,
       client.objects outd.2 !! samples.key0 = Some stored
       ∧ generation.observedD stored ≤ Generation (database.Meta stored)).
Proof.
  cbv zeta.
  destruct (C8_observedGeneration_le_generation samples.key0
              (samples.worldOf [samples.resFinalized] [] 70)
              (samples.worldOf [samples.dbFinalized] [] 90))
    as [(_ & Hobjp & Htrp) (_ & Hobjd & Htrd)];
    [apply Invariant_worldOf_one; vm_compute; discriminate..|].
  assert (∃ written r,
            last (client.trace
                    (patterns.Reconcile samples.key0
                       (samples.worldOf [samples.resFinalized] [] 70)).2)
            = Some (client.EvStatusUpdate written r))
    as (wp & rp & Hlastp) by (vm_compute; eauto).
  assert (∃ stored,
            client.objects
              (patterns.Reconcile samples.key0
                 (samples.worldOf [samples.resFinalized] [] 70)).2
              !! samples.key0 = Some stored)
    as (sp & Hsp) by (vm_compute; eauto).
  assert (∃ written r,
            last (client.trace
                    (database.Reconcile samples.key0
                       (samples.worldOf [samples.dbFinalized] [] 90)).2)
            = Some (client.EvStatusUpdate written r))
    as (wd & rd & Hlastd) by (vm_compute; eauto).
  assert (∃ stored,
            client.objects
              (database.Reconcile samples.key0
                 (samples.worldOf [samples.dbFinalized] [] 90)).2
              !! samples.key0 = Some stored)
    as (sd & Hsd) by (vm_compute; eauto).
  split_and!.
  - exists wp, rp. split; [done|]. apply (Htrp wp rp).
    apply last_Some in Hlastp as [l ->].
    apply elem_of_app. right. by apply list_elem_of_singleton.
  - exists sp. split; [done|]. by apply (Hobjp samples.key0).
  - exists wd, rd. split; [done|]. apply (Htrd wd rd).
    apply last_Some in Hlastd as [l ->].
    apply elem_of_app. right. by apply list_elem_of_singleton.
  - exists sd. split; [done|]. by apply (Hobjd samples.key0).
Defined.

(** ** C7: from a ConfigMap to the resources that refer to it *)

Section MappingFacts.
Import client.
Context `{ObjectLaws T} (refName : T → string).
Implicit Types (w : World T) (items : list T).



Lemma List_failed namespace w :
  (List namespace w).1.2 ≠ None → (List namespace w).1.1 = [].
Proof.
  client_unfold. by destruct (faults w) as [|[e|] fs].
Qed.



End MappingFacts.

Section MappingRuns.
Import client.



End MappingRuns.




(** ** C2 and C6: retry with backoff *)

Section FmtFacts.
Import fmt golang.

Lemma string_of_uint_digits d : allDigits (NilEmpty.string_of_uint d).
Proof. induction d; simpl; auto. Qed.

Lemma scanNumber_digits s : allDigits s → scanNumber s = s.
Proof.
  induction s as [|c s IH]; simpl; [done|].
  intros [-> Hs]. by rewrite IH.
Qed.

(** A byte below 128 that is no white space starts no white-space rune. *)
Lemma SkipSpace_ascii c s :
  isSpace c = false → (Ascii.N_of_ascii c < 128)%N →
  SkipSpace (String c s) = String c s.
Proof.
  intros Hs Hc. cbn [SkipSpace]. rewrite Hs.
  assert (isSpace2 c = λ _, false) as H2.
  { unfold isSpace2. destruct (bool_decide_reflect (c = "194"%char)) as [->|];
      [by vm_compute in Hc | done]. }
  assert (isSpace3 c = λ _ _, false) as H3.
  { unfold isSpace3.
    destruct (bool_decide_reflect (c = "225"%char)) as [->|];
      [by vm_compute in Hc|].
    destruct (bool_decide_reflect (c = "226"%char)) as [->|];
      [by vm_compute in Hc|].
    destruct (bool_decide_reflect (c = "227"%char)) as [->|];
      [by vm_compute in Hc | done]. }
  destruct s as [|c2 [|c3 s3]]; [done|..]; rewrite H2; [done|].
  by rewrite H3.
Qed.

Lemma digit_ascii c :
  isDigit c = true →
  isSpace c = false ∧ (Ascii.N_of_ascii c < 128)%N
  ∧ c ≠ "-"%char ∧ c ≠ "+"%char.
Proof.
  unfold isDigit. rewrite bool_decide_eq_true, !elem_of_cons.
  intros [->|[->|[->|[->|[->|[->|[->|[->|[->|[->|[]%elem_of_nil]]]]]]]]]];
    by vm_compute.
Qed.

Lemma SkipSpace_digit c s :
  isDigit c = true → SkipSpace (String c s) = String c s.
Proof.
  intros (Hs & Hc & _)%digit_ascii. by apply SkipSpace_ascii.
Qed.

Lemma digit_not_sign c : isDigit c = true → c ≠ "-"%char ∧ c ≠ "+"%char.
Proof. by intros (_ & _ & ? & ?)%digit_ascii. Qed.

Lemma Sscanf_unsigned d v :
  d ≠ Decimal.Nil → Z.of_uint d ≤ maxInt64 →
  Sscanf_d (NilEmpty.string_of_uint d) v = Z.of_uint d.
Proof.
  intros Hd Hmax. unfold Sscanf_d.
  pose proof (string_of_uint_digits d) as Hdig.
  pose proof (NilEmpty.usu d) as Husu.
  destruct (NilEmpty.string_of_uint d) as [|c s] eqn:Hs.
  { by destruct d. }
  destruct Hdig as [Hc Hdig].
  rewrite SkipSpace_digit by done.
  destruct (digit_not_sign c Hc) as [Hminus Hplus].
  assert ((match String c s with
           | String "-"%char s' => (true, s')
           | String "+"%char s' => (false, s')
           | _ => (false, String c s)
           end) = (false, String c s)) as ->.
  { destruct c as [[] [] [] [] [] [] [] []]; try done. }
  rewrite scanNumber_digits by (split; done).
  unfold ParseInt. rewrite Husu. simpl.
  rewrite bool_decide_eq_true_2; [done|].
  split; [|done]. unfold minInt64.
  assert (0 ≤ Z.of_uint d); [|lia].
  unfold Z.of_uint. lia.
Qed.
Lemma Sscanf_negative d v :
  d ≠ Decimal.Nil → minInt64 ≤ - Z.of_uint d →
  Sscanf_d (String "-" (NilEmpty.string_of_uint d)) v = - Z.of_uint d.
Proof.
  intros Hd Hmin. unfold Sscanf_d.
  pose proof (string_of_uint_digits d) as Hdig.
  pose proof (NilEmpty.usu d) as Husu.
  rewrite SkipSpace_ascii by (by vm_compute).
  cbv iota beta.
  rewrite scanNumber_digits by done.
  unfold ParseInt. rewrite Husu.
  destruct (NilEmpty.string_of_uint d) as [|c s] eqn:Hs.
  { by destruct d. }
  simpl. rewrite bool_decide_eq_true_2; [done|].
  split; [done|]. unfold maxInt64.
  assert (0 ≤ Z.of_uint d); [|lia].
  unfold Z.of_uint. lia.
Qed.

(** Scanning what [%d] printed gives the number back. *)
Lemma Sscanf_Sprintf n v :
  minInt64 ≤ n ≤ maxInt64 → Sscanf_d (Sprintf_d n) v = n.
Proof.
  intros [Hmin Hmax]. unfold Sprintf_d.
  destruct n as [|p|p]; [done| |].
  - assert (Z.of_uint (Pos.to_uint p) = Z.pos p) as Hp.
    { unfold Z.of_uint. by rewrite DecimalPos.Unsigned.of_to. }
    assert (Pos.to_uint p ≠ Decimal.Nil) as Hnil.
    { intros Hnil. rewrite Hnil in Hp. done. }
    simpl. unfold NilZero.string_of_uint.
    destruct (Pos.to_uint p) eqn:Hd; [done|..];
      rewrite <-Hp; apply Sscanf_unsigned; (done || by rewrite Hp).
  - assert (Z.of_uint (Pos.to_uint p) = Z.pos p) as Hp.
    { unfold Z.of_uint. by rewrite DecimalPos.Unsigned.of_to. }
    assert (Pos.to_uint p ≠ Decimal.Nil) as Hnil.
    { intros Hnil. rewrite Hnil in Hp. done. }
    simpl. unfold NilZero.string_of_uint.
    change (Z.neg p) with (- Z.pos p). rewrite <-Hp.
    destruct (Pos.to_uint p) eqn:Hd; [done|..];
      apply Sscanf_negative; (done || (rewrite Hp; lia)).
Qed.
End FmtFacts.

Section BackoffFacts.
Import golang advanced.

Lemma int64_small z : minInt64 ≤ z ≤ maxInt64 → int64 z = z.
Proof.
  unfold minInt64, maxInt64, int64. intros Hz.
  rewrite Z.mod_small; lia.
Qed.

Lemma shl64_one n : 0 ≤ n ≤ 62 → shl64 1 (uint n) = 2 ^ n.
Proof.
  intros Hn. unfold shl64, uint.
  rewrite Z.mod_small by lia.
  rewrite bool_decide_eq_true_2 by lia.
  rewrite Z.shiftl_1_l. apply int64_small.
  unfold minInt64, maxInt64.
  assert (0 < 2 ^ n) by (apply Z.pow_pos_nonneg; lia).
  assert (2 ^ n ≤ 2 ^ 62) by (apply Z.pow_le_mono_r; lia).
  lia.
Qed.

(** The delay for retry count [n], as long as [2^n] seconds fit an
    [int64]. *)
Lemma backoffOf_formula n :
  0 ≤ n ≤ 33 → backoffOf n = Z.min (2 ^ n * Second) (5 * Minute).
Proof.
  intros Hn. unfold backoffOf. cbv zeta.
  rewrite shl64_one by lia. unfold mul64.
  assert (0 < 2 ^ n) by (apply Z.pow_pos_nonneg; lia).
  assert (2 ^ n ≤ 2 ^ 33) by (apply Z.pow_le_mono_r; lia).
  rewrite int64_small
    by (unfold minInt64, maxInt64, Second; change (2 ^ 33) with 8589934592 in *; lia).
  case_bool_decide; lia.
Qed.

Lemma backoffOf_mono n m :
  0 ≤ n → n ≤ m → m ≤ 33 → backoffOf n ≤ backoffOf m.
Proof.
  intros Hn Hnm Hm. rewrite !backoffOf_formula by lia.
  assert (2 ^ n ≤ 2 ^ m) by (apply Z.pow_le_mono_r; lia).
  unfold Minute, Second. lia.
Qed.

Lemma backoffOf_positive n : 0 ≤ n ≤ 33 → 0 < backoffOf n.
Proof.
  intros Hn. rewrite backoffOf_formula by done.
  assert (0 < 2 ^ n) by (apply Z.pow_pos_nonneg; lia).
  unfold Minute, Second. lia.
Qed.
End BackoffFacts.

Section RetryFacts.
Import client golang fmt patterns advanced.
Implicit Types (w : World MyResource) (instance : MyResource).

Lemma annotate_nil key value instance :
  annotate key value
    (if Annotations (Meta instance) is None
     then setMeta (setAnnotations (Some ∅) (Meta instance)) instance
     else instance)
  = annotate key value instance.
Proof. by destruct instance as [[? ? ? ? ? ? []] ? ?]. Qed.

Lemma readRetryCount_annotate n instance :
  minInt64 ≤ n ≤ maxInt64 →
  readRetryCount (annotate retryCountKey (Sprintf_d n) instance) = n.
Proof.
  intros Hn. unfold readRetryCount, annotate. cbn [Meta setMeta Annotations setAnnotations].
  cbn [mbind option_bind]. rewrite lookup_insert_eq.
  by apply Sscanf_Sprintf.
Qed.

Lemma reconcileLogic_effect instance w :
  trace (reconcileLogic instance w).2 = trace w ++ [EvCall "reconcileLogic"]
  ∧ objects (reconcileLogic instance w).2 = objects w.
Proof.
  unfold reconcileLogic. client_unfold. cbn.
  by destruct (faults w) as [|[e|] fs].
Qed.

(** A failed attempt: the count is incremented and sent to the server;
    then either the function gives up or it asks for a requeue after the
    backoff. *)
Lemma ReconcileWithRetry_failure req w instance err :
  (Get req w).1 = inl instance →
  (reconcileLogic instance (Get req w).2).1 = Some err →
  let n := readRetryCount instance in
  let instance' := annotate retryCountKey (Sprintf_d (add64 n 1)) instance in
  let upd := Update instance' (reconcileLogic instance (Get req w).2).2 in
  ReconcileWithRetry req w
  = if bool_decide (add64 n 1 > 10)
    then ((Result0, Some err),
          (RecorderEvent "Warning" "ReconciliationFailed"
             "Max retries exceeded" upd.2).2)
    else (({| Requeue := false; RequeueAfter := backoffOf n |}, None), upd.2).
Proof.
  intros Hget Hfail. cbv zeta.
  unfold ReconcileWithRetry, mbind, M_bind.
  destruct (Get req w) as [got w1]. cbn [fst snd] in *. subst got.
  destruct (reconcileLogic instance w1) as [res w2]. cbn [fst snd] in *.
  subst res. rewrite annotate_nil.
  destruct (Update _ w2) as [r w3]. cbn [fst snd].
  case_bool_decide; [|done].
  by destruct (RecorderEvent _ _ _ w3).
Qed.

(** A successful attempt: a positive count is reset with one update. *)
Lemma ReconcileWithRetry_success req w instance :
  (Get req w).1 = inl instance →
  (reconcileLogic instance (Get req w).2).1 = None →
  let w2 := (reconcileLogic instance (Get req w).2).2 in
  ReconcileWithRetry req w
  = (({| Requeue := false; RequeueAfter := 5 * Minute |}, None),
     if bool_decide (readRetryCount instance > 0)
     then (Update (annotate retryCountKey "0" instance) w2).2 else w2).
Proof.
  intros Hget Hok. cbv zeta.
  unfold ReconcileWithRetry, mbind, M_bind.
  destruct (Get req w) as [got w1]. cbn [fst snd] in *. subst got.
  destruct (reconcileLogic instance w1) as [res w2]. cbn [fst snd] in *.
  subst res. case_bool_decide; [|done].
  by destruct (Update _ w2) as [r w3].
Qed.
Lemma add64_succ n : minInt64 ≤ n < maxInt64 → add64 n 1 = n + 1.
Proof.
  intros Hn. unfold add64. apply int64_small. lia.
Qed.

(** The count that the server holds once the update of an attempt has been
    accepted. *)
Lemma storedRetryCount_after_Update instance value w :
  (Update (annotate retryCountKey value instance) w).1 = None →
  storedRetryCount (Update (annotate retryCountKey value instance) w).2
    (keyOf instance)
  = if released instance then None
    else Some (readRetryCount (annotate retryCountKey value instance)).
Proof.
  intros Hupd. destruct (Update_accepted _ _ Hupd) as (old & Hold & _ & Ho).
  unfold storedRetryCount. rewrite Ho.
  change (keyOf (annotate retryCountKey value instance))
    with (keyOf instance).
  change (released (annotate retryCountKey value instance))
    with (released instance).
  destruct (released instance).
  - by rewrite lookup_delete_eq.
  - by rewrite lookup_insert_eq.
Qed.

(** The count read from the annotation is an [int64]. *)
Lemma readRetryCount_range instance :
  minInt64 ≤ readRetryCount instance ≤ maxInt64.
Proof.
  assert (minInt64 ≤ 0 ≤ maxInt64) as Hzero by (unfold minInt64, maxInt64; lia).
  unfold readRetryCount.
  destruct (Annotations (Meta instance) ≫= (.!! retryCountKey)) as [rc|];
    [|done].
  unfold Sscanf_d.
  destruct (match SkipSpace rc with
            | String "-"%char s' => (true, s')
            | String "+"%char s' => (false, s')
            | _ => (false, SkipSpace rc)
            end) as [negative s].
  unfold ParseInt. destruct (scanNumber s); [done|].
  destruct (NilEmpty.uint_of_string _) as [u|]; [|done].
  cbn [mbind option_bind]. by case_bool_decide.
Qed.

Lemma backoffOf_out_of_range n :
  minInt64 ≤ n ≤ maxInt64 → n < 0 ∨ 64 ≤ n → backoffOf n = 0.
Proof.
  unfold minInt64, maxInt64. intros Hn Hout.
  unfold backoffOf, shl64, uint. cbv zeta.
  change (2 ^ 63) with 9223372036854775808 in Hn.
  change (2 ^ 64) with 18446744073709551616.
  assert (64 ≤ n `mod` 18446744073709551616) as Hs.
  { destruct Hout as [Hneg|Hbig].
    - rewrite <-(Z.mod_add n 1 18446744073709551616) by lia.
      rewrite Z.mod_small; lia.
    - rewrite Z.mod_small; lia. }
  rewrite (bool_decide_eq_false_2 (n `mod` 18446744073709551616 < 64))
    by lia.
  reflexivity.
Qed.

(** What a failing attempt returns, by the count that it has read. *)
Lemma ReconcileWithRetry_failure_result req w instance err :
  (Get req w).1 = inl instance →
  (reconcileLogic instance (Get req w).2).1 = Some err →
  let n := readRetryCount instance in
  (ReconcileWithRetry req w).1
  = if bool_decide (0 ≤ n ≤ 9) then
      ({| Requeue := false;
          RequeueAfter := Z.min (2 ^ n * Second) (5 * Minute) |}, None)
    else if bool_decide (10 ≤ n < maxInt64) then (Result0, Some err)
    else (Result0, None).
Proof.
  intros Hget Hfail. cbv zeta.
  rewrite (ReconcileWithRetry_failure req w instance err Hget Hfail).
  cbv zeta. pose proof (readRetryCount_range instance) as Hrange.
  set (n := readRetryCount instance) in *.
  unfold minInt64, maxInt64 in Hrange.
  destruct (bool_decide_reflect (0 ≤ n ≤ 9)) as [Hlow|Hlow].
  { rewrite add64_succ by (unfold minInt64, maxInt64; lia).
    rewrite bool_decide_eq_false_2 by lia. cbn [fst].
    by rewrite backoffOf_formula by lia. }
  destruct (bool_decide_reflect (10 ≤ n < maxInt64)) as [Hhigh|Hhigh].
  { unfold maxInt64 in Hhigh.
    rewrite add64_succ by (unfold minInt64, maxInt64; lia).
    by rewrite bool_decide_eq_true_2 by lia. }
  unfold maxInt64 in Hhigh.
  rewrite backoffOf_out_of_range
    by (unfold minInt64, maxInt64; lia).
  destruct (decide (n = 2 ^ 63 - 1)) as [->|Hmax].
  - by rewrite bool_decide_eq_false_2 by (by vm_compute).
  - rewrite add64_succ by (unfold minInt64, maxInt64; lia).
    by rewrite bool_decide_eq_false_2 by lia.
Qed.
End RetryFacts.

(** C2. A failing attempt of [ReconcileWithRetry], by the retry count [n]
    that it reads from the annotation. For [0 ≤ n ≤ 9] it asks for a requeue
    after [min(2^n s, 5 min)], a positive delay. For [10 ≤ n < MaxInt64] it
    returns the error with an empty result, which leaves the requeue to the
    rate-limited backoff of the work queue. For a negative count and for
    [MaxInt64] it returns an empty result and a nil error: the shift
    [1 << uint(retryCount)] is 0 there and the incremented count is not
    above 10, so the failure is answered like a success and nothing is
    requeued. Every count that can be read is in one of the three ranges. *)
Theorem C2_failing_attempt_by_count (req : Request)
    (w : client.World patterns.MyResource) (instance : patterns.MyResource)
    (err : error) (n : Z) :
  (client.Get req w).1 = inl instance →
  (advanced.reconcileLogic instance (client.Get req w).2).1 = Some err →
  advanced.readRetryCount instance = n →
  let out := advanced.ReconcileWithRetry req w in
  (0 ≤ n ≤ 9 →
   out.1 = ({| Requeue := false;
               RequeueAfter := Z.min (2 ^ n * Second) (5 * Minute) |}, None)
   ∧ 0 < RequeueAfter out.1.1)
  ∧ (10 ≤ n < golang.maxInt64 → out.1 = (Result0, Some err))
  ∧ (n < 0 ∨ n = golang.maxInt64 → out.1 = (Result0, None))
  ∧ (0 ≤ n ≤ 9 ∨ 10 ≤ n < golang.maxInt64 ∨ n < 0 ∨ n = golang.maxInt64).
Proof.
  intros Hget Hfail Hn. cbv zeta.
  rewrite (ReconcileWithRetry_failure_result req w instance err Hget Hfail).
  cbv zeta. pose proof (readRetryCount_range instance) as Hrange.
  rewrite Hn in *. unfold golang.minInt64, golang.maxInt64 in *.
  split_and!.
  - intros Hlow. rewrite bool_decide_eq_true_2 by done.
    split; [done|]. cbn [fst RequeueAfter].
    assert (0 < 2 ^ n) by (apply Z.pow_pos_nonneg; lia).
    unfold Minute, Second. lia.
  - intros Hhigh. rewrite bool_decide_eq_false_2 by lia.
    by rewrite bool_decide_eq_true_2 by done.
  - intros Hout. rewrite bool_decide_eq_false_2 by lia.
    by rewrite bool_decide_eq_false_2 by lia.
  - lia.
Qed.

Lemma C2_failing_attempt_by_count_witness :
  (advanced.ReconcileWithRetry samples.key0
     (samples.worldOf [samples.resRetried "-1"] [None; Some samples.failure]
        0)).1 = (Result0, None)
  ∧ (advanced.ReconcileWithRetry samples.key0
       (samples.worldOf [samples.resRetried "9223372036854775807"]
          [None; Some samples.failure] 0)).1 = (Result0, None)
  ∧ (advanced.ReconcileWithRetry samples.key0
       (samples.worldOf [samples.resRetried "3"]
          [None; Some samples.failure] 0)).1
    = ({| Requeue := false; RequeueAfter := 8 * Second |}, None).
Proof.
  split_and!.
  - pose proof (C2_failing_attempt_by_count samples.key0
                  (samples.worldOf [samples.resRetried "-1"]
                     [None; Some samples.failure] 0)
                  (samples.resRetried "-1") samples.failure (-1)
                  eq_refl eq_refl eq_refl) as (_ & _ & Hout & _).
    apply Hout. left. lia.
  - pose proof (C2_failing_attempt_by_count samples.key0
                  (samples.worldOf [samples.resRetried "9223372036854775807"]
                     [None; Some samples.failure] 0)
                  (samples.resRetried "9223372036854775807") samples.failure
                  golang.maxInt64 eq_refl eq_refl eq_refl)
      as (_ & _ & Hout & _).
    apply Hout. right. reflexivity.
  - pose proof (C2_failing_attempt_by_count samples.key0
                  (samples.worldOf [samples.resRetried "3"]
                     [None; Some samples.failure] 0)
                  (samples.resRetried "3") samples.failure 3
                  eq_refl eq_refl eq_refl) as (Hlow & _).
    destruct Hlow as [Hout _]; [lia|]. exact Hout.
Defined.

(** C6 (as amended). A failing attempt that reads a retry count [n] with
    [0 ≤ n ≤ 9] returns the delay [min(2^n s, 5 min)], and of two failing
    attempts at counts [n ≤ m ≤ 9] the one at [m] returns a delay that is
    not smaller. A successful attempt at a positive count asks for the
    regular five-minute requeue and submits an update that sets the count
    to 0; when that update is accepted, the stored object carries the count
    0 (a terminating object without finalizers is erased by the update
    instead), and the next failing attempt on the object, whatever else
    happened in between that left the store alone, returns the base delay
    of one second. *)
Theorem C6_backoff_and_reset (n m : Z) (req : Request)
    (wn wm ws : client.World patterns.MyResource)
    (instn instm insts : patterns.MyResource) (errn errm : error) :
  (client.Get req wn).1 = inl instn →
  (advanced.reconcileLogic instn (client.Get req wn).2).1 = Some errn →
  advanced.readRetryCount instn = n →
  (client.Get req wm).1 = inl instm →
  (advanced.reconcileLogic instm (client.Get req wm).2).1 = Some errm →
  advanced.readRetryCount instm = m →
  0 ≤ n → n ≤ m → m ≤ 9 →
  (client.Get req ws).1 = inl insts →
  (advanced.reconcileLogic insts (client.Get req ws).2).1 = None →
  advanced.readRetryCount insts > 0 →
  (client.Update (advanced.annotate advanced.retryCountKey "0" insts)
     (advanced.reconcileLogic insts (client.Get req ws).2).2).1 = None →
  let outn := advanced.ReconcileWithRetry req wn in
  let outm := advanced.ReconcileWithRetry req wm in
  let outs := advanced.ReconcileWithRetry req ws in
  outn.1 = ({| Requeue := false;
               RequeueAfter := Z.min (2 ^ n * Second) (5 * Minute) |}, None)
  ∧ RequeueAfter outn.1.1 ≤ RequeueAfter outm.1.1
  ∧ outs.1 = ({| Requeue := false; RequeueAfter := 5 * Minute |}, None)
  ∧ advanced.storedRetryCount outs.2 (keyOf insts)
    = (if client.released insts then None else Some 0)
  ∧ (∀ (w' : client.World patterns.MyResource) next err',
       client.objects w' = client.objects outs.2 →
       (client.Get (keyOf insts) w').1 = inl next →
       (advanced.reconcileLogic next (client.Get (keyOf insts) w').2).1
       = Some err' →
       (advanced.ReconcileWithRetry (keyOf insts) w').1
       = ({| Requeue := false; RequeueAfter := 1 * Second |}, None)).
Proof.
  intros Hgetn Hfailn Hn Hgetm Hfailm Hm Hn0 Hnm Hm9 Hgets Hoks Hcount Hupd.
  cbv zeta.
  rewrite (ReconcileWithRetry_failure_result req wn instn errn Hgetn Hfailn).
  rewrite (ReconcileWithRetry_failure_result req wm instm errm Hgetm Hfailm).
  cbv zeta. rewrite Hn, Hm.
  rewrite !bool_decide_eq_true_2 by lia. cbn [fst snd RequeueAfter].
  rewrite (ReconcileWithRetry_success req ws insts Hgets Hoks). cbv zeta.
  rewrite bool_decide_eq_true_2 by done. cbn [fst snd].
  assert (advanced.storedRetryCount
            (client.Update
               (advanced.annotate advanced.retryCountKey "0" insts)
               (advanced.reconcileLogic insts (client.Get req ws).2).2).2
            (keyOf insts)
          = if client.released insts then None else Some 0) as Hstored.
  { rewrite storedRetryCount_after_Update by done.
    destruct (client.released insts); [done|].
    f_equal. apply (readRetryCount_annotate 0). done. }
  split_and!; [done | | done | done |].
  - assert (2 ^ n ≤ 2 ^ m) by (apply Z.pow_le_mono_r; lia).
    unfold Minute, Second. lia.
  - intros w' next err' Hobjs Hget' Hfail'.
    rewrite (ReconcileWithRetry_failure_result _ w' next err' Hget' Hfail').
    cbv zeta.
    apply Get_inl in Hget'. rewrite Hobjs in Hget'.
    unfold advanced.storedRetryCount in Hstored. rewrite Hget' in Hstored.
    destruct (client.released insts); [done|].
    cbn [fmap option_fmap option_map] in Hstored.
    injection Hstored as ->. reflexivity.
Qed.

Lemma C6_backoff_and_reset_witness :
  let failing count :=
    advanced.ReconcileWithRetry samples.key0
      (samples.worldOf [samples.resRetried count]
         [None; Some samples.failure] 0) in
  let succeeding :=
    advanced.ReconcileWithRetry samples.key0
      (samples.worldOf [samples.resRetried "5"] [] 0) in
  (failing "4").1
  = ({| Requeue := false; RequeueAfter := 16 * Second |}, None)
  ∧ RequeueAfter (failing "4").1.1 ≤ RequeueAfter (failing "9").1.1
  ∧ advanced.storedRetryCount succeeding.2 samples.key0 = Some 0
  ∧ (advanced.ReconcileWithRetry samples.key0
       (client.setFaults [None; Some samples.failure] succeeding.2)).1
    = ({| Requeue := false; RequeueAfter := 1 * Second |}, None).
Proof.
  cbv zeta.
  pose proof (C6_backoff_and_reset 4 9 samples.key0
                (samples.worldOf [samples.resRetried "4"]
                   [None; Some samples.failure] 0)
                (samples.worldOf [samples.resRetried "9"]
                   [None; Some samples.failure] 0)
                (samples.worldOf [samples.resRetried "5"] [] 0)
                (samples.resRetried "4") (samples.resRetried "9")
                (samples.resRetried "5") samples.failure samples.failure
                eq_refl eq_refl eq_refl eq_refl eq_refl eq_refl) as H.
  cbv zeta in H.
  assert (0 ≤ 4) as H0 by lia.
  assert (4 ≤ 9) as H1 by lia.
  assert (9 ≤ 9) as H2 by lia.
  assert (advanced.readRetryCount (samples.resRetried "5") > 0) as Hcount
    by reflexivity.
  destruct (H H0 H1 H2 eq_refl eq_refl Hcount eq_refl)
    as (Hformula & Hmono & _ & Hreset & Hnext).
  split_and!; [exact Hformula | exact Hmono | exact Hreset |].
  apply (Hnext _ (samples.resRetried "0") samples.failure);
    reflexivity.
Defined.

(** C6, the claim as stated fails. At retry count 10 a failing attempt
    returns no delay at all, although [min(2^10 s, 5 min)] is five minutes:
    it returns the error with an empty result. And a successful reconcile
    whose update is rejected leaves the stored count as it was, here 5, so
    that the next failing attempt returns a delay of 32 seconds, not the
    base delay. *)
Lemma C6_counterexample_no_delay_and_lost_reset :
  let out10 :=
    advanced.ReconcileWithRetry samples.key0
      (samples.worldOf [samples.resRetried "10"]
         [None; Some samples.failure] 0) in
  let out5 :=
    advanced.ReconcileWithRetry samples.key0
      (samples.worldOf [samples.resRetried "5"]
         [None; None; Some ErrConflict] 0) in
  let next :=
    advanced.ReconcileWithRetry samples.key0
      (client.setFaults [None; Some samples.failure] out5.2) in
  out10.1 = ({| Requeue := false; RequeueAfter := 0 |}, Some samples.failure)
  ∧ Z.min (2 ^ 10 * Second) (5 * Minute) = 5 * Minute
  ∧ out5.1 = ({| Requeue := false; RequeueAfter := 5 * Minute |}, None)
  ∧ advanced.storedRetryCount out5.2 samples.key0 = Some 5
  ∧ next.1 = ({| Requeue := false; RequeueAfter := 32 * Second |}, None).
Proof. vm_compute. repeat split; reflexivity. Qed.

(** * Further properties of the code *)

(** ** Conditions of a [MyResource] (patterns/crd.go) *)

Section MoreConditionFacts.
Import Conditions.
Implicit Types (cs : list Condition) (c n : Condition) (t : string).

Lemma replaceFirst_GetCondition_other n cs cs' t :
  t ≠ Type_ n → replaceFirst n cs = Some cs' →
  GetCondition cs' t = GetCondition cs t.
Proof.
  intros Ht. revert cs'. induction cs as [|c cs IH]; intros cs'; simpl; [done|].
  case_decide as Hc.
  - intros [= <-]. simpl. rewrite !decide_False by congruence. done.
  - destruct (replaceFirst n cs) as [r|]; simpl; [|done].
    intros [= <-]. simpl. case_decide; [done|]. by apply IH.
Qed.

Lemma GetCondition_app_other cs n t :
  t ≠ Type_ n → GetCondition (cs ++ [n]) t = GetCondition cs t.
Proof.
  intros Ht. induction cs as [|c cs IH]; simpl.
  - by rewrite decide_False by congruence.
  - by case_decide.
Qed.

Lemma SetCondition_GetCondition_other now cs t st r m t' :
  t' ≠ t →
  GetCondition (SetCondition now cs t st r m) t' = GetCondition cs t'.
Proof.
  intros Ht. rewrite SetCondition_replaceFirst.
  destruct (replaceFirst _ cs) as [cs'|] eqn:Hr; simpl.
  - by apply (replaceFirst_GetCondition_other (mkCondition t st r m now)
                _ _ t' Ht Hr).
  - by apply (GetCondition_app_other cs (mkCondition t st r m now)).
Qed.

Lemma replaceFirst_types n cs cs' :
  replaceFirst n cs = Some cs' → types cs' = types cs.
Proof. by intros (? & _)%replaceFirst_Some. Qed.

Lemma replaceFirst_is_Some n cs :
  is_Some (replaceFirst n cs) ↔ Type_ n ∈ types cs.
Proof.
  rewrite <-not_eq_None_Some, replaceFirst_None.
  split; [|tauto]. intros Hnn. by destruct (decide (Type_ n ∈ types cs)).
Qed.

Lemma SetCondition_types now cs t st r m :
  types (SetCondition now cs t st r m)
  = if decide (t ∈ types cs) then types cs else types cs ++ [t].
Proof.
  rewrite SetCondition_replaceFirst.
  destruct (replaceFirst _ cs) as [cs'|] eqn:Hr; simpl.
  - rewrite decide_True; [by apply replaceFirst_types in Hr|].
    by apply (replaceFirst_is_Some (mkCondition t st r m now)).
  - apply replaceFirst_None in Hr. simpl in Hr.
    rewrite decide_False by done. unfold types. by rewrite fmap_app.
Qed.



End MoreConditionFacts.

Section MyResourceConditions.
Import client patterns.

Lemma patterns_SetCondition_run r t st rs m (w : World MyResource) :
  SetCondition r t st rs m w
  = (setStatus
       (setConditions
          (Conditions.SetCondition (clock w) (Conditions (Status r))
             t st rs m) (Status r)) r, w).
Proof. reflexivity. Qed.
End MyResourceConditions.

(** X1. Reading back what was set: after [SetCondition] with type [t],
    [GetCondition] for [t] gives the condition just set, stamped with the
    time of the call, and for every other type it gives what it gave
    before. *)
Theorem X1_GetCondition_after_SetCondition (r : patterns.MyResource)
    (w : client.World patterns.MyResource) (t : string)
    (st : ConditionStatus) (rs m t' : string) :
  let r' := (patterns.SetCondition r t st rs m w).1 in
  patterns.GetCondition r' t = Some (mkCondition t st rs m (client.clock w))
  ∧ (t' ≠ t → patterns.GetCondition r' t' = patterns.GetCondition r t').
Proof.
  cbv zeta. rewrite patterns_SetCondition_run. unfold patterns.GetCondition.
  cbn [fst patterns.Status patterns.setStatus patterns.Conditions
       patterns.setConditions].
  split.
  - by destruct (SetCondition_spec (client.clock w)
                   (patterns.Conditions (patterns.Status r)) t st rs m)
      as [Hget _].
  - apply SetCondition_GetCondition_other.
Qed.

(** X2. [SetCondition] changes nothing but the conditions, calls nothing,
    and keeps the order of the condition types: a type that is present
    stays where it is, a new type goes to the end. *)
Theorem X2_SetCondition_shape (r : patterns.MyResource)
    (w : client.World patterns.MyResource) (t : string)
    (st : ConditionStatus) (rs m : string) :
  let out := patterns.SetCondition r t st rs m w in
  let cs := patterns.Conditions (patterns.Status r) in
  let cs' := patterns.Conditions (patterns.Status out.1) in
  Conditions.types cs'
  = (if decide (t ∈ Conditions.types cs) then Conditions.types cs
     else Conditions.types cs ++ [t])
  ∧ patterns.Meta out.1 = patterns.Meta r
  ∧ patterns.Spec out.1 = patterns.Spec r
  ∧ patterns.setConditions cs (patterns.Status out.1) = patterns.Status r
  ∧ out.2 = w.
Proof.
  cbv zeta. rewrite patterns_SetCondition_run.
  cbn [fst snd patterns.Status patterns.setStatus patterns.Conditions
       patterns.setConditions patterns.Meta patterns.Spec
       patterns.ObservedGeneration patterns.ReadyReplicas
       patterns.LastUpdated].
  split_and!; [apply SetCondition_types | done | done | | done].
  by destruct r as [? ? []].
Qed.


(** X4. [IsReady] holds exactly when the first [Ready] condition has status
    [True]: after setting [Ready] it reports whether the status given was
    [True], setting another type does not change it, and an object without
    conditions is not ready. *)
Theorem X4_IsReady_follows_Ready_condition (r : patterns.MyResource)
    (w : client.World patterns.MyResource) (t : string)
    (st : ConditionStatus) (rs m : string) :
  patterns.IsReady (patterns.SetCondition r "Ready" st rs m w).1
  = bool_decide (st = ConditionTrue)
  ∧ (t ≠ "Ready" →
     patterns.IsReady (patterns.SetCondition r t st rs m w).1
     = patterns.IsReady r)
  ∧ (patterns.Conditions (patterns.Status r) = [] →
     patterns.IsReady r = false).
Proof.
  unfold patterns.IsReady, patterns.GetCondition.
  rewrite !patterns_SetCondition_run.
  cbn [fst patterns.Status patterns.setStatus patterns.Conditions
       patterns.setConditions].
  split_and!.
  - destruct (SetCondition_spec (client.clock w)
                (patterns.Conditions (patterns.Status r)) "Ready" st rs m)
      as [Hget _].
    cbv zeta in Hget. by rewrite Hget.
  - intros Ht. rewrite SetCondition_GetCondition_other; [done|].
    intros Heq. by destruct Ht.
  - by intros ->.
Qed.

(** ** The paths of [Reconcile] (patterns/reconciler.go) *)

Section PatternsReconcilePaths.
Import client controllerutil patterns.
Implicit Types (w : World MyResource) (instance : MyResource).

Lemma reconcileLogic_run instance w :
  let out := reconcileLogic instance w in
  Meta out.1.1 = Meta instance
  ∧ Spec out.1.1 = Spec instance
  ∧ Conditions (Status out.1.1) = Conditions (Status instance)
  ∧ ObservedGeneration (Status out.1.1) = ObservedGeneration (Status instance)
  ∧ clock out.2 = clock w
  ∧ objects out.2 = objects w
  ∧ trace out.2
    = trace w ++ [EvCall "reconcileLogic";
                  EvCreateOrPatch "Deployment" (keyOf instance)]
  ∧ (∀ err, out.1.2 = Some err →
       out.1.1 = instance
       ∧ ∃ err0, err = ErrWrap "failed to create/update deployment" err0).
Proof.
  unfold reconcileLogic. client_unfold. cbn.
  destruct (faults w) as [|[e|] fs]; cbn;
    try destruct (deployments w !! keyOf instance); cbn;
    rewrite <-?(assoc_L (++)); split_and!; try done;
    intros err [= <-]; eauto.
Qed.

Lemma updateStatus_run instance st rs m w :
  let written :=
    setStatus
      (setLastUpdated (Some (clock w))
         (setConditions
            (Conditions.SetCondition (clock w) (Conditions (Status instance))
               "Ready" st rs m) (Status instance))) instance in
  updateStatus instance st rs m w
  = ((StatusUpdateInPlace written w).1.1, (StatusUpdate written w).2).
Proof.
  unfold updateStatus, SetCondition, mbind, M_bind, mret, M_ret, Now.
  cbv zeta. cbn [fst snd].
  match goal with |- context [StatusUpdateInPlace ?x w] =>
    change x with
      (setStatus
         (setLastUpdated (Some (clock w))
            (setConditions
               (Conditions.SetCondition (clock w)
                  (Conditions (Status instance)) "Ready" st rs m)
               (Status instance))) instance) end.
  by rewrite StatusUpdateInPlace_run.
Qed.

(** The status write leaves the status in memory as it was sent. *)
Lemma StatusUpdateInPlace_status (obj : MyResource) w :
  Status (StatusUpdateInPlace obj w).1.1 = Status obj.
Proof.
  rewrite StatusUpdateInPlace_run. cbn [fst].
  destruct (StatusUpdate obj w).1; [done|].
  by destruct (objects w !! keyOf obj).
Qed.

Lemma IsReady_after_write (obj : MyResource) w :
  IsReady (StatusUpdateInPlace obj w).1.1 = IsReady obj.
Proof. unfold IsReady, GetCondition. by rewrite StatusUpdateInPlace_status. Qed.
Lemma Reconcile_business_path req w instance :
  (Get req w).1 = inl instance →
  IsZero (DeletionTimestamp (Meta instance)) = true →
  ContainsFinalizer instance finalizerName = true →
  let instance1 :=
    setStatus
      (setObservedGeneration (Generation (Meta instance)) (Status instance))
      instance in
  let lg := reconcileLogic instance1 (Get req w).2 in
  Reconcile req w
  = match lg.1.2 with
    | Some err =>
        ((Result0, Some err),
         (updateStatus lg.1.1 ConditionFalse "ReconcileError"
            (errorString err) lg.2).2)
    | None =>
        let us :=
          updateStatus lg.1.1 ConditionTrue "Ready" "MyResource is ready"
            lg.2 in
        (({| Requeue := false; RequeueAfter := getRequeueInterval us.1 |},
          None), us.2)
    end.
Proof.
  intros Hget Hlive Hfin. cbv zeta.
  unfold Reconcile, mbind, M_bind.
  destruct (Get req w) as [got w1]. cbn [fst snd] in *. subst got.
  rewrite Hlive, Hfin. cbn [negb].
  destruct (reconcileLogic _ w1) as [[instance2 [err|]] w2]; cbn [fst snd].
  - by destruct (updateStatus instance2 _ _ _ w2).
  - by destruct (updateStatus instance2 _ _ _ w2).
Qed.

Lemma written_status_facts instance now st rs m :
  let written :=
    setStatus
      (setLastUpdated (Some now)
         (setConditions
            (Conditions.SetCondition now (Conditions (Status instance))
               "Ready" st rs m) (Status instance))) instance in
  GetCondition written "Ready" = Some (mkCondition "Ready" st rs m now)
  ∧ ObservedGeneration (Status written) = ObservedGeneration (Status instance)
  ∧ LastUpdated (Status written) = Some now
  ∧ Meta written = Meta instance
  ∧ Spec written = Spec instance
  ∧ IsReady written = bool_decide (st = ConditionTrue).
Proof.
  cbv zeta. unfold IsReady, GetCondition.
  cbn [Status setStatus Conditions setConditions setLastUpdated
       ObservedGeneration LastUpdated Meta Spec].
  destruct (SetCondition_spec now (Conditions (Status instance))
              "Ready" st rs m) as [Hget _].
  cbv zeta in Hget. rewrite Hget. by split_and!.
Qed.
End PatternsReconcilePaths.

(** X5. A fetch that fails with anything but NotFound ends the call: the
    error is returned with an empty result and nothing else is done. In
    [ReconcileWithRetry], which uses [client.IgnoreNotFound], a NotFound is
    dropped in the same way as in [Reconcile]. *)
Theorem X5_fetch_error_is_returned (req : Request)
    (wp : client.World patterns.MyResource)
    (wd : client.World database.Database) (ep ed : error) :
  (client.Get req wp).1 = inr ep →
  (client.Get req wd).1 = inr ed →
  IsNotFound ed = false →
  (IsNotFound ep = false →
   patterns.Reconcile req wp = ((Result0, Some ep), (client.Get req wp).2))
  ∧ database.Reconcile req wd = ((Result0, Some ed), (client.Get req wd).2)
  ∧ advanced.ReconcileWithRetry req wp
    = ((Result0, if IsNotFound ep then None else Some ep),
       (client.Get req wp).2).
Proof.
  intros Hp Hd Hed.
  unfold patterns.Reconcile, database.Reconcile, advanced.ReconcileWithRetry,
    mbind, client.M_bind.
  destruct (client.Get req wp) as [gp wp'], (client.Get req wd) as [gd wd'].
  cbn [fst snd] in *. subst. rewrite Hed.
  split_and!; [by intros -> | done | done].
Qed.

Lemma X5_fetch_error_is_returned_witness :
  (database.Reconcile samples.key0
     (samples.worldOf [samples.db0] [Some ErrConflict] 0)).1
  = (Result0, Some ErrConflict)
  ∧ (advanced.ReconcileWithRetry samples.key0
       (samples.worldOf [] [] 0)).1 = (Result0, None).
Proof.
  pose proof (X5_fetch_error_is_returned samples.key0
                (samples.worldOf [] [] 0)
                (samples.worldOf [samples.db0] [Some ErrConflict] 0)
                ErrNotFound ErrConflict eq_refl eq_refl eq_refl)
    as (_ & Hd & Hr).
  split; [exact (f_equal fst Hd) | exact (f_equal fst Hr)].
Defined.

(** X6. A terminating object that does not carry the controller's
    finalizer is left alone: the call returns an empty result and a nil
    error, and neither the cleanup nor an update is issued. *)
Theorem X6_terminating_without_finalizer_is_left_alone (req : Request)
    (wp : client.World patterns.MyResource) (ip : patterns.MyResource)
    (wd : client.World database.Database) (id : database.Database)
    (wc : client.World cocktail.Cocktail) (c : cocktail.Cocktail) :
  (client.Get req wp).1 = inl ip →
  IsZero (DeletionTimestamp (patterns.Meta ip)) = false →
  controllerutil.ContainsFinalizer ip patterns.finalizerName = false →
  (client.Get req wd).1 = inl id →
  IsZero (DeletionTimestamp (database.Meta id)) = false →
  controllerutil.ContainsFinalizer id database.databaseFinalizer = false →
  controllerutil.ContainsFinalizer c cocktail.cocktailFinalizer = false →
  patterns.Reconcile req wp = ((Result0, None), (client.Get req wp).2)
  ∧ database.Reconcile req wd = ((Result0, None), (client.Get req wd).2)
  ∧ cocktail.reconcileDelete c wc = ((Result0, None), wc).
Proof.
  intros Hp Hpdel Hpfin Hd Hddel Hdfin Hcfin.
  unfold patterns.Reconcile, database.Reconcile, patterns.reconcileDelete,
    database.reconcileDelete, cocktail.reconcileDelete, mbind, client.M_bind.
  destruct (client.Get req wp) as [gp wp'], (client.Get req wd) as [gd wd'].
  cbn [fst snd] in *. subst.
  by rewrite Hpdel, Hddel, Hpfin, Hdfin, Hcfin.
Qed.

Lemma X6_terminating_without_finalizer_is_left_alone_witness :
  (patterns.Reconcile samples.key0
     (samples.worldOf
        [patterns.setMeta (samples.terminatingBare samples.meta0)
           samples.res0] [] 60)).1 = (Result0, None).
Proof.
  pose proof (X6_terminating_without_finalizer_is_left_alone samples.key0
    (samples.worldOf
       [patterns.setMeta (samples.terminatingBare samples.meta0)
          samples.res0] [] 60)
    (patterns.setMeta (samples.terminatingBare samples.meta0) samples.res0)
    (samples.worldOf
       [database.setMeta (samples.terminatingBare samples.meta0)
          samples.db0] [] 60)
    (database.setMeta (samples.terminatingBare samples.meta0) samples.db0)
    (samples.worldOf [samples.cocktail0] [] 60) samples.cocktail0
    eq_refl eq_refl eq_refl eq_refl eq_refl eq_refl eq_refl) as (Hp & _).
  exact (f_equal fst Hp).
Defined.

(** X7. A reconcile of a live object with the finalizer whose business
    logic succeeds always asks for a requeue after five minutes, whether or
    not the status update is accepted: the Ready condition is set to True
    in memory before the requeue interval is chosen, so the 30-second
    interval of [getRequeueInterval] is never taken. The status write, the
    last call made, carries Ready = True, the observed generation set to
    the generation, and the time of the call as LastUpdated. *)
Theorem X7_Reconcile_success_requeues_after_five_minutes (req : Request)
    (w : client.World patterns.MyResource) (instance : patterns.MyResource) :
  (client.Get req w).1 = inl instance →
  IsZero (DeletionTimestamp (patterns.Meta instance)) = true →
  controllerutil.ContainsFinalizer instance patterns.finalizerName = true →
  (patterns.reconcileLogic
     (patterns.setStatus
        (patterns.setObservedGeneration
           (Generation (patterns.Meta instance)) (patterns.Status instance))
        instance) (client.Get req w).2).1.2 = None →
  let out := patterns.Reconcile req w in
  out.1 = ({| Requeue := false; RequeueAfter := 5 * Minute |}, None)
  ∧ ∃ written r,
      last (client.trace out.2) = Some (client.EvStatusUpdate written r)
      ∧ patterns.GetCondition written "Ready"
        = Some (mkCondition "Ready" ConditionTrue "Ready"
                  "MyResource is ready" (client.clock w))
      ∧ patterns.ObservedGeneration (patterns.Status written)
        = Generation (patterns.Meta written)
      ∧ patterns.LastUpdated (patterns.Status written)
        = Some (client.clock w)
      ∧ patterns.Meta written = patterns.Meta instance
      ∧ patterns.Spec written = patterns.Spec instance.
Proof.
  intros Hget Hlive Hfin Hok. cbv zeta.
  rewrite (Reconcile_business_path req w instance Hget Hlive Hfin).
  cbv zeta. rewrite Hok.
  destruct (Get_effect req w) as (_ & _ & _ & Hclock).
  set (instance1 := patterns.setStatus _ instance) in *.
  destruct (reconcileLogic_run instance1 (client.Get req w).2)
    as (Hmeta & Hspec & Hconds & Hobs & Hclock' & _).
  set (lg := patterns.reconcileLogic instance1 (client.Get req w).2) in *.
  rewrite updateStatus_run. cbv zeta. cbn [fst snd].
  destruct (written_status_facts lg.1.1 (client.clock lg.2) ConditionTrue
              "Ready" "MyResource is ready")
    as (Hready & Hobs' & Hupdated & Hmeta' & Hspec' & Hisready).
  cbv zeta in *.
  set (written := patterns.setStatus _ lg.1.1) in *.
  split.
  - unfold patterns.getRequeueInterval.
    by rewrite IsReady_after_write, Hisready.
  - destruct (StatusUpdate_effect written lg.2) as (Htr & _).
    exists written, (client.StatusUpdate written lg.2).1.
    rewrite Htr, last_snoc, Hready, Hupdated, Hobs', Hmeta', Hspec'.
    rewrite Hclock', Hclock, Hobs, Hmeta, Hspec. by split_and!.
Qed.

Lemma X7_Reconcile_success_requeues_after_five_minutes_witness :
  (patterns.Reconcile samples.key0
     (samples.worldOf [samples.resFinalized] [None; None; Some ErrConflict]
        70)).1
  = ({| Requeue := false; RequeueAfter := 5 * Minute |}, None).
Proof.
  pose proof (X7_Reconcile_success_requeues_after_five_minutes samples.key0
                (samples.worldOf [samples.resFinalized]
                   [None; None; Some ErrConflict] 70)
                samples.resFinalized eq_refl eq_refl eq_refl eq_refl)
    as [Hout _].
  exact Hout.
Defined.

(** X8. A reconcile of a live object with the finalizer whose business
    logic fails returns that error, which wraps the error of the Deployment
    call, with an empty result; before returning it writes a status whose
    Ready condition is False with reason ReconcileError and the error text
    as message. *)
Theorem X8_Reconcile_failure_reports_condition (req : Request)
    (w : client.World patterns.MyResource) (instance : patterns.MyResource)
    (err : error) :
  (client.Get req w).1 = inl instance →
  IsZero (DeletionTimestamp (patterns.Meta instance)) = true →
  controllerutil.ContainsFinalizer instance patterns.finalizerName = true →
  (patterns.reconcileLogic
     (patterns.setStatus
        (patterns.setObservedGeneration
           (Generation (patterns.Meta instance)) (patterns.Status instance))
        instance) (client.Get req w).2).1.2 = Some err →
  let out := patterns.Reconcile req w in
  out.1 = (Result0, Some err)
  ∧ (∃ err0, err = ErrWrap "failed to create/update deployment" err0)
  ∧ ∃ written r,
      last (client.trace out.2) = Some (client.EvStatusUpdate written r)
      ∧ patterns.GetCondition written "Ready"
        = Some (mkCondition "Ready" ConditionFalse "ReconcileError"
                  (errorString err) (client.clock w))
      ∧ patterns.ObservedGeneration (patterns.Status written)
        = Generation (patterns.Meta written).
Proof.
  intros Hget Hlive Hfin Hfail. cbv zeta.
  rewrite (Reconcile_business_path req w instance Hget Hlive Hfin).
  cbv zeta. rewrite Hfail.
  destruct (Get_effect req w) as (_ & _ & _ & Hclock).
  set (instance1 := patterns.setStatus _ instance) in *.
  destruct (reconcileLogic_run instance1 (client.Get req w).2)
    as (Hmeta & Hspec & Hconds & Hobs & Hclock' & _ & _ & Hwrap).
  set (lg := patterns.reconcileLogic instance1 (client.Get req w).2) in *.
  destruct (Hwrap err Hfail) as [_ Herr0].
  rewrite updateStatus_run. cbv zeta. cbn [fst snd].
  destruct (written_status_facts lg.1.1 (client.clock lg.2) ConditionFalse
              "ReconcileError" (errorString err))
    as (Hready & Hobs' & _ & Hmeta' & _).
  cbv zeta in *.
  set (written := patterns.setStatus _ lg.1.1) in *.
  split_and!; [done | done |].
  destruct (StatusUpdate_effect written lg.2) as (Htr & _).
  exists written, (client.StatusUpdate written lg.2).1.
  rewrite Htr, last_snoc, Hready, Hobs', Hmeta'.
  rewrite Hclock', Hclock, Hobs, Hmeta. by split_and!.
Qed.

Lemma X8_Reconcile_failure_reports_condition_witness :
  (patterns.Reconcile samples.key0
     (samples.worldOf [samples.resFinalized] [None; Some samples.failure]
        70)).1
  = (Result0,
     Some (ErrWrap "failed to create/update deployment" samples.failure)).
Proof.
  pose proof (X8_Reconcile_failure_reports_condition samples.key0
                (samples.worldOf [samples.resFinalized]
                   [None; Some samples.failure] 70)
                samples.resFinalized
                (ErrWrap "failed to create/update deployment"
                   samples.failure)
                eq_refl eq_refl eq_refl eq_refl) as [Hout _].
  exact Hout.
Defined.

(** ** The Database controller: status and children
    (examples/database-operator/controllers/database_controller.go) *)

Section DatabaseStatusPaths.
Import client controllerutil database.
Implicit Types (w : World Database) (d : Database).

Lemma GetDeployment_effect (key : NamespacedName) w :
  let got := GetDeployment key w in
  trace got.2 = trace w ++ [EvGetDeployment key]
  ∧ objects got.2 = objects w
  ∧ clock got.2 = clock w
  ∧ (∀ e, got.1.2 = Some e →
       got.1.1 = {| deploymentName := ""; deploymentReadyReplicas := 0 |}).
Proof.
  client_unfold. destruct (faults w) as [|[e|] fs]; cbn;
    try destruct (deployments w !! key); cbn; split_and!; done.
Qed.

Lemma database_updateStatus_run d w :
  let got := GetDeployment (keyOf d) w in
  let ready :=
    bool_decide (deploymentReadyReplicas got.1.1 = Replicas (Spec d)) in
  let written :=
    setStatus
      {| Phase := if ready then "Ready" else "Progressing";
         ReadyReplicas := deploymentReadyReplicas got.1.1;
         ObservedGeneration := Generation (Meta d);
         Conditions :=
           if ready then
             Conditions.SetCondition (clock w) (Conditions (Status d)) "Ready"
               ConditionTrue "Ready" "Database is ready"
           else
             Conditions.SetCondition (clock w) (Conditions (Status d)) "Ready"
               ConditionFalse "Progressing"
               ("Waiting for replicas: "
                  +:+ fmt.Sprintf_d (deploymentReadyReplicas got.1.1) +:+ "/"
                  +:+ fmt.Sprintf_d (Replicas (Spec d)));
         ServiceName := Name (Meta d);
         DeploymentName := deploymentName got.1.1 |} d in
  updateStatus d w
  = if (if got.1.2 is Some e then negb (IsNotFound e) else false)
    then ((d, got.1.2), got.2)
    else (((StatusUpdateInPlace written got.2).1.1,
           (StatusUpdate written got.2).1),
          (StatusUpdate written got.2).2).
Proof.
  cbv zeta. unfold updateStatus, mbind, M_bind.
  destruct (GetDeployment_effect (keyOf d) w) as (_ & _ & Hclock & _).
  cbv zeta in Hclock.
  destruct (GetDeployment (keyOf d) w) as [[dep err] w1].
  cbn [fst snd] in *.
  destruct (if err is Some e then negb (IsNotFound e) else false); [done|].
  unfold SetCondition, mbind, M_bind, mret, M_ret, Now.
  rewrite <-Hclock.
  cbn [Spec setStatus Status Meta Conditions setPhase setConditions Phase
       ReadyReplicas ObservedGeneration ServiceName DeploymentName].
  case_bool_decide; cbn [fst snd];
    match goal with |- _ = (_, _, (StatusUpdate ?x w1).2) =>
      rewrite <-(StatusUpdateInPlace_err x w1),
        <-(StatusUpdateInPlace_world x w1);
      transitivity (let '(a, w') := StatusUpdateInPlace x w1 in
                    (let '(database, err) := a in
                     λ w, ((database, err), w)) w');
        [reflexivity | by destruct (StatusUpdateInPlace x w1) as [[? ?] ?]]
    end.
Qed.

(** The status write leaves the status in memory as it was sent. *)
Lemma database_StatusUpdateInPlace_status d w :
  Status (StatusUpdateInPlace d w).1.1 = Status d.
Proof.
  rewrite StatusUpdateInPlace_run. cbn [fst].
  destruct (StatusUpdate d w).1; [done|].
  by destruct (objects w !! keyOf d).
Qed.

Lemma database_IsReady_after_write d w :
  IsReady (StatusUpdateInPlace d w).1.1 = IsReady d.
Proof.
  unfold IsReady, GetCondition.
  by rewrite database_StatusUpdateInPlace_status.
Qed.

Lemma database_written_facts d dep now :
  let ready := bool_decide (deploymentReadyReplicas dep = Replicas (Spec d)) in
  let written :=
    setStatus
      {| Phase := if ready then "Ready" else "Progressing";
         ReadyReplicas := deploymentReadyReplicas dep;
         ObservedGeneration := Generation (Meta d);
         Conditions :=
           if ready then
             Conditions.SetCondition now (Conditions (Status d)) "Ready"
               ConditionTrue "Ready" "Database is ready"
           else
             Conditions.SetCondition now (Conditions (Status d)) "Ready"
               ConditionFalse "Progressing"
               ("Waiting for replicas: "
                  +:+ fmt.Sprintf_d (deploymentReadyReplicas dep) +:+ "/"
                  +:+ fmt.Sprintf_d (Replicas (Spec d)));
         ServiceName := Name (Meta d);
         DeploymentName := deploymentName dep |} d in
  IsReady written = ready
  ∧ Phase (Status written) = (if ready then "Ready" else "Progressing")
  ∧ (∃ c, GetCondition written "Ready" = Some c
          ∧ LastTransitionTime c = now
          ∧ metav1.Status c
            = (if ready then ConditionTrue else ConditionFalse)
          ∧ Reason c = (if ready then "Ready" else "Progressing")).
Proof.
  cbv zeta. unfold IsReady, GetCondition.
  cbn [Status setStatus Conditions Phase].
  case_bool_decide.
  - destruct (SetCondition_spec now (Conditions (Status d)) "Ready"
                ConditionTrue "Ready" "Database is ready") as [Hget _].
    cbv zeta in Hget. rewrite Hget. split_and!; [done..|]. eauto.
  - destruct (SetCondition_spec now (Conditions (Status d)) "Ready"
                ConditionFalse "Progressing"
                ("Waiting for replicas: "
                  +:+ fmt.Sprintf_d (deploymentReadyReplicas dep) +:+ "/"
                  +:+ fmt.Sprintf_d (Replicas (Spec d)))) as [Hget _].
    cbv zeta in Hget. rewrite Hget. split_and!; [done..|]. eauto.
Qed.

Lemma setErrorStatus_run d reason err w :
  let written :=
    setStatus
      (setConditions
         (Conditions.SetCondition (clock w) (Conditions (Status d)) "Ready"
            ConditionFalse reason (errorString err))
         (setPhase "Failed" (Status d))) d in
  setErrorStatus d reason err w
  = ((Result0, Some err), (StatusUpdate written w).2).
Proof.
  cbv zeta.
  unfold setErrorStatus, SetCondition, mbind, M_bind, mret, M_ret, Now.
  cbn [fst snd Status setStatus Conditions setPhase].
  match goal with |- _ = (_, (StatusUpdate ?x w).2) =>
    transitivity (let '(_, w') := StatusUpdate x w in
                  ((Result0, Some err), w'));
      [reflexivity | by destruct (StatusUpdate x w)] end.
Qed.
End DatabaseStatusPaths.

(** X9. [updateStatus] of the Database controller gives up before writing
    anything when the Deployment cannot be read for a reason other than
    NotFound: the error is returned, the Database in memory is as it was,
    and the read of the Deployment is the only call made. *)
Theorem X9_updateStatus_stops_on_read_error (d : database.Database)
    (w : client.World database.Database) (e : error) :
  (client.GetDeployment (keyOf d) w).1.2 = Some e →
  IsNotFound e = false →
  let out := database.updateStatus d w in
  out.1 = (d, Some e)
  ∧ client.objects out.2 = client.objects w
  ∧ client.trace out.2 = client.trace w ++ [client.EvGetDeployment (keyOf d)].
Proof.
  intros Hget Hnf. cbv zeta.
  rewrite database_updateStatus_run. cbv zeta. rewrite Hget, Hnf.
  cbn [negb fst snd].
  destruct (GetDeployment_effect (keyOf d) w) as (Htr & Hobj & _).
  by split_and!.
Qed.

Lemma X9_updateStatus_stops_on_read_error_witness :
  (database.updateStatus samples.dbFinalized
     (samples.worldOf [samples.dbFinalized] [Some ErrConflict] 80)).1
  = (samples.dbFinalized, Some ErrConflict).
Proof.
  pose proof (X9_updateStatus_stops_on_read_error samples.dbFinalized
                (samples.worldOf [samples.dbFinalized] [Some ErrConflict] 80)
                ErrConflict eq_refl eq_refl) as [Hout _].
  exact Hout.
Defined.

(** X10. Otherwise, with the Deployment read or found missing,
    [updateStatus] issues exactly one status write after the read and
    returns its outcome. The object sent has the metadata and the spec of
    the Database passed; its status copies the ready replicas and the name
    of the Deployment (zero and empty when it is missing), names the
    Service after the Database, and sets the observed generation to the
    generation. The phase is Ready and the Ready condition True exactly when
    the ready replicas equal [Spec.Replicas]; otherwise the phase is
    Progressing and the condition False. The Database left in memory has
    the status that was sent, and after an accepted write it is the object
    as the server stores it; a rejected write leaves the store as it
    was. *)
Theorem X10_updateStatus_reflects_deployment (d : database.Database)
    (w : client.World database.Database) :
  let got := client.GetDeployment (keyOf d) w in
  (∀ e, got.1.2 = Some e → IsNotFound e = true) →
  let out := database.updateStatus d w in
  let ready :=
    bool_decide
      (deploymentReadyReplicas got.1.1 = database.Replicas (database.Spec d)) in
  ∃ sent,
    out.1.2 = (client.StatusUpdate sent got.2).1
    ∧ out.2 = (client.StatusUpdate sent got.2).2
    ∧ client.trace out.2
      = client.trace w ++ [client.EvGetDeployment (keyOf d);
                           client.EvStatusUpdate sent out.1.2]
    ∧ database.Meta sent = database.Meta d
    ∧ database.Spec sent = database.Spec d
    ∧ database.ReadyReplicas (database.Status sent)
      = deploymentReadyReplicas got.1.1
    ∧ database.DeploymentName (database.Status sent)
      = deploymentName got.1.1
    ∧ database.ServiceName (database.Status sent) = Name (database.Meta d)
    ∧ database.ObservedGeneration (database.Status sent)
      = Generation (database.Meta d)
    ∧ database.Phase (database.Status sent)
      = (if ready then "Ready" else "Progressing")
    ∧ database.IsReady sent = ready
    ∧ (got.1.2 ≠ None →
       database.ReadyReplicas (database.Status sent) = 0
       ∧ database.DeploymentName (database.Status sent) = "")
    ∧ database.Status out.1.1 = database.Status sent
    ∧ match out.1.2 with
      | None => client.objects out.2 !! keyOf d = Some out.1.1
      | Some _ => client.objects out.2 = client.objects w
      end.
Proof.
  cbv zeta. intros Hnf.
  rewrite database_updateStatus_run. cbv zeta.
  destruct (GetDeployment_effect (keyOf d) w)
    as (Htr & Hobjs & Hclock & Hzero).
  cbv zeta in *.
  destruct (database_written_facts d (client.GetDeployment (keyOf d) w).1.1
              (client.clock w)) as (Hready & Hphase & _).
  cbv zeta in *.
  set (got := client.GetDeployment (keyOf d) w) in *.
  assert ((if got.1.2 is Some e then negb (IsNotFound e) else false) = false)
    as ->.
  { destruct got.1.2 as [e|] eqn:He; [|done]. by rewrite (Hnf e). }
  cbn [fst snd].
  set (sent := database.setStatus _ d) in *.
  destruct (StatusUpdate_effect sent got.2) as (Htr' & _).
  exists sent. rewrite Htr', Htr, <-(assoc_L (++)).
  split_and!; try done.
  - intros Hne. destruct got.1.2 as [e|] eqn:He; [|done].
    unfold sent. cbn [database.Status database.setStatus
      database.ReadyReplicas database.DeploymentName].
    by rewrite (Hzero e).
  - apply database_StatusUpdateInPlace_status.
  - destruct (client.StatusUpdate sent got.2).1 as [e|] eqn:Hupd.
    + by rewrite (StatusUpdate_rejected sent got.2 e).
    + change (keyOf d) with (keyOf sent).
      by apply (StatusUpdateInPlace_stored sent got.2).
Qed.

Lemma X10_updateStatus_reflects_deployment_witness :
  let out :=
    database.updateStatus samples.dbFinalized
      (samples.worldOf [samples.dbFinalized] [] 80) in
  database.Phase (database.Status out.1.1) = "Progressing"
  ∧ client.objects out.2 !! samples.key0 = Some out.1.1.
Proof.
  cbv zeta.
  pose proof (X10_updateStatus_reflects_deployment samples.dbFinalized
                (samples.worldOf [samples.dbFinalized] [] 80)) as H.
  cbv zeta in H.
  assert (∀ e, (client.GetDeployment (keyOf samples.dbFinalized)
                  (samples.worldOf [samples.dbFinalized] [] 80)).1.2 = Some e
               → IsNotFound e = true) as Hnf.
  { intros e [= <-]. reflexivity. }
  destruct (H Hnf)
    as (sent & _ & _ & _ & _ & _ & _ & _ & _ & _ & Hphase & _ & _ & Hstatus
        & Hstored).
  split; [by rewrite Hstatus, Hphase | exact Hstored].
Defined.

(** X11. [setErrorStatus] always returns the error it was given, with an
    empty result, whatever becomes of its status write. It issues that one
    write, with phase Failed and a Ready condition that is False, carries
    the given reason and the text of the error, and is stamped with the
    time of the call; the observed generation, the metadata and the spec
    are as they were. *)
Theorem X11_setErrorStatus_returns_the_error (d : database.Database)
    (reason : string) (err : error) (w : client.World database.Database) :
  let out := database.setErrorStatus d reason err w in
  out.1 = (Result0, Some err)
  ∧ ∃ written r,
      client.trace out.2 = client.trace w ++ [client.EvStatusUpdate written r]
      ∧ database.Phase (database.Status written) = "Failed"
      ∧ database.GetCondition written "Ready"
        = Some (mkCondition "Ready" ConditionFalse reason (errorString err)
                  (client.clock w))
      ∧ database.IsReady written = false
      ∧ database.ObservedGeneration (database.Status written)
        = database.ObservedGeneration (database.Status d)
      ∧ database.Meta written = database.Meta d
      ∧ database.Spec written = database.Spec d.
Proof.
  cbv zeta. rewrite setErrorStatus_run. cbv zeta. cbn [fst snd].
  split; [done|].
  set (written := database.setStatus _ d).
  destruct (StatusUpdate_effect written w) as (Htr & _).
  exists written, (client.StatusUpdate written w).1.
  destruct (SetCondition_spec (client.clock w)
              (database.Conditions (database.Status d)) "Ready"
              ConditionFalse reason (errorString err)) as [Hget _].
  cbv zeta in Hget.
  unfold database.IsReady, database.GetCondition, written.
  cbn [database.Status database.setStatus database.Conditions
       database.setConditions database.setPhase database.Phase
       database.ObservedGeneration database.Meta database.Spec].
  rewrite Hget. by split_and!.
Qed.

(** ** The fault script: which call sees which entry *)

Section ScriptFacts.
Import client.
Context `{ObjectLaws T}.
Implicit Types (w : World T) (obj : T) (key : NamespacedName).

Lemma Get_script key w :
  faults (Get key w).2 = tail (faults w)
  ∧ (hd None (faults w) = None →
     (Get key w).1 = from_option inl (inr ErrNotFound) (objects w !! key)).
Proof.
  client_unfold. destruct w as [objs ? [|[e|] fs] ? ?]; cbn;
    by destruct (objs !! key).
Qed.

Lemma StatusUpdate_script obj w :
  faults (StatusUpdate obj w).2 = tail (faults w)
  ∧ (hd None (faults w) = None → is_Some (objects w !! keyOf obj) →
     (StatusUpdate obj w).1 = None).
Proof.
  client_unfold. destruct w as [objs ? [|[e|] fs] ? ?]; cbn;
    destruct (objs !! keyOf obj); (split; [done|]);
    try done; by intros _ [? ?].
Qed.

Lemma CreateOrPatchChild_run kind key w :
  let out := CreateOrPatchChild kind key w in
  out.1 = hd None (faults w)
  ∧ faults out.2 = tail (faults w)
  ∧ trace out.2 = trace w ++ [EvCreateOrPatch kind key]
  ∧ clock out.2 = clock w
  ∧ objects out.2 = objects w
  ∧ deployments out.2 = deployments w.
Proof. client_unfold. by destruct w as [? ? [|[e|] fs] ? ?]. Qed.

Lemma CreateOrPatchDeployment_run key w :
  let out := CreateOrPatchDeployment key w in
  out.1.2 = hd None (faults w)
  ∧ faults out.2 = tail (faults w)
  ∧ trace out.2 = trace w ++ [EvCreateOrPatch "Deployment" key]
  ∧ clock out.2 = clock w
  ∧ objects out.2 = objects w
  ∧ (hd None (faults w) = None →
     deployments out.2 !! key
     = Some (default {| deploymentName := key.2;
                        deploymentReadyReplicas := 0 |}
               (deployments w !! key))).
Proof.
  client_unfold. destruct w as [? deps [|[e|] fs] ? ?]; cbn;
    destruct (deps !! key) eqn:Hdep; cbn; split_and!; try done;
    intros _; by rewrite ?lookup_insert_eq.
Qed.

Lemma GetDeployment_script key w :
  let got := GetDeployment key w in
  faults got.2 = tail (faults w)
  ∧ deployments got.2 = deployments w
  ∧ (hd None (faults w) = None →
     got.1 = from_option (λ dep, (dep, None))
               ({| deploymentName := ""; deploymentReadyReplicas := 0 |},
                Some ErrNotFound) (deployments w !! key)).
Proof.
  client_unfold. destruct w as [? deps [|[e|] fs] ? ?]; cbn;
    destruct (deps !! key) eqn:Hdep; cbn; by split_and!.
Qed.
End ScriptFacts.

Section DatabaseChildren.
Import client controllerutil database.
Implicit Types (w : World Database) (d : Database).

Lemma children_length d : (4 ≤ length (children d) ≤ 5)%nat.
Proof.
  unfold children.
  destruct (bool_decide (ConfigMapName (Spec d) = ""));
    cbn [length app]; lia.
Qed.

(** One child of [Reconcile]: on failure the error status is set, on
    success the rest runs. *)
Lemma child_step (child : M (option error)) d reason
    (rest : M (Result * option error)) w :
  (err ← child; if err is Some err then setErrorStatus d reason err else rest)
    w
  = match (child w).1 with
    | Some err => setErrorStatus d reason err (child w).2
    | None => rest (child w).2
    end.
Proof. unfold mbind, M_bind. by destruct (child w) as [[e|] w']. Qed.

Lemma database_Reconcile_entry req w d :
  (Get req w).1 = inl d →
  IsZero (DeletionTimestamp (Meta d)) = true →
  ContainsFinalizer d databaseFinalizer = true →
  let d1 := setStatus (setPhase "Reconciling" (Status d)) d in
  Reconcile req w
  = (err ← reconcilePVC d1;
     if err is Some err then setErrorStatus d1 "PVCCreateFailed" err
     else
     err ← reconcileSecret d1;
     if err is Some err then setErrorStatus d1 "SecretCreateFailed" err
     else
     err ← reconcileConfigMap d1;
     if err is Some err then setErrorStatus d1 "ConfigMapCreateFailed" err
     else
     err ← reconcileDeployment d1;
     if err is Some err then setErrorStatus d1 "DeploymentCreateFailed" err
     else
     err ← reconcileService d1;
     if err is Some err then setErrorStatus d1 "ServiceCreateFailed" err
     else
     '(database, err) ← updateStatus d1;
     if err is Some err then mret (Result0, Some err)
     else
     let requeueAfter := 1 * Minute in
     let requeueAfter :=
       if negb (IsReady database) then 10 * Second else requeueAfter in
     mret ({| Requeue := false; RequeueAfter := requeueAfter |}, None))
      (StatusUpdate d1 (Get req w).2).2.
Proof.
  intros Hget Hlive Hfin. cbv zeta.
  unfold Reconcile at 1. unfold mbind at 1, M_bind at 1.
  destruct (Get req w) as [got w1]. cbn [fst snd] in *. subst got.
  rewrite Hlive, Hfin. cbn [negb].
  unfold mbind at 1, M_bind at 1.
  by destruct (StatusUpdate _ w1).
Qed.

Local Abbreviation effect child kind key w :=
  ((child w).1 = hd None (faults w)
   ∧ faults (child w).2 = tail (faults w)
   ∧ trace (child w).2 = trace w ++ [EvCreateOrPatch kind key]
   ∧ clock (child w).2 = clock w
   ∧ objects (child w).2 = objects w).

Lemma reconcilePVC_effect d w :
  effect (reconcilePVC d) "PersistentVolumeClaim" (keyOf d) w.
Proof.
  destruct (CreateOrPatchChild_run "PersistentVolumeClaim" (keyOf d) w)
    as (? & ? & ? & ? & ? & Hd).
  unfold reconcilePVC. by split_and!.
Qed.

Lemma reconcileSecret_effect d w :
  effect (reconcileSecret d) "Secret"
    (Namespace (Meta d),
     if bool_decide (PasswordSecretName (Spec d) = "")
     then Name (Meta d) +:+ "-password" else PasswordSecretName (Spec d)) w.
Proof.
  unfold reconcileSecret. cbv zeta.
  match goal with |- context [CreateOrPatchChild ?k ?key w] =>
    destruct (CreateOrPatchChild_run k key w) as (? & ? & ? & ? & ? & Hd)
  end.
  by split_and!.
Qed.

Lemma reconcileConfigMap_effect d w :
  ConfigMapName (Spec d) ≠ "" →
  effect (reconcileConfigMap d) "ConfigMap"
    (Namespace (Meta d), ConfigMapName (Spec d)) w.
Proof.
  intros Hcm. unfold reconcileConfigMap.
  rewrite (bool_decide_eq_false_2 _ Hcm).
  match goal with |- context [CreateOrPatchChild ?k ?key w] =>
    destruct (CreateOrPatchChild_run k key w) as (? & ? & ? & ? & ? & Hd)
  end.
  by split_and!.
Qed.

Lemma reconcileConfigMap_skip d w :
  ConfigMapName (Spec d) = "" → reconcileConfigMap d w = (None, w).
Proof.
  intros Hcm. unfold reconcileConfigMap.
  by rewrite (bool_decide_eq_true_2 _ Hcm).
Qed.

Lemma reconcileDeployment_effect d w :
  effect (reconcileDeployment d) "Deployment" (keyOf d) w.
Proof.
  unfold reconcileDeployment, mbind, M_bind.
  destruct (CreateOrPatchDeployment_run (keyOf d) w)
    as (? & ? & ? & ? & ? & ?).
  cbv zeta in *.
  destruct (CreateOrPatchDeployment (keyOf d) w) as [[dep e] w'].
  by split_and!.
Qed.

Lemma reconcileService_effect d w :
  effect (reconcileService d) "Service" (keyOf d) w.
Proof.
  destruct (CreateOrPatchChild_run "Service" (keyOf d) w)
    as (? & ? & ? & ? & ? & Hd).
  unfold reconcileService. by split_and!.
Qed.

Lemma reconcilePVC_deployments d w :
  deployments (reconcilePVC d w).2 = deployments w.
Proof. apply CreateOrPatchChild_run. Qed.

Lemma reconcileSecret_deployments d w :
  deployments (reconcileSecret d w).2 = deployments w.
Proof. apply CreateOrPatchChild_run. Qed.

Lemma reconcileConfigMap_deployments d w :
  deployments (reconcileConfigMap d w).2 = deployments w.
Proof.
  unfold reconcileConfigMap.
  case_bool_decide; [done | apply CreateOrPatchChild_run].
Qed.

Lemma reconcileService_deployments d w :
  deployments (reconcileService d w).2 = deployments w.
Proof. apply CreateOrPatchChild_run. Qed.

Lemma reconcileDeployment_deployments d w :
  hd None (faults w) = None →
  deployments (reconcileDeployment d w).2 !! keyOf d
  = Some (default {| deploymentName := Name (Meta d);
                     deploymentReadyReplicas := 0 |}
            (deployments w !! keyOf d)).
Proof.
  destruct (CreateOrPatchDeployment_run (keyOf d) w)
    as (_ & _ & _ & _ & _ & Hdep).
  unfold reconcileDeployment, mbind, M_bind. cbv zeta in *.
  by destruct (CreateOrPatchDeployment (keyOf d) w) as [[dep e] w'].
Qed.
End DatabaseChildren.

Section DatabaseChildFailure.
Import client controllerutil database.
Implicit Types (w : World Database) (d : Database).

(** The world after some of the calls of a run that began in [w]: what is
    left of the script, the events so far, and the clock. *)
Ltac call_child L :=
  rewrite child_step;
  lazymatch goal with
  | HF : faults ?W = _, HT : trace ?W = _, HC : clock ?W = _ |- _ =>
      destruct (L W) as (Hout' & Hfaults' & Htrace' & Hclock' & _);
      rewrite HF in Hout', Hfaults'; rewrite HT in Htrace';
      rewrite HC in Hclock';
      cbn [hd tail replicate app] in Hout', Hfaults'; rewrite Hout';
      clear HF HT HC Hout';
      rename Hfaults' into HF, Htrace' into HT, Hclock' into HC
  end.

Ltac next_child L :=
  call_child L;
  lazymatch goal with
  | HF : faults ?W' = _ |- _ =>
      let w' := fresh "w" in
      set (w' := W') in *; clearbody w'
  end.

Ltac failed_here :=
  lazymatch goal with
  | HT : trace ?W = _, HC : clock ?W = _ |- _ =>
      eexists _, W, _; split_and!;
        [reflexivity | reflexivity
        | rewrite HT; cbn [take fmap list_fmap app];
          rewrite <-!(assoc_L (++)); reflexivity
        | exact HC]
  end.

Lemma database_Reconcile_child_failure req w d o k err rest :
  objects w !! req = Some d →
  IsZero (DeletionTimestamp (Meta d)) = true →
  ContainsFinalizer d databaseFinalizer = true →
  faults w = None :: o :: replicate k None ++ Some err :: rest →
  (k < length (children d))%nat →
  let d1 := setStatus (setPhase "Reconciling" (Status d)) d in
  ∃ child wk r1,
    children d !! k = Some child
    ∧ Reconcile req w = setErrorStatus d1 child.2 err wk
    ∧ trace wk
      = trace w ++ [EvGet req; EvStatusUpdate d1 r1]
          ++ ((λ c, EvCreateOrPatch c.1.1 c.1.2) <$> take (S k) (children d))
    ∧ clock wk = clock w.
Proof.
  intros Hobj Hlive Hfin Hscript Hk. cbv zeta.
  destruct (Get_script req w) as [HF Hget].
  destruct (Get_effect req w) as (HT & _ & _ & HC).
  rewrite Hscript in HF, Hget. cbn [hd tail] in HF, Hget.
  unfold Request in *. rewrite Hobj in Hget. specialize (Hget eq_refl).
  cbn [from_option] in Hget.
  rewrite (database_Reconcile_entry req w d Hget Hlive Hfin). cbv zeta.
  set (d1 := setStatus (setPhase "Reconciling" (Status d)) d).
  set (w1 := (Get req w).2) in *. clearbody w1.
  destruct (StatusUpdate_script d1 w1) as [HF2 _].
  destruct (StatusUpdate_effect d1 w1) as (HT2 & _ & HC2).
  rewrite HF in HF2. rewrite HT in HT2. rewrite HC in HC2.
  cbn [tail] in HF2.
  set (r1 := (StatusUpdate d1 w1).1) in *. clearbody r1.
  set (w2 := (StatusUpdate d1 w1).2) in *. clearbody w2.
  clear HF HT HC Hget Hscript Hobj w1.
  unfold children in *.
  destruct (bool_decide_reflect (ConfigMapName (Spec d) = "")) as [Hcm|Hcm];
    cbn [length app] in Hk;
    (destruct k as [|[|[|[|[|k]]]]]; [..|lia]); try lia.
  - call_child (reconcilePVC_effect d1). failed_here.
  - next_child (reconcilePVC_effect d1).
    call_child (reconcileSecret_effect d1). failed_here.
  - next_child (reconcilePVC_effect d1).
    next_child (reconcileSecret_effect d1).
    rewrite child_step, (reconcileConfigMap_skip d1 _ Hcm). cbn [fst snd].
    call_child (reconcileDeployment_effect d1). failed_here.
  - next_child (reconcilePVC_effect d1).
    next_child (reconcileSecret_effect d1).
    rewrite child_step, (reconcileConfigMap_skip d1 _ Hcm). cbn [fst snd].
    next_child (reconcileDeployment_effect d1).
    call_child (reconcileService_effect d1). failed_here.
  - call_child (reconcilePVC_effect d1). failed_here.
  - next_child (reconcilePVC_effect d1).
    call_child (reconcileSecret_effect d1). failed_here.
  - next_child (reconcilePVC_effect d1).
    next_child (reconcileSecret_effect d1).
    call_child (λ w, reconcileConfigMap_effect d1 w Hcm). failed_here.
  - next_child (reconcilePVC_effect d1).
    next_child (reconcileSecret_effect d1).
    next_child (λ w, reconcileConfigMap_effect d1 w Hcm).
    call_child (reconcileDeployment_effect d1). failed_here.
  - next_child (reconcilePVC_effect d1).
    next_child (reconcileSecret_effect d1).
    next_child (λ w, reconcileConfigMap_effect d1 w Hcm).
    next_child (reconcileDeployment_effect d1).
    call_child (reconcileService_effect d1). failed_here.
Qed.

Ltac ok_child L LD :=
  rewrite child_step;
  lazymatch goal with
  | HF : faults ?W = _, HT : trace ?W = _, HC : clock ?W = _,
    HO : objects ?W = _ |- _ =>
      destruct (L W) as (Hout' & Hfaults' & Htrace' & Hclock' & Hobjects');
      pose proof (LD W) as Hdeployments';
      rewrite HF in Hout', Hfaults'; rewrite HT in Htrace';
      rewrite HC in Hclock'; rewrite HO in Hobjects';
      cbn [hd tail] in Hout', Hfaults'; rewrite Hout';
      clear HT HC HO Hout';
      rename Htrace' into HT, Hclock' into HC, Hobjects' into HO
  end.

Ltac ok_next :=
  lazymatch goal with
  | HF : faults ?W = _, HF' : faults ?W' = _, HD : deployments ?W = _,
    HD' : deployments ?W' = deployments ?W |- _ =>
      rewrite HD in HD'; clear HF HD;
      rename HF' into HF, HD' into HD;
      let w' := fresh "w" in set (w' := W') in *; clearbody w'
  end.

Lemma database_children_succeed d w (rest : M (Result * option error)) :
  faults w = [] →
  ∃ w',
    (err ← reconcilePVC d;
     if err is Some err then setErrorStatus d "PVCCreateFailed" err
     else
     err ← reconcileSecret d;
     if err is Some err then setErrorStatus d "SecretCreateFailed" err
     else
     err ← reconcileConfigMap d;
     if err is Some err then setErrorStatus d "ConfigMapCreateFailed" err
     else
     err ← reconcileDeployment d;
     if err is Some err then setErrorStatus d "DeploymentCreateFailed" err
     else
     err ← reconcileService d;
     if err is Some err then setErrorStatus d "ServiceCreateFailed" err
     else rest) w = rest w'
    ∧ faults w' = []
    ∧ trace w'
      = trace w ++ ((λ c, EvCreateOrPatch c.1.1 c.1.2) <$> children d)
    ∧ clock w' = clock w
    ∧ objects w' = objects w
    ∧ deployments w' !! keyOf d
      = Some (default {| deploymentName := Name (Meta d);
                         deploymentReadyReplicas := 0 |}
                (deployments w !! keyOf d)).
Proof.
  intros HF.
  set (tr := trace w). set (clk := clock w). set (objs := objects w).
  set (deps := deployments w).
  assert (trace w = tr ++ []) as HT by by rewrite (right_id_L [] (++)).
  assert (clock w = clk) as HC by done.
  assert (objects w = objs) as HO by done.
  assert (deployments w = deps) as HD by done.
  clearbody tr clk objs deps.
  ok_child (reconcilePVC_effect d) (reconcilePVC_deployments d). ok_next.
  ok_child (reconcileSecret_effect d) (reconcileSecret_deployments d). ok_next.
  assert (∃ w2, ∀ rest' : M (Result * option error),
            (err ← reconcileConfigMap d;
             if err is Some err
             then setErrorStatus d "ConfigMapCreateFailed" err
             else rest') w1 = rest' w2
            ∧ faults w2 = []
            ∧ trace w2
              = tr ++ ((λ c, EvCreateOrPatch c.1.1 c.1.2)
                         <$> take (length (children d) - 2) (children d))
            ∧ clock w2 = clk ∧ objects w2 = objs ∧ deployments w2 = deps)
    as (w2 & Hcm).
  { unfold children.
    destruct (bool_decide_reflect (ConfigMapName (Spec d) = "")) as [Hcm|Hcm].
    - exists w1. intros rest'.
      rewrite child_step, (reconcileConfigMap_skip d _ Hcm). cbn [fst snd].
      split_and!; try done. by rewrite HT, <-!(assoc_L (++)).
    - exists (reconcileConfigMap d w1).2. intros rest'.
      rewrite child_step.
      destruct (reconcileConfigMap_effect d w1 Hcm)
        as (Hout' & Hfaults' & Htrace' & Hclock' & Hobjects').
      pose proof (reconcileConfigMap_deployments d w1) as Hdeployments'.
      rewrite HF in Hout', Hfaults'. cbn [hd tail] in Hout', Hfaults'.
      rewrite Hout', Htrace', HT, Hclock', Hobjects', Hdeployments'.
      split_and!; try done. by rewrite <-!(assoc_L (++)). }
  clear HF HT HC HO HD.
  destruct (Hcm (err ← reconcileDeployment d;
                 if err is Some err
                 then setErrorStatus d "DeploymentCreateFailed" err
                 else
                 err ← reconcileService d;
                 if err is Some err
                 then setErrorStatus d "ServiceCreateFailed" err
                 else rest)) as (-> & HF & HT & HC & HO & HD).
  clear Hcm.
  rewrite child_step.
  destruct (reconcileDeployment_effect d w2)
    as (Hout' & Hfaults' & Htrace' & Hclock' & Hobjects').
  pose proof (reconcileDeployment_deployments d w2) as Hdeployments'.
  rewrite HF in Hout', Hfaults', Hdeployments'.
  specialize (Hdeployments' eq_refl).
  cbn [hd tail] in Hout', Hfaults'. rewrite Hout'.
  set (w3 := (reconcileDeployment d w2).2) in *. clearbody w3.
  rewrite child_step.
  destruct (reconcileService_effect d w3)
    as (Hout'' & Hfaults'' & Htrace'' & Hclock'' & Hobjects'').
  pose proof (reconcileService_deployments d w3) as Hdeployments''.
  rewrite Hfaults' in Hout'', Hfaults''. cbn [hd tail] in Hout'', Hfaults''.
  rewrite Hout''.
  exists (reconcileService d w3).2.
  rewrite Htrace'', Htrace', HT, Hclock'', Hclock', HC, Hobjects'',
    Hobjects', HO, Hdeployments'', Hdeployments', HD.
  split_and!; try done.
  rewrite <-!(assoc_L (++)). f_equal.
  unfold children.
  destruct (bool_decide (ConfigMapName (Spec d) = "")); reflexivity.
Qed.
End DatabaseChildFailure.

(** X12. [Reconcile] of the Database controller stops at the first child
    that fails. On a live Database with the finalizer, when the fetch goes
    through and the call for child number [k] (counted from 0 in the order
    PersistentVolumeClaim, Secret, ConfigMap if one is named, Deployment,
    Service) is the first to fail, the error of that call is returned with
    an empty result; the calls made are the fetch, the status write that
    announces phase Reconciling, the create-or-patch calls for the children
    up to number [k] and no further, and one last status write with phase
    Failed and a Ready condition that is False and carries the reason of
    that child and the text of the error. The outcome [o] of the first
    status write does not matter. *)
Theorem X12_Reconcile_stops_at_first_failing_child (req : Request)
    (w : client.World database.Database) (d : database.Database)
    (o : option error) (k : nat) (err : error) (rest : list (option error)) :
  client.objects w !! req = Some d →
  IsZero (DeletionTimestamp (database.Meta d)) = true →
  controllerutil.ContainsFinalizer d database.databaseFinalizer = true →
  client.faults w = None :: o :: replicate k None ++ Some err :: rest →
  (k < length (database.children d))%nat →
  let d1 :=
    database.setStatus
      (database.setPhase "Reconciling" (database.Status d)) d in
  let out := database.Reconcile req w in
  out.1 = (Result0, Some err)
  ∧ ∃ child written r1 r2,
      database.children d !! k = Some child
      ∧ client.trace out.2
        = client.trace w
            ++ [client.EvGet req; client.EvStatusUpdate d1 r1]
            ++ ((λ c, client.EvCreateOrPatch c.1.1 c.1.2)
                  <$> take (S k) (database.children d))
            ++ [client.EvStatusUpdate written r2]
      ∧ database.Phase (database.Status written) = "Failed"
      ∧ database.GetCondition written "Ready"
        = Some (mkCondition "Ready" ConditionFalse child.2 (errorString err)
                  (client.clock w)).
Proof.
  intros Hobj Hlive Hfin Hscript Hk. cbv zeta.
  destruct (database_Reconcile_child_failure req w d o k err rest
              Hobj Hlive Hfin Hscript Hk)
    as (child & wk & r1 & Hchild & -> & Htrace & Hclock).
  rewrite setErrorStatus_run. cbv zeta. cbn [fst snd].
  split; [done|].
  set (written := database.setStatus _ _).
  destruct (StatusUpdate_effect written wk) as (Htr & _).
  exists child, written, r1, (client.StatusUpdate written wk).1.
  destruct (SetCondition_spec (client.clock wk)
              (database.Conditions (database.Status d)) "Ready"
              ConditionFalse child.2 (errorString err)) as [Hget _].
  cbv zeta in Hget.
  rewrite Htr, Htrace, <-!(assoc_L (++)).
  unfold database.GetCondition, written.
  cbn [database.Status database.setStatus database.Conditions
       database.setConditions database.setPhase database.Phase].
  rewrite Hget, Hclock. by split_and!.
Qed.

Lemma X12_Reconcile_stops_at_first_failing_child_witness :
  (database.Reconcile samples.key0
     (samples.worldOf [samples.dbFinalized]
        [None; None; None; None; Some samples.failure] 90)).1
  = (Result0, Some samples.failure).
Proof.
  pose proof (X12_Reconcile_stops_at_first_failing_child samples.key0
                (samples.worldOf [samples.dbFinalized]
                   [None; None; None; None; Some samples.failure] 90)
                samples.dbFinalized None 2 samples.failure []
                eq_refl eq_refl eq_refl eq_refl) as H.
  cbv zeta in H.
  assert (2 < length (database.children samples.dbFinalized))%nat as Hk
    by (vm_compute; lia).
  destruct (H Hk) as [Hout _]. exact Hout.
Defined.

(** X13. A reconcile in which no call fails. On a live Database with the
    finalizer that is stored under its own name, with no fault left in the
    script, [Reconcile] creates or patches every child, in order, reads the
    Deployment back and writes the status. The Deployment it finds is the
    one that was there, or a new one without ready replicas. The call asks
    for a requeue after one minute when the ready replicas of that
    Deployment equal [Spec.Replicas], and after ten seconds otherwise; the
    stored Database then has phase Ready or Progressing accordingly, the
    observed generation equal to the generation, and its metadata and spec
    as before. *)
Theorem X13_Reconcile_without_failures (req : Request)
    (w : client.World database.Database) (d : database.Database) :
  client.objects w !! req = Some d →
  keyOf d = req →
  IsZero (DeletionTimestamp (database.Meta d)) = true →
  controllerutil.ContainsFinalizer d database.databaseFinalizer = true →
  client.faults w = [] →
  let d1 :=
    database.setStatus
      (database.setPhase "Reconciling" (database.Status d)) d in
  let out := database.Reconcile req w in
  let dep :=
    default {| deploymentName := Name (database.Meta d);
               deploymentReadyReplicas := 0 |}
      (client.deployments w !! req) in
  let ready :=
    bool_decide
      (deploymentReadyReplicas dep = database.Replicas (database.Spec d)) in
  out.1 = ({| Requeue := false;
              RequeueAfter := if ready then 1 * Minute else 10 * Second |},
           None)
  ∧ client.deployments out.2 !! req = Some dep
  ∧ (∃ written,
       client.trace out.2
       = client.trace w
           ++ [client.EvGet req; client.EvStatusUpdate d1 None]
           ++ ((λ c, client.EvCreateOrPatch c.1.1 c.1.2)
                 <$> database.children d)
           ++ [client.EvGetDeployment req;
               client.EvStatusUpdate written None]
       ∧ client.objects out.2 !! req = Some written
       ∧ database.Meta written = database.Meta d
       ∧ database.Spec written = database.Spec d
       ∧ database.Phase (database.Status written)
         = (if ready then "Ready" else "Progressing")
       ∧ database.IsReady written = ready
       ∧ database.ObservedGeneration (database.Status written)
         = Generation (database.Meta d)
       ∧ database.ReadyReplicas (database.Status written)
         = deploymentReadyReplicas dep
       ∧ database.DeploymentName (database.Status written)
         = deploymentName dep).
Proof.
  intros Hobj Hkey Hlive Hfin HF0. cbv zeta.
  destruct (Get_script req w) as [HF Hget].
  destruct (Get_effect req w) as (HT & HO & HD & HC).
  rewrite HF0 in HF, Hget. cbn [hd tail] in HF, Hget.
  unfold Request in *. rewrite Hobj in Hget. specialize (Hget eq_refl).
  cbn [from_option] in Hget.
  rewrite (database_Reconcile_entry req w d Hget Hlive Hfin). cbv zeta.
  set (d1 := database.setStatus
               (database.setPhase "Reconciling" (database.Status d)) d).
  assert (keyOf d1 = req) as Hkey1 by exact Hkey.
  set (w1 := (client.Get req w).2) in *. clearbody w1.
  (* the first status write *)
  destruct (StatusUpdate_script d1 w1) as [HF2 Hok].
  destruct (StatusUpdate_effect d1 w1) as (HT2 & HD2 & HC2).
  rewrite HF in HF2, Hok. cbn [hd tail] in HF2, Hok.
  rewrite Hkey1, HO, Hobj in Hok.
  specialize (Hok eq_refl (mk_is_Some _ _ eq_refl)).
  destruct (StatusUpdate_accepted d1 w1 Hok) as (old & Hold & HO2).
  rewrite Hkey1, HO, Hobj in Hold. injection Hold as <-.
  rewrite Hkey1, HO in HO2.
  rewrite Hok, HT in HT2. rewrite HD in HD2. rewrite HC in HC2.
  set (w2 := (client.StatusUpdate d1 w1).2) in *. clearbody w2.
  clear HF HT HO HD HC Hget Hok w1.
  (* the children *)
  match goal with |- context [mbind ?f (database.updateStatus d1)] =>
    set (rest := mbind f (database.updateStatus d1)) end.
  destruct (database_children_succeed d1 w2 rest HF2)
    as (w7 & -> & HF7 & HT7 & HC7 & HO7 & HD7).
  rewrite Hkey1, HD2 in HD7. rewrite HT2 in HT7. rewrite HC2 in HC7.
  rewrite HO2 in HO7.
  clear HF2 HT2 HD2 HC2 HO2 w2.
  (* the status *)
  unfold rest, mbind, client.M_bind.
  rewrite database_updateStatus_run. cbv zeta.
  destruct (GetDeployment_script (keyOf d1) w7) as (HF8 & HD8 & Hgot).
  destruct (GetDeployment_effect (keyOf d1) w7) as (HT8 & HO8 & HC8 & _).
  cbv zeta in *.
  rewrite HF7 in HF8, Hgot. cbn [hd tail] in HF8, Hgot.
  rewrite Hkey1, HD7 in Hgot. specialize (Hgot eq_refl).
  cbn [from_option] in Hgot. rewrite Hkey1 in *.
  set (dep := default _ (client.deployments w !! req)) in *.
  rewrite Hgot. cbn [fst snd].
  destruct (database_written_facts d1 dep (client.clock w7))
    as (Hready & Hphase & _).
  cbv zeta in Hready, Hphase.
  set (written := database.setStatus _ d1) in *.
  set (w8 := (client.GetDeployment req w7).2) in *.
  destruct (StatusUpdate_script written w8) as [HF9 Hok].
  destruct (StatusUpdate_effect written w8) as (HT9 & HD9 & HC9).
  assert (keyOf written = req) as Hkeyw by exact Hkey.
  rewrite HF8 in Hok. cbn [hd] in Hok.
  rewrite Hkeyw, HO8, HO7, lookup_insert_eq in Hok.
  specialize (Hok eq_refl (mk_is_Some _ _ eq_refl)).
  destruct (StatusUpdate_accepted written w8 Hok) as (old & Hold & HO9).
  rewrite Hkeyw, HO8, HO7, lookup_insert_eq in Hold. injection Hold as <-.
  rewrite Hkeyw in HO9.
  rewrite Hok. cbn [fst snd]. rewrite database_IsReady_after_write, Hready.
  unfold mret, client.M_ret. cbn [fst snd].
  change (database.Spec d1) with (database.Spec d) in *.
  change (database.Meta d1) with (database.Meta d) in *.
  assert (withStatusOf written (withStatusOf d1 d) = written) as Hstored
    by done.
  split_and!.
  - by destruct (bool_decide _).
  - by rewrite HD9, HD8.
  - exists written.
    rewrite HT9, Hok, HT8, HT7, HO9, lookup_insert_eq, <-!(assoc_L (++)).
    by split_and!.
Qed.

Lemma X13_Reconcile_without_failures_witness :
  (database.Reconcile samples.key0
     (samples.worldOf [samples.dbFinalized] [] 90)).1
  = ({| Requeue := false; RequeueAfter := 10 * Second |}, None).
Proof.
  pose proof (X13_Reconcile_without_failures samples.key0
                (samples.worldOf [samples.dbFinalized] [] 90)
                samples.dbFinalized eq_refl eq_refl eq_refl eq_refl eq_refl)
    as [Hout _].
  exact Hout.
Defined.

(** ** Retry counts, skips and events (patterns/advanced-reconciler.go) *)

Section MoreRetryFacts.
Import client golang fmt patterns advanced.
Implicit Types (w : World MyResource) (instance : MyResource).

Lemma annotate_facts key value instance :
  let instance' := annotate key value instance in
  (Annotations (Meta instance') ≫= (.!! key)) = Some value
  ∧ (∀ k, k ≠ key →
       (Annotations (Meta instance') ≫= (.!! k))
       = (Annotations (Meta instance) ≫= (.!! k)))
  ∧ Labels (Meta instance') = Labels (Meta instance)
  ∧ Finalizers (Meta instance') = Finalizers (Meta instance)
  ∧ Generation (Meta instance') = Generation (Meta instance)
  ∧ keyOf instance' = keyOf instance
  ∧ Spec instance' = Spec instance
  ∧ Status instance' = Status instance.
Proof.
  cbv zeta. unfold annotate.
  cbn [Meta setMeta Annotations setAnnotations Labels Finalizers Generation
       Spec Status mbind option_bind].
  split_and!; try done.
  - by rewrite lookup_insert_eq.
  - intros k Hk. rewrite lookup_insert_ne by done.
    by destruct (Annotations (Meta instance)).
Qed.
End MoreRetryFacts.

(** X14. Retry counts outside 0..63. The annotation is free text, so the
    count read from it can be negative or large. For a negative count and
    for a count of 64 or more the shift [1 << uint(retryCount)] is 0, and so
    is the delay. A failing attempt at a negative count therefore returns
    an empty result and a nil error, exactly what a reconcile with nothing
    left to do returns: no requeue is asked for. *)
Theorem X14_backoff_vanishes_outside_shift_range (n : Z) (req : Request)
    (w : client.World patterns.MyResource) (instance : patterns.MyResource)
    (err : error) :
  golang.minInt64 ≤ n ≤ golang.maxInt64 →
  n < 0 ∨ 64 ≤ n →
  (client.Get req w).1 = inl instance →
  (advanced.reconcileLogic instance (client.Get req w).2).1 = Some err →
  advanced.readRetryCount instance = n →
  advanced.backoffOf n = 0
  ∧ (n < 0 → (advanced.ReconcileWithRetry req w).1 = (Result0, None)).
Proof.
  intros Hn Hout Hget Hfail Hcount.
  pose proof (backoffOf_out_of_range n Hn Hout) as Hzero.
  split; [done|]. intros Hneg.
  rewrite (ReconcileWithRetry_failure req w instance err Hget Hfail).
  cbv zeta. rewrite Hcount, Hzero.
  rewrite add64_succ by (unfold golang.minInt64, golang.maxInt64 in *; lia).
  by rewrite bool_decide_eq_false_2 by lia.
Qed.

Lemma X14_backoff_vanishes_outside_shift_range_witness :
  advanced.backoffOf (-3) = 0
  ∧ (advanced.ReconcileWithRetry samples.key0
       (samples.worldOf [samples.resRetried "-3"]
          [None; Some samples.failure] 0)).1 = (Result0, None).
Proof.
  pose proof (X14_backoff_vanishes_outside_shift_range (-3) samples.key0
                (samples.worldOf [samples.resRetried "-3"]
                   [None; Some samples.failure] 0)
                (samples.resRetried "-3") samples.failure) as H.
  assert (golang.minInt64 ≤ -3 ≤ golang.maxInt64) as Hn
    by (vm_compute; split; discriminate).
  assert ((client.Get samples.key0
             (samples.worldOf [samples.resRetried "-3"]
                [None; Some samples.failure] 0)).1
          = inl (samples.resRetried "-3")) as Hget by reflexivity.
  assert ((advanced.reconcileLogic (samples.resRetried "-3")
             (client.Get samples.key0
                (samples.worldOf [samples.resRetried "-3"]
                   [None; Some samples.failure] 0)).2).1
          = Some samples.failure) as Hfail by reflexivity.
  assert (advanced.readRetryCount (samples.resRetried "-3") = -3) as Hcount
    by reflexivity.
  assert (-3 < 0 ∨ 64 ≤ -3) as Hrange by (left; lia).
  destruct (H Hn Hrange Hget Hfail Hcount) as [Hzero Hout].
  split; [exact Hzero | apply Hout; lia].
Defined.

(** X15. What a failing attempt sends to the server. After the fetch and
    the business logic, [ReconcileWithRetry] issues exactly one update,
    followed by the warning event when it gives up. The object of that
    update carries the incremented count under the retry annotation and is
    otherwise the object that was fetched: every other annotation, the
    labels, the finalizers, the spec and the status are as they were, also
    when the object had no annotations at all. *)
Theorem X15_failed_attempt_updates_only_the_count (req : Request)
    (w : client.World patterns.MyResource) (instance : patterns.MyResource)
    (err : error) :
  (client.Get req w).1 = inl instance →
  (advanced.reconcileLogic instance (client.Get req w).2).1 = Some err →
  let out := advanced.ReconcileWithRetry req w in
  let count := golang.add64 (advanced.readRetryCount instance) 1 in
  ∃ sent r,
    client.trace out.2
    = client.trace w
        ++ [client.EvGet req; client.EvCall "reconcileLogic";
            client.EvUpdate sent r]
        ++ (if bool_decide (count > 10)
            then [client.EvRecorder "Warning" "ReconciliationFailed"
                    "Max retries exceeded"]
            else [])
    ∧ (Annotations (patterns.Meta sent) ≫= (.!! advanced.retryCountKey))
      = Some (fmt.Sprintf_d count)
    ∧ (∀ k, k ≠ advanced.retryCountKey →
         (Annotations (patterns.Meta sent) ≫= (.!! k))
         = (Annotations (patterns.Meta instance) ≫= (.!! k)))
    ∧ Labels (patterns.Meta sent) = Labels (patterns.Meta instance)
    ∧ Finalizers (patterns.Meta sent) = Finalizers (patterns.Meta instance)
    ∧ patterns.Spec sent = patterns.Spec instance
    ∧ patterns.Status sent = patterns.Status instance.
Proof.
  intros Hget Hfail. cbv zeta.
  rewrite (ReconcileWithRetry_failure req w instance err Hget Hfail).
  cbv zeta.
  set (count := golang.add64 (advanced.readRetryCount instance) 1).
  set (sent := advanced.annotate advanced.retryCountKey
                 (fmt.Sprintf_d count) instance).
  destruct (Get_effect req w) as (Htr1 & _).
  destruct (reconcileLogic_effect instance (client.Get req w).2)
    as (Htr2 & _).
  set (w2 := (advanced.reconcileLogic instance (client.Get req w).2).2) in *.
  destruct (Update_effect sent w2) as (Htr3 & _).
  destruct (annotate_facts advanced.retryCountKey (fmt.Sprintf_d count)
              instance) as (Hkey & Hother & Hlabels & Hfin & _ & _ & Hspec
                            & Hstatus).
  exists sent, (client.Update sent w2).1.
  split_and!; try done.
  case_bool_decide; cbn [fst snd].
  - unfold client.RecorderEvent, client.emit.
    cbn [snd client.trace client.setTrace].
    rewrite Htr3, Htr2, Htr1, <-!(assoc_L (++)). done.
  - rewrite Htr3, Htr2, Htr1, <-!(assoc_L (++)). done.
Qed.

Lemma X15_failed_attempt_updates_only_the_count_witness :
  ∃ sent r,
    client.trace
      (advanced.ReconcileWithRetry samples.key0
         (samples.worldOf [samples.res0] [None; Some samples.failure] 0)).2
    = [client.EvGet samples.key0; client.EvCall "reconcileLogic";
       client.EvUpdate sent r]
    ∧ (Annotations (patterns.Meta sent) ≫= (.!! advanced.retryCountKey))
      = Some "1".
Proof.
  pose proof (X15_failed_attempt_updates_only_the_count samples.key0
                (samples.worldOf [samples.res0] [None; Some samples.failure]
                   0)
                samples.res0 samples.failure eq_refl eq_refl)
    as (sent & r & Htrace & Hcount & _).
  exists sent, r. split; [exact Htrace | exact Hcount].
Defined.

(** X16. A successful attempt at a stored count that is not positive,
    which includes an object without the annotation, writes nothing: the
    fetch and the business logic are the only calls, the store is as it
    was, and the regular five-minute requeue is asked for. *)
Theorem X16_success_without_count_writes_nothing (req : Request)
    (w : client.World patterns.MyResource) (instance : patterns.MyResource) :
  (client.Get req w).1 = inl instance →
  (advanced.reconcileLogic instance (client.Get req w).2).1 = None →
  advanced.readRetryCount instance ≤ 0 →
  let out := advanced.ReconcileWithRetry req w in
  out.1 = ({| Requeue := false; RequeueAfter := 5 * Minute |}, None)
  ∧ client.objects out.2 = client.objects w
  ∧ client.trace out.2
    = client.trace w ++ [client.EvGet req; client.EvCall "reconcileLogic"]
  ∧ (Annotations (patterns.Meta instance) = None →
     advanced.readRetryCount instance = 0).
Proof.
  intros Hget Hok Hcount. cbv zeta.
  rewrite (ReconcileWithRetry_success req w instance Hget Hok). cbv zeta.
  rewrite bool_decide_eq_false_2 by lia. cbn [fst snd].
  destruct (Get_effect req w) as (Htr1 & Hobj1 & _).
  destruct (reconcileLogic_effect instance (client.Get req w).2)
    as (Htr2 & Hobj2).
  rewrite Htr2, Htr1, Hobj2, Hobj1, <-!(assoc_L (++)).
  split_and!; try done.
  unfold advanced.readRetryCount. by intros ->.
Qed.

Lemma X16_success_without_count_writes_nothing_witness :
  client.trace
    (advanced.ReconcileWithRetry samples.key0
       (samples.worldOf [samples.res0] [] 0)).2
  = [client.EvGet samples.key0; client.EvCall "reconcileLogic"].
Proof.
  pose proof (X16_success_without_count_writes_nothing samples.key0
                (samples.worldOf [samples.res0] [] 0) samples.res0
                eq_refl eq_refl) as H.
  cbv zeta in H.
  assert (advanced.readRetryCount samples.res0 ≤ 0) as Hcount
    by (vm_compute; discriminate).
  destruct (H Hcount) as (_ & _ & Htrace & _). exact Htrace.
Defined.

Section SkipFacts.
Import client controllerutil patterns advanced.
Implicit Types (w : World MyResource) (instance : MyResource).

Lemma ReconcileWithSkip_run req w instance :
  (Get req w).1 = inl instance →
  ReconcileWithSkip req w
  = (if bool_decide (annotation pausedKey instance = "true") then
       _ ← RecorderEvent "Normal" "Paused" "Reconciliation is paused";
       mret (Result0, None)
     else if bool_decide (ObservedGeneration (Status instance)
                          = Generation (Meta instance))
             && IsReady instance then
       mret ({| Requeue := false; RequeueAfter := 5 * Minute |}, None)
     else if negb (IsZero (DeletionTimestamp (Meta instance))) then
       reconcileDelete instance
     else reconcileNormal instance) (Get req w).2.
Proof.
  intros Hget. unfold ReconcileWithSkip at 1. unfold mbind at 1, M_bind at 1.
  destruct (Get req w) as [got w1]. cbn [fst snd] in *. by subst got.
Qed.
End SkipFacts.

(** X17. [ReconcileWithSkip] checks for the paused annotation and for an
    object that is up to date and ready before it looks at the deletion
    timestamp. So an object that is paused, or up to date and ready, is not
    finalized even when it is terminating and carries the finalizer: the
    call returns without an error, the cleanup is not run, no update is
    sent and the store is as it was. The same holds for a live object that
    is not skipped, which [reconcileNormal] leaves alone. A paused object
    gets an event and an empty result; an up-to-date one a requeue after
    five minutes. *)
Theorem X17_skips_come_before_deletion (req : Request)
    (w : client.World patterns.MyResource) (instance : patterns.MyResource) :
  (client.Get req w).1 = inl instance →
  let paused := advanced.annotation advanced.pausedKey instance = "true" in
  let settled :=
    patterns.ObservedGeneration (patterns.Status instance)
    = Generation (patterns.Meta instance)
    ∧ patterns.IsReady instance = true in
  paused ∨ settled
  ∨ IsZero (DeletionTimestamp (patterns.Meta instance)) = true →
  let out := advanced.ReconcileWithSkip req w in
  out.1.2 = None
  ∧ client.objects out.2 = client.objects w
  ∧ client.trace out.2
    = client.trace w
        ++ client.EvGet req
           :: (if bool_decide paused
               then [client.EvRecorder "Normal" "Paused"
                       "Reconciliation is paused"]
               else [])
  ∧ (paused → out.1.1 = Result0)
  ∧ (¬ paused → settled →
     out.1.1 = {| Requeue := false; RequeueAfter := 5 * Minute |}).
Proof.
  intros Hget paused settled Hskip. cbv zeta.
  rewrite (ReconcileWithSkip_run req w instance Hget).
  destruct (Get_effect req w) as (Htr & Hobj & _).
  subst paused settled.
  destruct (bool_decide_reflect
              (advanced.annotation advanced.pausedKey instance = "true"))
    as [Hp|Hp].
  - unfold client.RecorderEvent, client.emit, mbind, client.M_bind, mret,
      client.M_ret.
    cbn [fst snd client.trace client.objects client.setTrace].
    rewrite Htr, Hobj, <-(assoc_L (++)). by split_and!.
  - destruct (bool_decide_reflect
                (patterns.ObservedGeneration (patterns.Status instance)
                 = Generation (patterns.Meta instance))) as [Hg|Hg];
      destruct (patterns.IsReady instance) eqn:Hready; cbn [andb].
    1: { unfold mret, client.M_ret. cbn [fst snd].
         rewrite Htr, Hobj. by split_and!. }
    all: destruct Hskip as [?|[[? ?]|Hlive]]; try done;
      rewrite Hlive; cbn [negb];
      unfold advanced.reconcileNormal, mret, client.M_ret;
      cbn [fst snd]; rewrite Htr, Hobj; split_and!; try done;
      by intros _ [? ?].
Qed.

Lemma X17_skips_come_before_deletion_witness :
  let paused :=
    advanced.annotate advanced.pausedKey "true" samples.resDeleting in
  (advanced.ReconcileWithSkip samples.key0 (samples.worldOf [paused] [] 60)).1
  = (Result0, None)
  ∧ client.objects
      (advanced.ReconcileWithSkip samples.key0
         (samples.worldOf [paused] [] 60)).2
    = client.objects (samples.worldOf [paused] [] 60).
Proof.
  cbv zeta.
  pose proof (X17_skips_come_before_deletion samples.key0
                (samples.worldOf
                   [advanced.annotate advanced.pausedKey "true"
                      samples.resDeleting]
                   [] 60)
                (advanced.annotate advanced.pausedKey "true"
                   samples.resDeleting)
                eq_refl) as H.
  cbv zeta in H.
  assert (advanced.annotation advanced.pausedKey
            (advanced.annotate advanced.pausedKey "true" samples.resDeleting)
          = "true") as Hpaused by reflexivity.
  destruct (H (or_introl Hpaused)) as (Herr & Hobj & _ & Hres & _).
  split; [|exact Hobj].
  specialize (Hres Hpaused).
  destruct (advanced.ReconcileWithSkip _ _) as [[res err] w'].
  cbn [fst snd] in *.
  by rewrite Hres, Herr.
Defined.

(** X18. [ReconcileWithEvents] on an object that exists records two events
    around the business logic, first that reconciliation starts and then
    how it ended, and the second event agrees with what is returned: a
    warning with the text of the error when the error is returned, the
    success event when the result is empty and the error nil. The store is
    not written. *)
Theorem X18_ReconcileWithEvents_reports_outcome (req : Request)
    (w : client.World patterns.MyResource) (instance : patterns.MyResource) :
  (client.Get req w).1 = inl instance →
  let out := advanced.ReconcileWithEvents req w in
  out.1.1 = Result0
  ∧ client.objects out.2 = client.objects w
  ∧ client.trace out.2
    = client.trace w
        ++ [client.EvGet req;
            client.EvRecorder "Normal" "Reconciling" "Starting reconciliation";
            client.EvCall "reconcileLogic";
            match out.1.2 with
            | Some err =>
                client.EvRecorder "Warning" "ReconciliationFailed"
                  (errorString err)
            | None =>
                client.EvRecorder "Normal" "ReconciliationSucceeded"
                  "Resource reconciled successfully"
            end].
Proof.
  intros Hget. cbv zeta.
  destruct (Get_effect req w) as (Htr & Hobj & _).
  destruct (advanced.ReconcileWithEvents req w) as [[res oerr] wf] eqn:Hrun.
  unfold advanced.ReconcileWithEvents, mbind, client.M_bind in Hrun.
  destruct (client.Get req w) as [got w1]. cbn [fst snd] in *. subst got.
  unfold client.RecorderEvent at 1, client.emit at 1 in Hrun.
  set (w2 := client.setTrace _ w1) in Hrun.
  destruct (reconcileLogic_effect instance w2) as (Htr2 & Hobj2).
  destruct (advanced.reconcileLogic instance w2) as [[err|] w3];
    cbn [fst snd] in *;
    unfold client.RecorderEvent, client.emit, mret, client.M_ret in Hrun;
    injection Hrun as <- <- <-;
    cbn [fst snd client.trace client.objects client.setTrace];
    rewrite Htr2, Hobj2; unfold w2;
    cbn [client.trace client.objects client.setTrace];
    rewrite Htr, Hobj, <-!(assoc_L (++)); by split_and!.
Qed.

Lemma X18_ReconcileWithEvents_reports_outcome_witness :
  (advanced.ReconcileWithEvents samples.key0
     (samples.worldOf [samples.res0] [None; Some samples.failure] 0)).1.1
  = Result0.
Proof.
  pose proof (X18_ReconcileWithEvents_reports_outcome samples.key0
                (samples.worldOf [samples.res0] [None; Some samples.failure]
                   0) samples.res0 eq_refl) as [Hres _].
  exact Hres.
Defined.

Section MappingReadOnly.
Import client.
Context `{ObjectLaws T}.

End MappingReadOnly.


(** ** All reconcilers *)

Section ErrorsComeAlone.
Import client controllerutil.

Ltac run_paths Hrun :=
  repeat (first
    [ progress (unfold mbind, M_bind, mret, M_ret in Hrun)
    | case_match
    | progress simplify_eq ]).

Lemma patterns_Reconcile_error_alone req (w : World patterns.MyResource) :
  (patterns.Reconcile req w).1.2 = None
  ∨ (patterns.Reconcile req w).1.1 = Result0.
Proof.
  destruct (patterns.Reconcile req w) as [[res err] wf] eqn:Hrun.
  unfold patterns.Reconcile, patterns.reconcileDelete in Hrun.
  cbn [fst snd]. run_paths Hrun; auto.
Qed.

Lemma database_Reconcile_error_alone req (w : World database.Database) :
  (database.Reconcile req w).1.2 = None
  ∨ (database.Reconcile req w).1.1 = Result0.
Proof.
  destruct (database.Reconcile req w) as [[res err] wf] eqn:Hrun.
  unfold database.Reconcile, database.reconcileDelete,
    database.setErrorStatus in Hrun.
  cbn [fst snd]. run_paths Hrun; auto.
Qed.

Lemma ReconcileWithRetry_error_alone req (w : World patterns.MyResource) :
  (advanced.ReconcileWithRetry req w).1.2 = None
  ∨ (advanced.ReconcileWithRetry req w).1.1 = Result0.
Proof.
  destruct (advanced.ReconcileWithRetry req w) as [[res err] wf] eqn:Hrun.
  unfold advanced.ReconcileWithRetry in Hrun.
  cbn [fst snd]. run_paths Hrun; auto.
Qed.

Lemma ReconcileWithSkip_error_alone req (w : World patterns.MyResource) :
  (advanced.ReconcileWithSkip req w).1.2 = None
  ∨ (advanced.ReconcileWithSkip req w).1.1 = Result0.
Proof.
  destruct (advanced.ReconcileWithSkip req w) as [[res err] wf] eqn:Hrun.
  unfold advanced.ReconcileWithSkip, advanced.reconcileDelete,
    advanced.reconcileNormal in Hrun.
  cbn [fst snd]. run_paths Hrun; auto.
Qed.
End ErrorsComeAlone.

(** X20. An error never comes with a requeue request. Whatever the world,
    each of the reconcilers returns either a nil error or an empty result:
    when an error is returned, it is left to the caller to retry. *)
Theorem X20_error_comes_with_empty_result (req : Request)
    (wp : client.World patterns.MyResource)
    (wd : client.World database.Database) :
  ((patterns.Reconcile req wp).1.2 = None
   ∨ (patterns.Reconcile req wp).1.1 = Result0)
  ∧ ((database.Reconcile req wd).1.2 = None
     ∨ (database.Reconcile req wd).1.1 = Result0)
  ∧ ((advanced.ReconcileWithRetry req wp).1.2 = None
     ∨ (advanced.ReconcileWithRetry req wp).1.1 = Result0)
  ∧ ((advanced.ReconcileWithSkip req wp).1.2 = None
     ∨ (advanced.ReconcileWithSkip req wp).1.1 = Result0).
Proof.
  split_and!.
  - apply patterns_Reconcile_error_alone.
  - apply database_Reconcile_error_alone.
  - apply ReconcileWithRetry_error_alone.
  - apply ReconcileWithSkip_error_alone.
Qed.

(** X21. Deleting a Database. On a terminating Database that carries the
    controller's finalizer, [Reconcile] runs no cleanup of its own: after
    the fetch it sends one update, of the object without that finalizer,
    and returns the outcome of that update with an empty result. The other
    finalizers of the object are kept, in their order. When the update is
    accepted and other finalizers remain, the stored object has the
    finalizers that were sent; when it is accepted and no finalizer
    remains, the object is gone from the store; when it is rejected the
    store is as it was. *)
Theorem X21_database_delete_removes_only_its_finalizer (req : Request)
    (w : client.World database.Database) (d : database.Database) :
  (client.Get req w).1 = inl d →
  IsZero (DeletionTimestamp (database.Meta d)) = false →
  controllerutil.ContainsFinalizer d database.databaseFinalizer = true →
  let out := database.Reconcile req w in
  let sent := controllerutil.RemoveFinalizer d database.databaseFinalizer in
  Finalizers (database.Meta sent)
  = filter (λ f, f ≠ database.databaseFinalizer)
      (Finalizers (database.Meta d))
  ∧ ∃ r,
      out.1 = (Result0, r)
      ∧ client.trace out.2
        = client.trace w ++ [client.EvGet req; client.EvUpdate sent r]
      ∧ match r with
        | None =>
            match Finalizers (database.Meta sent) with
            | [] => client.objects out.2 !! keyOf d = None
            | _ :: _ =>
                ∃ stored, client.objects out.2 !! keyOf d = Some stored
                  ∧ Finalizers (database.Meta stored)
                    = Finalizers (database.Meta sent)
            end
        | Some _ => client.objects out.2 = client.objects w
        end.
Proof.
  intros Hget Hdel Hfin. cbv zeta.
  split; [done|].
  destruct (Get_effect req w) as (Htr & Hobj & _).
  destruct (database.Reconcile req w) as [[res err] wf] eqn:Hrun.
  unfold database.Reconcile, database.reconcileDelete, mbind,
    client.M_bind in Hrun.
  destruct (client.Get req w) as [got w1]. cbn [fst snd] in *. subst got.
  rewrite Hdel, Hfin in Hrun. cbn [negb] in Hrun.
  set (sent := controllerutil.RemoveFinalizer d database.databaseFinalizer)
    in *.
  destruct (Update_effect sent w1) as (Htr2 & _).
  pose proof (Update_accepted sent w1) as Hacc.
  pose proof (Update_rejected sent w1) as Hrej.
  destruct (client.Update sent w1) as [[e|] w2]; cbn [fst snd] in *;
    unfold mret, client.M_ret in Hrun; injection Hrun as <- <- <-.
  - exists (Some e). rewrite Htr2, Htr, <-(assoc_L (++)).
    split_and!; try done. by rewrite (Hrej e), Hobj.
  - exists None. rewrite Htr2, Htr, <-(assoc_L (++)).
    split_and!; try done.
    destruct (Hacc eq_refl) as (old & Hold & _ & ->).
    change (keyOf sent) with (keyOf d).
    unfold client.released.
    change (DeletionTimestamp (GetObjectMeta sent))
      with (DeletionTimestamp (database.Meta d)).
    change (GetObjectMeta sent) with (database.Meta sent).
    rewrite Hdel. cbn [negb andb].
    destruct (Finalizers (database.Meta sent)) as [|f fs] eqn:Hsent.
    + by rewrite bool_decide_eq_true_2, lookup_delete_eq.
    + rewrite bool_decide_eq_false_2, lookup_insert_eq by done.
      eexists. split; [done|]. exact Hsent.
Qed.

Lemma X21_database_delete_removes_only_its_finalizer_witness :
  let out :=
    database.Reconcile samples.key0
      (samples.worldOf [samples.dbDeleting] [] 60) in
  client.trace out.2
  = [client.EvGet samples.key0;
     client.EvUpdate
       (controllerutil.RemoveFinalizer samples.dbDeleting
          database.databaseFinalizer) None]
  ∧ client.objects out.2 !! samples.key0 = None.
Proof.
  cbv zeta.
  pose proof (X21_database_delete_removes_only_its_finalizer samples.key0
                (samples.worldOf [samples.dbDeleting] [] 60)
                samples.dbDeleting eq_refl eq_refl eq_refl)
    as (_ & r & Hout & Htrace & Hstore).
  assert (r = None) as -> by (by injection Hout as <-).
  split; [exact Htrace | exact Hstore].
Defined.

(** ** The webhooks (patterns/webhook.go) *)

Section ValidationFacts.
Import patterns webhook.

Lemma validateParameters_None parameters :
  validateParameters parameters = None
  ↔ ∀ key value,
      (key, value) ∈ parameters → key ≠ "" ∧ value ≠ "".
Proof.
  induction parameters as [|[k v] parameters IH]; cbn [validateParameters].
  - split; [|done]. by intros _ ? ? ?%elem_of_nil.
  - destruct (bool_decide_reflect (k = "")) as [Hk|Hk].
    { split; [done|]. intros Hall.
      destruct (Hall k v) as [? _]; [by left | done]. }
    destruct (bool_decide_reflect (v = "")) as [Hv|Hv].
    { split; [done|]. intros Hall.
      destruct (Hall k v) as [_ ?]; [by left | done]. }
    rewrite IH. split.
    + intros Hall key value [[= -> ->]|Hin]%elem_of_cons; [done|].
      by apply Hall.
    + intros Hall key value Hin. apply Hall. by right.
Qed.

Lemma isValidImageReference_true image :
  image ≠ "" → isValidImageReference image
               = bool_decide (String.length image < 512)%nat.
Proof.
  intros Hne. unfold isValidImageReference.
  rewrite bool_decide_eq_true_2; [done|].
  destruct image; [done | cbn; lia].
Qed.

Lemma validateMyResource_None getConfigMap instance :
  validateMyResource getConfigMap instance = None
  ↔ valid getConfigMap instance.
Proof.
  unfold validateMyResource, valid. cbv zeta.
  destruct (bool_decide_reflect (Replicas (Spec instance) < 0)) as [Hlo|Hlo];
    cbn [orb]; [split; [done | lia]|].
  destruct (bool_decide_reflect (Replicas (Spec instance) > 100))
    as [Hhi|Hhi]; [split; [done | lia]|].
  destruct (bool_decide_reflect (Image (Spec instance) = "")) as [Hi|Hi];
    [split; [done | tauto]|].
  rewrite (isValidImageReference_true _ Hi).
  destruct (bool_decide_reflect
              (String.length (Image (Spec instance)) < 512)%nat)
    as [Hlen|Hlen]; cbn [negb]; [|split; [done | tauto]].
  destruct (bool_decide_reflect (ConfigMapName (Spec instance) ≠ ""))
    as [Hcm|Hcm].
  - destruct (getConfigMap _) as [e|] eqn:Hget.
    + split; [done|]. intros (_ & _ & _ & Hnone & _).
      specialize (Hnone Hcm). congruence.
    + rewrite validateParameters_None. split.
      * intros Hall. split_and!; try done; try lia.
        intros key value Hin. apply Hall. by apply elem_of_map_to_list.
      * intros (_ & _ & _ & _ & Hall) key value Hin.
        apply Hall. by apply elem_of_map_to_list.
  - rewrite validateParameters_None. split.
    + intros Hall. split_and!; try done; try lia.
      intros key value Hin. apply Hall. by apply elem_of_map_to_list.
    + intros (_ & _ & _ & _ & Hall) key value Hin.
      apply Hall. by apply elem_of_map_to_list.
Qed.
End ValidationFacts.

Section MoreDefaultingFacts.
Import patterns webhook.

Local Ltac dstep :=
  cbn [Replicas Image Parameters ConfigMapName Spec Meta Status
       setSpec setMeta setReplicas setImage setParameters
       Labels setLabels Name Namespace Annotations Finalizers Generation
       DeletionTimestamp default from_option id].

Lemma setDefaults_fields instance :
  let instance' := setDefaults instance in
  let labels := default ∅ (Labels (Meta instance)) in
  let labels' := default ∅ (Labels (Meta instance')) in
  Replicas (Spec instance')
  = (if bool_decide (Replicas (Spec instance) = 0) then 1
     else Replicas (Spec instance))
  ∧ Image (Spec instance')
    = (if bool_decide (Image (Spec instance) = "") then "nginx:latest"
       else Image (Spec instance))
  ∧ ConfigMapName (Spec instance') = ConfigMapName (Spec instance)
  ∧ default ∅ (Parameters (Spec instance'))
    = default ∅ (Parameters (Spec instance))
  ∧ labels' !! "app" = Some (default (Name (Meta instance)) (labels !! "app"))
  ∧ (∀ key, key ≠ "app" → labels' !! key = labels !! key)
  ∧ Status instance' = Status instance
  ∧ setLabels (Labels (Meta instance)) (Meta instance') = Meta instance.
Proof.
  destruct instance as [[name ns gen del fin labels ann]
                          [replicas image cm params] status].
  cbv zeta. unfold setDefaults. dstep.
  destruct (bool_decide_reflect (replicas = 0)) as [Hr|Hr]; dstep.
  all: destruct (bool_decide_reflect (image = "")) as [Hi|Hi]; dstep.
  all: destruct params as [params|]; dstep.
  all: destruct labels as [labels|]; dstep.
  all: rewrite ?lookup_empty; dstep.
  all: try (destruct (labels !! "app") as [app|] eqn:Happ; dstep).
  all: rewrite ?lookup_insert_eq, ?Happ; dstep.
  all: split_and!; try done.
  all: intros key Hkey; by rewrite lookup_insert_ne.
Qed.
End MoreDefaultingFacts.

(** X22. What the validating webhook accepts. [validateMyResource] returns
    nil exactly when the replicas are between 0 and 100, the image is not
    empty and shorter than 512 bytes, the ConfigMap, if one is named, can
    be fetched, and no parameter has an empty key or an empty value. The
    verdict on the parameters is the same for every order in which they
    are visited. *)
Theorem X22_validation_accepts_exactly_the_valid
    (getConfigMap : NamespacedName → option error)
    (instance : patterns.MyResource) (parameters : list (string * string)) :
  (webhook.validateMyResource getConfigMap instance = None
   ↔ webhook.valid getConfigMap instance)
  ∧ (parameters
     ≡ₚ map_to_list
          (default ∅ (patterns.Parameters (patterns.Spec instance)))
     → (webhook.validateParameters parameters = None
        ↔ webhook.validateParameters
            (map_to_list
               (default ∅ (patterns.Parameters (patterns.Spec instance))))
          = None)).
Proof.
  split; [apply validateMyResource_None|].
  intros Hperm. rewrite !validateParameters_None.
  by setoid_rewrite Hperm.
Qed.

(** X23. Defaulting, then validation. After [setDefaults] the validator
    never rejects for a missing image: an instance as defaulted is accepted
    exactly when its replicas, as given, are between 0 and 100, its image,
    as given, is shorter than 512 bytes, and the ConfigMap and the
    parameters pass. *)
Theorem X23_defaulted_instance_is_validated
    (getConfigMap : NamespacedName → option error)
    (instance : patterns.MyResource) :
  webhook.validateMyResource getConfigMap (webhook.setDefaults instance) = None
  ↔ 0 ≤ patterns.Replicas (patterns.Spec instance) ≤ 100
    ∧ (String.length (patterns.Image (patterns.Spec instance)) < 512)%nat
    ∧ (patterns.ConfigMapName (patterns.Spec instance) ≠ "" →
       getConfigMap (Namespace (patterns.Meta instance),
                     patterns.ConfigMapName (patterns.Spec instance)) = None)
    ∧ ∀ key value,
        default ∅ (patterns.Parameters (patterns.Spec instance)) !! key
        = Some value → key ≠ "" ∧ value ≠ "".
Proof.
  rewrite validateMyResource_None. unfold webhook.valid.
  destruct (setDefaults_fields instance)
    as (Hr & Hi & Hcm & Hp & _ & _ & _ & Hmeta).
  cbv zeta in *.
  assert (Namespace (patterns.Meta (webhook.setDefaults instance))
          = Namespace (patterns.Meta instance)) as Hns.
  { transitivity
      (Namespace
         (setLabels (Labels (patterns.Meta instance))
            (patterns.Meta (webhook.setDefaults instance))));
      [reflexivity | by rewrite Hmeta]. }
  rewrite Hr, Hi, Hcm, Hp, Hns.
  destruct (bool_decide_reflect
              (patterns.Replicas (patterns.Spec instance) = 0)) as [H0|H0];
    destruct (bool_decide_reflect
                (patterns.Image (patterns.Spec instance) = "")) as [He|He];
    rewrite ?H0, ?He; cbn [String.length];
    split; intros (? & ? & ?); split_and!; try done; try lia; tauto.
Qed.

(** X24. What [setDefaults] leaves alone. Replicas that are not 0 and an
    image that is not empty are kept; the ConfigMap name, the parameters
    that were given, the status, and all metadata but the labels are
    untouched. Every label other than [app] is kept, and so is an [app]
    label that was set; only a missing [app] label is filled in, with the
    name of the instance. The result needs no further defaulting. *)
Theorem X24_setDefaults_keeps_what_is_set (instance : patterns.MyResource) :
  let instance' := webhook.setDefaults instance in
  let labels := default ∅ (Labels (patterns.Meta instance)) in
  let labels' := default ∅ (Labels (patterns.Meta instance')) in
  patterns.Replicas (patterns.Spec instance')
  = (if bool_decide (patterns.Replicas (patterns.Spec instance) = 0) then 1
     else patterns.Replicas (patterns.Spec instance))
  ∧ patterns.Image (patterns.Spec instance')
    = (if bool_decide (patterns.Image (patterns.Spec instance) = "")
       then "nginx:latest" else patterns.Image (patterns.Spec instance))
  ∧ patterns.ConfigMapName (patterns.Spec instance')
    = patterns.ConfigMapName (patterns.Spec instance)
  ∧ default ∅ (patterns.Parameters (patterns.Spec instance'))
    = default ∅ (patterns.Parameters (patterns.Spec instance))
  ∧ labels' !! "app"
    = Some (default (Name (patterns.Meta instance)) (labels !! "app"))
  ∧ (∀ key, key ≠ "app" → labels' !! key = labels !! key)
  ∧ patterns.Status instance' = patterns.Status instance
  ∧ setLabels (Labels (patterns.Meta instance)) (patterns.Meta instance')
    = patterns.Meta instance
  ∧ webhook.defaulted instance'.
Proof.
  cbv zeta.
  destruct (setDefaults_fields instance)
    as (Hr & Hi & Hcm & Hp & Happ & Hother & Hstatus & Hmeta).
  split_and!; try done. apply setDefaults_defaulted.
Qed.

(** ** The Cocktail kind (examples/simple-operator) *)

(** X25. [prepareCocktail] cannot fail, and what it reports is kept in
    memory only. It makes one call, a status write with phase Preparing,
    whose outcome it drops. The Cocktail it leaves in memory has phase
    Ready, the time of the call as the time of preparation, the conditions
    it had, and as many servings ready as its spec asks for. That spec is
    read after the write: when the write is accepted, the Cocktail in
    memory has the metadata and the spec of the stored one, while the stored
    Cocktail has phase Preparing and the servings it had before; when the
    write is rejected, the store is as it was. The preparation time, which
    is only logged, lies between one and four minutes for every recipe. *)
Theorem X25_prepareCocktail_reports_in_memory_only (c : cocktail.Cocktail)
    (w : client.World cocktail.Cocktail) :
  let out := cocktail.prepareCocktail c w in
  let sent :=
    cocktail.setStatus (cocktail.setPhase "Preparing" (cocktail.Status c)) c in
  let r := (client.StatusUpdate sent w).1 in
  out.1.2 = None
  ∧ client.trace out.2 = client.trace w ++ [client.EvStatusUpdate sent r]
  ∧ cocktail.Phase (cocktail.Status out.1.1) = "Ready"
  ∧ cocktail.LastPrepared (cocktail.Status out.1.1) = Some (client.clock w)
  ∧ cocktail.Conditions (cocktail.Status out.1.1)
    = cocktail.Conditions (cocktail.Status c)
  ∧ cocktail.ServingsReady (cocktail.Status out.1.1)
    = cocktail.Size (cocktail.Spec out.1.1)
  ∧ match r with
    | None =>
        ∃ old stored,
          client.objects w !! keyOf c = Some old
          ∧ client.objects out.2 !! keyOf c = Some stored
          ∧ cocktail.Meta stored = cocktail.Meta old
          ∧ cocktail.Spec stored = cocktail.Spec old
          ∧ cocktail.Phase (cocktail.Status stored) = "Preparing"
          ∧ cocktail.ServingsReady (cocktail.Status stored)
            = cocktail.ServingsReady (cocktail.Status c)
          ∧ cocktail.Meta out.1.1 = cocktail.Meta old
          ∧ cocktail.Spec out.1.1 = cocktail.Spec old
    | Some _ => client.objects out.2 = client.objects w
    end
  ∧ ∀ recipe,
      1 * Minute ≤ cocktail.getPreparationTime recipe ≤ 4 * Minute.
Proof.
  cbv zeta.
  set (sent := cocktail.setStatus _ c).
  destruct (StatusUpdate_effect sent w) as (Htr & _ & Hclock).
  pose proof (StatusUpdate_accepted sent w) as Hacc.
  pose proof (StatusUpdate_rejected sent w) as Hrej.
  pose proof (StatusUpdateInPlace_run sent w) as Hsip.
  destruct (cocktail.prepareCocktail c w) as [[c' err] wf] eqn:Hrun.
  unfold cocktail.prepareCocktail, mbind, client.M_bind, mret, client.M_ret,
    client.Now in Hrun.
  fold sent in Hrun. rewrite Hsip in Hrun. clear Hsip.
  destruct (client.StatusUpdate sent w) as [r w1]. cbn [fst snd] in *.
  injection Hrun as <- <- <-. cbn [fst snd].
  assert (∀ recipe,
            1 * Minute ≤ cocktail.getPreparationTime recipe ≤ 4 * Minute)
    as Htime.
  { intros recipe. unfold cocktail.getPreparationTime, Minute, Second.
    repeat case_bool_decide; lia. }
  destruct r as [e|].
  - rewrite (Hrej e eq_refl), Hclock. by split_and!.
  - destruct (Hacc eq_refl) as (old & Hold & ->).
    change (keyOf sent) with (keyOf c) in *. rewrite Hold, Hclock.
    cbn [from_option]. split_and!; try done.
    exists old, (withStatusOf sent old).
    rewrite lookup_insert_eq. by split_and!.
Qed.

(** A Cocktail whose size was changed in memory only: the servings reported
    are those of the stored spec. *)
Lemma X25_prepareCocktail_reports_in_memory_only_witness :
  let out :=
    cocktail.prepareCocktail samples.cocktailResized
      (samples.worldOf [samples.cocktail0] [] 100) in
  cocktail.Size (cocktail.Spec out.1.1) = 2
  ∧ cocktail.ServingsReady (cocktail.Status out.1.1) = 2
  ∧ cocktail.Phase (cocktail.Status out.1.1) = "Ready".
Proof.
  cbv zeta.
  pose proof (X25_prepareCocktail_reports_in_memory_only
                samples.cocktailResized
                (samples.worldOf [samples.cocktail0] [] 100))
    as (_ & _ & Hphase & _ & _ & Hservings & Hwrite & _).
  destruct Hwrite as (old & stored & Hold & _ & _ & _ & _ & _ & _ & Hspec).
  injection Hold as <-.
  rewrite Hservings, Hspec. by split_and!.
Defined.

(** X26. The condition helpers of the Database and Cocktail kinds. After
    [SetCondition] with type [t], [GetCondition] for [t] gives the
    condition just set, stamped with the time of the call; for every other
    type it gives what it gave before. [IsReady] holds exactly when the
    first Ready condition is True: after setting Ready it tells whether
    the status given was True. Nothing but the conditions is changed. *)
Theorem X26_condition_helpers_of_the_example_kinds
    (d : database.Database) (wd : client.World database.Database)
    (c : cocktail.Cocktail) (wc : client.World cocktail.Cocktail)
    (t t' : string) (st : ConditionStatus) (rs m : string) :
  let d' := (database.SetCondition d t st rs m wd).1 in
  let c' := (cocktail.SetCondition c t st rs m wc).1 in
  (database.GetCondition d' t
   = Some (mkCondition t st rs m (client.clock wd))
   ∧ (t' ≠ t → database.GetCondition d' t' = database.GetCondition d t')
   ∧ database.IsReady (database.SetCondition d "Ready" st rs m wd).1
     = bool_decide (st = ConditionTrue)
   ∧ (t ≠ "Ready" → database.IsReady d' = database.IsReady d)
   ∧ database.setConditions (database.Conditions (database.Status d))
       (database.Status d') = database.Status d
   ∧ database.Meta d' = database.Meta d
   ∧ database.Spec d' = database.Spec d)
  ∧ (cocktail.GetCondition c' t
     = Some (mkCondition t st rs m (client.clock wc))
     ∧ (t' ≠ t → cocktail.GetCondition c' t' = cocktail.GetCondition c t')
     ∧ cocktail.IsReady (cocktail.SetCondition c "Ready" st rs m wc).1
       = bool_decide (st = ConditionTrue)
     ∧ (t ≠ "Ready" → cocktail.IsReady c' = cocktail.IsReady c)
     ∧ cocktail.setConditions (cocktail.Conditions (cocktail.Status c))
         (cocktail.Status c') = cocktail.Status c
     ∧ cocktail.Meta c' = cocktail.Meta c
     ∧ cocktail.Spec c' = cocktail.Spec c).
Proof.
  cbv zeta.
  rewrite !database_SetCondition_run, !cocktail_SetCondition_run.
  unfold database.IsReady, cocktail.IsReady, database.GetCondition,
    cocktail.GetCondition.
  cbn [fst database.Status database.setStatus database.Conditions
       database.setConditions database.Meta database.Spec
       cocktail.Status cocktail.setStatus cocktail.Conditions
       cocktail.setConditions cocktail.Meta cocktail.Spec].
  destruct (SetCondition_spec (client.clock wd)
              (database.Conditions (database.Status d)) t st rs m)
    as [Hd _].
  destruct (SetCondition_spec (client.clock wd)
              (database.Conditions (database.Status d)) "Ready" st rs m)
    as [Hdr _].
  destruct (SetCondition_spec (client.clock wc)
              (cocktail.Conditions (cocktail.Status c)) t st rs m)
    as [Hc _].
  destruct (SetCondition_spec (client.clock wc)
              (cocktail.Conditions (cocktail.Status c)) "Ready" st rs m)
    as [Hcr _].
  cbv zeta in *. rewrite Hdr, Hcr.
  split; split_and!; try done.
  - apply SetCondition_GetCondition_other.
  - intros Ht. rewrite SetCondition_GetCondition_other; [done|].
    intros Heq. by destruct Ht.
  - by destruct d as [? ? []].
  - apply SetCondition_GetCondition_other.
  - intros Ht. rewrite SetCondition_GetCondition_other; [done|].
    intros Heq. by destruct Ht.
  - by destruct c as [? ? []].
Qed.
